(** * Result classification and cancellation in the probitas clients

    A shallow embedding of the parts of the probitas client packages that
    decide how an attempt is raced against a deadline, how a native failure
    is classified, which outcomes are thrown and which are returned, how a
    batch answer is reconciled, how a response body is cached and how a
    client is closed.

    Conventions of the embedding.
    - A JavaScript [number] that holds a duration, a size or a status code is
      an integer ([Z]); no arithmetic on fractions is involved.
    - A property that may be [undefined] is an [option]; a field that can be
      absent, [null] or hold a value has a three-way type of its own.
    - An async function is a function to an [Outcome]: it returns, throws
      (rejects), or stays pending for ever.
    - What the event loop delivers to a race (settlement of the backend call,
      the timer, the abort event) is an ordered trace given by the
      environment.
    - Collaborators outside the repository (the AWS SDK client, the MySQL
      pool, [fetch], [TextDecoder], [TextEncoder], [JSON], [Deno.inspect])
      appear through what they answer and through counters of the calls
      they receive.
    - A method of an object with private state maps the state before the
      call to the state after it and the completion of the call.
    - An object used as a record of strings, and a [Map], is the list of its
      entries in insertion order.
    - Logging is not modelled: it never changes a result.

    The definitions come first, module by module as the packages are laid
    out; the properties follow, each family in a section of its own. *)

From Stdlib Require Import ZArith NArith List String Ascii Bool Lia.
From Stdlib Require Import DecimalString.
From Stdlib Require DecimalZ FinFun.
Import ListNotations.

Open Scope string_scope.
Open Scope Z_scope.

(* ================================================================= *)
(** ** JavaScript basics *)

Module Js.

Definition number := Z.

(** [String(n)] and [`${n}`] for an integer. *)
Definition numberToString (n : number) : string :=
  NilZero.string_of_int (Z.to_int n).

(** A JavaScript string whose encoding matters: the list of its UTF-16 code
    units. *)
Definition JsString := list N.

(** [s.includes(needle)]. *)
Fixpoint includes (needle s : string) : bool :=
  if String.prefix needle s then true
  else match s with
       | EmptyString => false
       | String _ rest => includes needle rest
       end.

(** [xs.join(sep)]. *)
Fixpoint join (sep : string) (xs : list string) : string :=
  match xs with
  | [] => ""
  | [x] => x
  | x :: rest => x ++ sep ++ join sep rest
  end.

(** [s.split("\n")]. *)
Fixpoint splitLines (s : string) : list string :=
  match s with
  | EmptyString => [""]
  | String c rest =>
      if Ascii.eqb c "010"%char then "" :: splitLines rest
      else match splitLines rest with
           | [] => [String c ""]
           | l :: ls => String c l :: ls
           end
  end.

(** [a ?? b]. *)
Definition nullish {A} (a : option A) (b : A) : A :=
  match a with Some v => v | None => b end.

(** Truthiness of an optional number: [undefined] and [0] are falsy. *)
Definition truthyNumber (n : option number) : bool :=
  match n with
  | Some v => negb (v =? 0)
  | None => false
  end.

Definition isSome {A} (a : option A) : bool :=
  match a with Some _ => true | None => false end.

(** [o?.f] for a property [f] that may itself be [undefined]. *)
Definition optChain {A B} (o : option A) (f : A -> option B) : option B :=
  match o with Some v => f v | None => None end.

(** The completion of a call: a returned value, a thrown value, or (for an
    async function) a promise that never settles. *)
Inductive Outcome (E A : Type) : Type :=
| Returned (v : A)
| Thrown (e : E)
| Pending.

Arguments Returned {E A} v.
Arguments Thrown {E A} e.
Arguments Pending {E A}.

Definition bind {E A B} (m : Outcome E A) (k : A -> Outcome E B) : Outcome E B :=
  match m with
  | Returned v => k v
  | Thrown e => Thrown e
  | Pending => Pending
  end.

Definition isThrown {E A} (m : Outcome E A) : bool :=
  match m with Thrown _ => true | _ => false end.

Definition isReturned {E A} (m : Outcome E A) : bool :=
  match m with Returned _ => true | _ => false end.

End Js.

Import Js.

(* ================================================================= *)
(** ** Methods of a stateful object

    A method of an object with private state [S] maps the state before the
    call to the state after it and the completion of the call. [Exception]
    is declared with the error values below; the monad is generic in it. *)

Module Method.

Definition M (X S A : Type) : Type := S -> S * Outcome X A.

Definition ret {X S A} (a : A) : M X S A := fun s => (s, Returned a).

Definition throw {X S A} (e : X) : M X S A := fun s => (s, Thrown e).

Definition bind {X S A B} (m : M X S A) (k : A -> M X S B) : M X S B :=
  fun s =>
    match m s with
    | (s', Returned a) => k a s'
    | (s', Thrown e) => (s', Thrown e)
    | (s', Pending) => (s', Pending)
    end.

(** [try { m } catch (e) { handler(e) }]. *)
Definition tryCatch {X S A} (m : M X S A) (handler : X -> M X S A) : M X S A :=
  fun s =>
    match m s with
    | (s', Thrown e) => handler e s'
    | r => r
    end.

Definition get {X S} : M X S S := fun s => (s, Returned s).

Definition modify {X S} (f : S -> S) : M X S unit := fun s => (f s, Returned tt).

(** The completion of a call that does not touch the state. *)
Definition lift {X S A} (o : Outcome X A) : M X S A := fun s => (s, o).

End Method.

Notation "x <- m ;; k" := (Method.bind m (fun x => k))
  (at level 61, m at next level, right associativity).
Notation "m ;;; k" := (Method.bind m (fun _ => k))
  (at level 61, right associativity).

(* ================================================================= *)
(** ** Error values

    Every error class the clients construct or test with [instanceof] is a
    constructor; its arguments are the constructor arguments of the class.
    [name] and [kind] are fixed by the class ([override readonly]), so they
    are functions of the value. *)

Module Errors.

(** The classes of client-http/errors.ts below [HttpError]. *)
Inductive HttpErrorClass : Type :=
| CHttpError
| CHttpBadRequestError
| CHttpUnauthorizedError
| CHttpForbiddenError
| CHttpNotFoundError
| CHttpConflictError
| CHttpTooManyRequestsError
| CHttpInternalServerError.

(** The classes of client-sql and client-sql-mysql. *)
Inductive SqlErrorClass : Type :=
| CMySqlError
| CAccessDeniedError
| CConnectionRefusedError
| CQuerySyntaxError
| CConstraintError
| CDeadlockError.

(** Constructors of errors that come from the runtime or from a driver. *)
Inductive NativeCtor : Type :=
| CtorError
| CtorTypeError
| CtorDOMException.

#[local] Set Warnings "-register-all".

Inductive ErrorValue : Type :=
(* probitas-client/types.ts *)
| ConnectionError (message : string) (cause : option ErrorValue)
| TimeoutError (message : string) (timeoutMs : number) (cause : option ErrorValue)
| AbortError (message : string) (cause : option ErrorValue)
(* client-http/errors.ts *)
| HttpError (cls : HttpErrorClass) (message : string) (status : number)
            (statusText : string)
| HttpNetworkError (message : string) (cause : option ErrorValue)
(* client-sqs/errors.ts: the constructor calls of client.ts *)
| SqsQueueNotFoundError (message queueUrl : string) (cause : option ErrorValue)
| SqsMessageNotFoundError (message : string) (cause : option ErrorValue)
| SqsCommandError (message operation : string) (cause : option ErrorValue)
| SqsMessageTooLargeError (message : string) (size maxSize : number)
| SqsConnectionError (message : string) (cause : option ErrorValue)
(* client-sql/errors.ts and client-sql-mysql/errors.ts *)
| SqlError (cls : SqlErrorClass) (message : string) (constraint : option string)
           (cause : option ErrorValue) (errno : option number)
           (sqlState : option string)
(* any other instance of Error: its own name, message and driver fields *)
| NativeError (ctor : NativeCtor) (name message : string)
              (code : option string) (errno : option number)
              (sqlState : option string).

(** A thrown value is an [Error] instance or something else, of which only
    [String(value)] is ever used. *)
Inductive Exception : Type :=
| ThrownError (e : ErrorValue)
| ThrownValue (repr : string).

Definition httpClassName (c : HttpErrorClass) : string :=
  match c with
  | CHttpError => "HttpError"
  | CHttpBadRequestError => "HttpBadRequestError"
  | CHttpUnauthorizedError => "HttpUnauthorizedError"
  | CHttpForbiddenError => "HttpForbiddenError"
  | CHttpNotFoundError => "HttpNotFoundError"
  | CHttpConflictError => "HttpConflictError"
  | CHttpTooManyRequestsError => "HttpTooManyRequestsError"
  | CHttpInternalServerError => "HttpInternalServerError"
  end.

Definition sqlClassName (c : SqlErrorClass) : string :=
  match c with
  | CMySqlError => "MySqlError"
  | CAccessDeniedError => "AccessDeniedError"
  | CConnectionRefusedError => "ConnectionRefusedError"
  | CQuerySyntaxError => "QuerySyntaxError"
  | CConstraintError => "ConstraintError"
  | CDeadlockError => "DeadlockError"
  end.

(** [error.name]. *)
Definition name (e : ErrorValue) : string :=
  match e with
  | ConnectionError _ _ => "ConnectionError"
  | TimeoutError _ _ _ => "TimeoutError"
  | AbortError _ _ => "AbortError"
  | HttpError c _ _ _ => httpClassName c
  | HttpNetworkError _ _ => "HttpNetworkError"
  | SqsQueueNotFoundError _ _ _ => "SqsQueueNotFoundError"
  | SqsMessageNotFoundError _ _ => "SqsMessageNotFoundError"
  | SqsCommandError _ _ _ => "SqsCommandError"
  | SqsMessageTooLargeError _ _ _ => "SqsMessageTooLargeError"
  | SqsConnectionError _ _ => "SqsConnectionError"
  | SqlError c _ _ _ _ _ => sqlClassName c
  | NativeError _ n _ _ _ _ => n
  end.

(** [error.message]. *)
Definition message (e : ErrorValue) : string :=
  match e with
  | ConnectionError m _ | TimeoutError m _ _ | AbortError m _
  | HttpError _ m _ _ | HttpNetworkError m _
  | SqsQueueNotFoundError m _ _ | SqsMessageNotFoundError m _
  | SqsCommandError m _ _ | SqsMessageTooLargeError m _ _
  | SqsConnectionError m _
  | SqlError _ m _ _ _ _ | NativeError _ _ m _ _ _ => m
  end.

(** The driver fields read by the MySQL taxonomy; [undefined] on every class
    that does not declare them. *)
Definition code (e : ErrorValue) : option string :=
  match e with
  | NativeError _ _ _ c _ _ => c
  | _ => None
  end.

Definition errno (e : ErrorValue) : option number :=
  match e with
  | NativeError _ _ _ _ n _ => n
  | SqlError _ _ _ _ n _ => n
  | _ => None
  end.

Definition sqlState (e : ErrorValue) : option string :=
  match e with
  | NativeError _ _ _ _ _ s => s
  | SqlError _ _ _ _ _ s => s
  | _ => None
  end.

(** [error.timeoutMs]: declared by [TimeoutError] only. *)
Definition timeoutMs (e : ErrorValue) : option number :=
  match e with
  | TimeoutError _ ms _ => Some ms
  | _ => None
  end.

(** [error.cause], for the classes that are constructed here; an
    [HttpError] and a size error are built without one. *)
Definition cause (e : ErrorValue) : option ErrorValue :=
  match e with
  | ConnectionError _ c | TimeoutError _ _ c | AbortError _ c
  | HttpNetworkError _ c | SqsQueueNotFoundError _ _ c
  | SqsMessageNotFoundError _ c | SqsCommandError _ _ c
  | SqsConnectionError _ c | SqlError _ _ _ c _ _ => c
  | HttpError _ _ _ _ | SqsMessageTooLargeError _ _ _
  | NativeError _ _ _ _ _ _ => None
  end.

(** [error.status] and [error.statusText]: declared by [HttpError]. *)
Definition status (e : ErrorValue) : option number :=
  match e with
  | HttpError _ _ s _ => Some s
  | _ => None
  end.

Definition statusText (e : ErrorValue) : option string :=
  match e with
  | HttpError _ _ _ t => Some t
  | _ => None
  end.

(** [error instanceof TimeoutError] and its siblings. *)
Definition isTimeoutError (e : ErrorValue) : bool :=
  match e with TimeoutError _ _ _ => true | _ => false end.

Definition isAbortError (e : ErrorValue) : bool :=
  match e with AbortError _ _ => true | _ => false end.

Definition isHttpNetworkError (e : ErrorValue) : bool :=
  match e with HttpNetworkError _ _ => true | _ => false end.

Definition isTypeError (e : ErrorValue) : bool :=
  match e with NativeError CtorTypeError _ _ _ _ _ => true | _ => false end.

Definition isSqsMessageTooLargeError (e : ErrorValue) : bool :=
  match e with SqsMessageTooLargeError _ _ _ => true | _ => false end.

Definition isSqlError (e : ErrorValue) : bool :=
  match e with SqlError _ _ _ _ _ _ => true | _ => false end.

(** The [kind] discriminator of the classes whose declaration fixes it;
    [None] for the classes declared elsewhere and for native errors. *)
Definition kind (e : ErrorValue) : option string :=
  match e with
  | ConnectionError _ _ => Some "connection"
  | TimeoutError _ _ _ => Some "timeout"
  | AbortError _ _ => Some "abort"
  | HttpError _ _ _ _ => Some "http"
  | HttpNetworkError _ _ => Some "network"
  | _ => None
  end.

(** [HttpFailureError = HttpNetworkError | AbortError | TimeoutError]. *)
Definition isHttpFailureError (e : ErrorValue) : bool :=
  isHttpNetworkError e || isAbortError e || isTimeoutError e.

End Errors.

Import Errors.

(* ================================================================= *)
(** ** Per-call options and the cancellation gate (client-sqs/client.ts) *)

Module Gate.

(** The state of an [AbortSignal] when the call is entered. *)
Record AbortSignal : Type := mkSignal { aborted : bool }.

(** [CommonOptions] of probitas-client/types.ts. [retry] is consumed by
    callers above the clients and read by none of them. *)
Record CommonOptions : Type := mkCommonOptions {
  timeout : option number;
  signal : option AbortSignal
}.

(** How a promise settles. *)
Inductive Settled (T : Type) : Type :=
| Resolved (v : T)
| Rejected (e : Exception).

Arguments Resolved {T} v.
Arguments Rejected {T} e.

(** What the event loop can deliver to the race of one attempt, in the order
    of delivery. *)
Inductive Event (T : Type) : Type :=
| OpSettles (s : Settled T)
| TimerFires
| SignalAborts.

Arguments OpSettles {T} s.
Arguments TimerFires {T}.
Arguments SignalAborts {T}.

(** Awaiting the bare promise: only its own settlement counts. *)
Fixpoint awaitPromise {T} (trace : list (Event T)) : option (Settled T) :=
  match trace with
  | [] => None
  | OpSettles s :: _ => Some s
  | _ :: rest => awaitPromise rest
  end.

(** [Promise.race] over the promise, the timer (armed when [timeout] is
    defined) and the abort listener (installed when a signal is given): the
    first delivered event that has a racer wins. *)
Fixpoint race {T} (operation : string) (timeout : option number)
         (listening : bool) (trace : list (Event T)) : option (Settled T) :=
  match trace with
  | [] => None
  | OpSettles s :: _ => Some s
  | TimerFires :: rest =>
      match timeout with
      | Some timeoutMs =>
          Some (Rejected (ThrownError
            (TimeoutError ("Operation timed out: " ++ operation) timeoutMs None)))
      | None => race operation timeout listening rest
      end
  | SignalAborts :: rest =>
      if listening
      then Some (Rejected (ThrownError
             (AbortError ("Operation aborted: " ++ operation) None)))
      else race operation timeout listening rest
  end.

(** [withOptions(promise, options, operation)]. [None] is a promise that
    never settles. The [finally] block only clears the timer and removes the
    listener. *)
Definition withOptions {T} (trace : list (Event T))
           (options : option CommonOptions) (operation : string)
  : option (Settled T) :=
  let timeout_ := match options with Some o => timeout o | None => None end in
  let signal_ := match options with Some o => signal o | None => None end in
  if negb (truthyNumber timeout_) && negb (isSome signal_)
  then awaitPromise trace
  else
    match signal_ with
    | Some s =>
        if aborted s
        then Some (Rejected (ThrownError
               (AbortError ("Operation aborted: " ++ operation) None)))
        else race operation timeout_ true trace
    | None => race operation timeout_ false trace
    end.

(** The settlement seen by the caller of an async function that awaits
    [withOptions]. *)
Definition awaited {T} (r : option (Settled T)) : Outcome Exception T :=
  match r with
  | None => Pending
  | Some (Resolved v) => Returned v
  | Some (Rejected e) => Thrown e
  end.

End Gate.

Import Gate.

(* ================================================================= *)
(** ** Result objects and the tri-state reading *)

Module Results.

(** A property read on an object: absent ([undefined]), [null], or a value. *)
Inductive Field (A : Type) : Type :=
| Undefined
| Null
| Value (a : A).

Arguments Undefined {A}.
Arguments Null {A}.
Arguments Value {A} a.

(** The two tiers of an error value. *)
Inductive Tier : Type :=
| OperationError
| TransportFailure.

(** What a consumer reads from a result: [processed], [ok] and [error]. *)
Record Reads (E : Type) : Type := mkReads {
  readProcessed : option bool;
  readOk : option bool;
  readError : Field E
}.

Arguments mkReads {E} _ _ _.
Arguments readProcessed {E} _.
Arguments readOk {E} _.
Arguments readError {E} _.

Section TriState.

Context {E : Type}.
Variable tier : E -> Tier.

(** (processed=true, ok=true, error=null) *)
Definition isSuccessState (r : Reads E) : bool :=
  match readProcessed r, readOk r, readError r with
  | Some true, Some true, Null => true
  | _, _, _ => false
  end.

(** (processed=true, ok=false, error is an operation error) *)
Definition isErrorState (r : Reads E) : bool :=
  match readProcessed r, readOk r, readError r with
  | Some true, Some false, Value e =>
      match tier e with OperationError => true | TransportFailure => false end
  | _, _, _ => false
  end.

(** (processed=false, ok=false, error is a transport failure) *)
Definition isFailureState (r : Reads E) : bool :=
  match readProcessed r, readOk r, readError r with
  | Some false, Some false, Value e =>
      match tier e with TransportFailure => true | OperationError => false end
  | _, _, _ => false
  end.

Definition exactlyOne (a b c : bool) : bool :=
  (a && negb b && negb c) || (negb a && b && negb c) || (negb a && negb b && c).

Definition triState (r : Reads E) : bool :=
  exactlyOne (isSuccessState r) (isErrorState r) (isFailureState r).

End TriState.

(** A result object that declares all of [kind], [processed], [ok], [error]
    and [duration]. [error] has the union type [null | Op | Fail] of the
    three interfaces of a result kind; [payload] holds the kind-specific
    fields. *)
Record Result (Op Fail P : Type) : Type := mkResult {
  kind : string;
  processed : bool;
  ok : bool;
  error : option (Op + Fail);
  duration : number;
  payload : P
}.

Arguments mkResult {Op Fail P} _ _ _ _ _ _.
Arguments kind {Op Fail P} _.
Arguments processed {Op Fail P} _.
Arguments ok {Op Fail P} _.
Arguments error {Op Fail P} _.
Arguments duration {Op Fail P} _.
Arguments payload {Op Fail P} _.

Definition tierOf {Op Fail} (e : Op + Fail) : Tier :=
  match e with
  | inl _ => OperationError
  | inr _ => TransportFailure
  end.

Definition reads {Op Fail P} (r : Result Op Fail P) : Reads (Op + Fail) :=
  mkReads (Some (processed r)) (Some (ok r))
          (match error r with None => Null | Some e => Value e end).

(** The tri-state invariant on a declared result object. *)
Definition TriState {Op Fail P} (r : Result Op Fail P) : Prop :=
  triState tierOf (reads r) = true.

End Results.

Import Results.

(* ================================================================= *)
(** ** Redis result factories (client-redis/result.ts)

    [RedisOperationError] and [RedisFailureError] are declared in
    client-redis/errors.ts; the factories only store the value. *)

Module Redis.

Section Factories.

Variables RedisOperationError RedisFailureError : Type.

Definition RedisResult (V : Type) : Type :=
  Result RedisOperationError RedisFailureError (option V).

Definition createRedisGetResultSuccess (value : option string)
           (duration : number) : RedisResult string :=
  mkResult "redis:get" true true None duration value.

Definition createRedisGetResultError (error : RedisOperationError)
           (duration : number) : RedisResult string :=
  mkResult "redis:get" true false (Some (inl error)) duration None.

Definition createRedisGetResultFailure (error : RedisFailureError)
           (duration : number) : RedisResult string :=
  mkResult "redis:get" false false (Some (inr error)) duration None.

Definition createRedisSetResultSuccess (duration : number)
  : RedisResult string :=
  mkResult "redis:set" true true None duration (Some "OK").

Definition createRedisSetResultError (error : RedisOperationError)
           (duration : number) : RedisResult string :=
  mkResult "redis:set" true false (Some (inl error)) duration None.

Definition createRedisSetResultFailure (error : RedisFailureError)
           (duration : number) : RedisResult string :=
  mkResult "redis:set" false false (Some (inr error)) duration None.

Definition createRedisCountResultSuccess (value : number)
           (duration : number) : RedisResult number :=
  mkResult "redis:count" true true None duration (Some value).

Definition createRedisCountResultError (error : RedisOperationError)
           (duration : number) : RedisResult number :=
  mkResult "redis:count" true false (Some (inl error)) duration None.

Definition createRedisCountResultFailure (error : RedisFailureError)
           (duration : number) : RedisResult number :=
  mkResult "redis:count" false false (Some (inr error)) duration None.

Definition createRedisArrayResultSuccess {T} (value : list T)
           (duration : number) : RedisResult (list T) :=
  mkResult "redis:array" true true None duration (Some value).

Definition createRedisArrayResultError {T} (error : RedisOperationError)
           (duration : number) : RedisResult (list T) :=
  mkResult "redis:array" true false (Some (inl error)) duration None.

Definition createRedisArrayResultFailure {T} (error : RedisFailureError)
           (duration : number) : RedisResult (list T) :=
  mkResult "redis:array" false false (Some (inr error)) duration None.

Definition createRedisHashResultSuccess (value : list (string * string))
           (duration : number) : RedisResult (list (string * string)) :=
  mkResult "redis:hash" true true None duration (Some value).

Definition createRedisHashResultError (error : RedisOperationError)
           (duration : number) : RedisResult (list (string * string)) :=
  mkResult "redis:hash" true false (Some (inl error)) duration None.

Definition createRedisHashResultFailure (error : RedisFailureError)
           (duration : number) : RedisResult (list (string * string)) :=
  mkResult "redis:hash" false false (Some (inr error)) duration None.

Definition createRedisCommonResultSuccess {T} (value : T)
           (duration : number) : RedisResult T :=
  mkResult "redis:common" true true None duration (Some value).

Definition createRedisCommonResultError {T} (error : RedisOperationError)
           (duration : number) : RedisResult T :=
  mkResult "redis:common" true false (Some (inl error)) duration None.

Definition createRedisCommonResultFailure {T} (error : RedisFailureError)
           (duration : number) : RedisResult T :=
  mkResult "redis:common" false false (Some (inr error)) duration None.

End Factories.

End Redis.

(* ================================================================= *)
(** ** SQS result factories (client-sqs/result.ts)

    [SqsError] and [SqsFailureError] are declared in client-sqs/errors.ts;
    the factories only store the value. A field typed [T | null] is an
    [option]; the [params] object is the argument list. *)

Module SqsResult.

Record SqsBatchSuccessEntry : Type := mkSuccessEntry {
  successMessageId : string;
  successId : string
}.

Record SqsBatchFailedEntry : Type := mkFailedEntry {
  failedId : string;
  failedCode : string;
  failedMessage : string
}.

(** The fields of a send result besides the common ones. *)
Record SendFields : Type := mkSendFields {
  messageId : option string;
  md5OfBody : option string;
  sequenceNumber : option string
}.

(** The fields of a batch result: [successful] and [failed] are arrays or
    [null]. [S] is the type of a successful entry. *)
Record BatchFields (S : Type) : Type := mkBatchFields {
  successful : option (list S);
  failed : option (list SqsBatchFailedEntry)
}.

Arguments mkBatchFields {S} _ _.
Arguments successful {S} _.
Arguments failed {S} _.

Section Factories.

Variables SqsError SqsFailureError : Type.

(** The type of the received messages: the factories only store them. *)
Variable SqsMessage : Type.

Definition SqsResult (P : Type) : Type := Result SqsError SqsFailureError P.

Definition createSqsSendResultSuccess (messageId md5OfBody : string)
           (sequenceNumber : option string) (duration : number)
  : SqsResult SendFields :=
  mkResult "sqs:send" true true None duration
           (mkSendFields (Some messageId) (Some md5OfBody) sequenceNumber).

Definition createSqsSendResultError (error : SqsError) (duration : number)
  : SqsResult SendFields :=
  mkResult "sqs:send" true false (Some (inl error)) duration
           (mkSendFields None None None).

Definition createSqsSendResultFailure (error : SqsFailureError)
           (duration : number) : SqsResult SendFields :=
  mkResult "sqs:send" false false (Some (inr error)) duration
           (mkSendFields None None None).

Definition createSqsSendBatchResultSuccess
           (successful : list SqsBatchSuccessEntry)
           (failed : list SqsBatchFailedEntry) (duration : number)
  : SqsResult (BatchFields SqsBatchSuccessEntry) :=
  mkResult "sqs:send-batch" true true None duration
           (mkBatchFields (Some successful) (Some failed)).

Definition createSqsSendBatchResultError (error : SqsError)
           (duration : number) : SqsResult (BatchFields SqsBatchSuccessEntry) :=
  mkResult "sqs:send-batch" true false (Some (inl error)) duration
           (mkBatchFields (Some []) (Some [])).

Definition createSqsSendBatchResultFailure (error : SqsFailureError)
           (duration : number) : SqsResult (BatchFields SqsBatchSuccessEntry) :=
  mkResult "sqs:send-batch" false false (Some (inr error)) duration
           (mkBatchFields None None).

Definition createSqsReceiveResultSuccess (messages : list SqsMessage)
           (duration : number) : SqsResult (option (list SqsMessage)) :=
  mkResult "sqs:receive" true true None duration (Some messages).

Definition createSqsReceiveResultError (error : SqsError) (duration : number)
  : SqsResult (option (list SqsMessage)) :=
  mkResult "sqs:receive" true false (Some (inl error)) duration (Some []).

Definition createSqsReceiveResultFailure (error : SqsFailureError)
           (duration : number) : SqsResult (option (list SqsMessage)) :=
  mkResult "sqs:receive" false false (Some (inr error)) duration None.

Definition createSqsDeleteResultSuccess (duration : number) : SqsResult unit :=
  mkResult "sqs:delete" true true None duration tt.

Definition createSqsDeleteResultError (error : SqsError) (duration : number)
  : SqsResult unit :=
  mkResult "sqs:delete" true false (Some (inl error)) duration tt.

Definition createSqsDeleteResultFailure (error : SqsFailureError)
           (duration : number) : SqsResult unit :=
  mkResult "sqs:delete" false false (Some (inr error)) duration tt.

Definition createSqsDeleteBatchResultSuccess (successful : list string)
           (failed : list SqsBatchFailedEntry) (duration : number)
  : SqsResult (BatchFields string) :=
  mkResult "sqs:delete-batch" true true None duration
           (mkBatchFields (Some successful) (Some failed)).

Definition createSqsDeleteBatchResultError (error : SqsError)
           (duration : number) : SqsResult (BatchFields string) :=
  mkResult "sqs:delete-batch" true false (Some (inl error)) duration
           (mkBatchFields (Some []) (Some [])).

Definition createSqsDeleteBatchResultFailure (error : SqsFailureError)
           (duration : number) : SqsResult (BatchFields string) :=
  mkResult "sqs:delete-batch" false false (Some (inr error)) duration
           (mkBatchFields None None).

(** The payload of an ensure-queue result is its [queueUrl]. *)
Definition createSqsEnsureQueueResultSuccess (queueUrl : string)
           (duration : number) : SqsResult (option string) :=
  mkResult "sqs:ensure-queue" true true None duration (Some queueUrl).

Definition createSqsEnsureQueueResultError (error : SqsError)
           (duration : number) : SqsResult (option string) :=
  mkResult "sqs:ensure-queue" true false (Some (inl error)) duration None.

Definition createSqsEnsureQueueResultFailure (error : SqsFailureError)
           (duration : number) : SqsResult (option string) :=
  mkResult "sqs:ensure-queue" false false (Some (inr error)) duration None.

Definition createSqsDeleteQueueResultSuccess (duration : number)
  : SqsResult unit :=
  mkResult "sqs:delete-queue" true true None duration tt.

Definition createSqsDeleteQueueResultError (error : SqsError)
           (duration : number) : SqsResult unit :=
  mkResult "sqs:delete-queue" true false (Some (inl error)) duration tt.

Definition createSqsDeleteQueueResultFailure (error : SqsFailureError)
           (duration : number) : SqsResult unit :=
  mkResult "sqs:delete-queue" false false (Some (inr error)) duration tt.

End Factories.

End SqsResult.

(* ================================================================= *)
(** ** MongoDB failure results and document arrays
       (client-mongodb/results.ts)

    A failure result declares [kind], [ok], [error] and [duration] and no
    [processed] property. [MongoError] is declared in
    client-mongodb/errors.ts. *)

Module Mongo.

Record MongoFailure (MongoError : Type) : Type := mkMongoFailure {
  kind : string;
  ok : bool;
  error : MongoError;
  duration : number
}.

Arguments mkMongoFailure {MongoError} _ _ _ _.
Arguments kind {MongoError} _.
Arguments ok {MongoError} _.
Arguments error {MongoError} _.
Arguments duration {MongoError} _.

Section Factories.

Context {MongoError : Type}.

Definition createMongoFindFailure (error : MongoError) (duration : number)
  : MongoFailure MongoError := mkMongoFailure "mongo:find" false error duration.

Definition createMongoFindOneFailure (error : MongoError) (duration : number)
  : MongoFailure MongoError :=
  mkMongoFailure "mongo:find-one" false error duration.

Definition createMongoInsertOneFailure (error : MongoError) (duration : number)
  : MongoFailure MongoError :=
  mkMongoFailure "mongo:insert-one" false error duration.

Definition createMongoInsertManyFailure (error : MongoError)
           (duration : number) : MongoFailure MongoError :=
  mkMongoFailure "mongo:insert-many" false error duration.

Definition createMongoUpdateFailure (error : MongoError) (duration : number)
  : MongoFailure MongoError := mkMongoFailure "mongo:update" false error duration.

Definition createMongoDeleteFailure (error : MongoError) (duration : number)
  : MongoFailure MongoError := mkMongoFailure "mongo:delete" false error duration.

Definition createMongoCountFailure (error : MongoError) (duration : number)
  : MongoFailure MongoError := mkMongoFailure "mongo:count" false error duration.

(** What a consumer reads from a failure result: [processed] is
    [undefined]. *)
Definition reads (r : MongoFailure MongoError) : Reads MongoError :=
  mkReads None (Some (ok r)) (Value (error r)).

End Factories.

(** [createMongoDocs(items)]: a copy of the array with four helper methods.
    An index read gives [undefined] ([None]) out of range. The error of the
    throwing helpers is a [MongoNotFoundError], given here by its message. *)
Definition createMongoDocs {T} (items : list T) : list T := items.

Definition first {T} (docs : list T) : option T := nth_error docs 0.

Definition firstOrThrow {T} (docs : list T) : Outcome string (option T) :=
  if Z.of_nat (List.length docs) =? 0
  then Thrown "No documents found (firstOrThrow)"
  else Returned (nth_error docs 0).

Definition last {T} (docs : list T) : option T :=
  if Z.of_nat (List.length docs) >? 0
  then nth_error docs (List.length docs - 1)
  else None.

Definition lastOrThrow {T} (docs : list T) : Outcome string (option T) :=
  if Z.of_nat (List.length docs) =? 0
  then Thrown "No documents found (lastOrThrow)"
  else Returned (nth_error docs (List.length docs - 1)).

End Mongo.

(* ================================================================= *)
(** ** Message arrays (client-sqs/messages.ts)

    A message is an object, so it is truthy whenever the index read finds
    one; the error of the throwing helpers is a plain [Error], given by its
    message. *)

Module SqsMessages.

Definition createSqsMessages {T} (messages : list T) : list T := messages.

Definition first {T} (arr : list T) : option T := nth_error arr 0.

Definition firstOrThrow {T} (arr : list T) : Outcome string T :=
  match nth_error arr 0 with
  | None => Thrown "No messages available"
  | Some msg => Returned msg
  end.

(** [this[this.length - 1]]: index [-1] of an empty array is [undefined]. *)
Definition last {T} (arr : list T) : option T :=
  match List.length arr with
  | O => None
  | S n => nth_error arr n
  end.

Definition lastOrThrow {T} (arr : list T) : Outcome string T :=
  match last arr with
  | None => Thrown "No messages available"
  | Some msg => Returned msg
  end.

End SqsMessages.

(* ================================================================= *)
(** ** Row arrays (client-sql/rows.ts)

    [SqlRows] over rows that are objects: the constructor spreads the items
    into the array. An index read gives [undefined] ([None]) out of
    range. *)

Module SqlRows.

Definition SqlRows {T} (items : list T) : list T := items.

Definition first {T} (rows : list T) : option T := nth_error rows 0.

Definition firstOrThrow {T} (rows : list T) : Outcome string (option T) :=
  if Z.of_nat (List.length rows) =? 0
  then Thrown "No rows found"
  else Returned (nth_error rows 0).

Definition last {T} (rows : list T) : option T :=
  match List.length rows with
  | O => None
  | S n => nth_error rows n
  end.

Definition lastOrThrow {T} (rows : list T) : Outcome string (option T) :=
  if Z.of_nat (List.length rows) =? 0
  then Thrown "No rows found"
  else Returned (nth_error rows (List.length rows - 1)).

End SqlRows.

(* ================================================================= *)
(** ** The SQS client (client-sqs/client.ts)

    The client of this file returns result objects of the older shape
    ([ok], the operation's fields and [duration]) and throws every
    failure. The SDK client is seen through the commands it is handed, the
    event trace of each call and the calls of [destroy]. A field of an SDK
    output is optional; a non-null assertion ([!]) changes nothing at run
    time, so the asserted fields stay optional in the results. [elapsed] is
    the difference of the two readings of [performance.now()]. *)

Module SqsClient.

Definition MAX_MESSAGE_SIZE : number := 256 * 1024.

Definition isHighSurrogate (c : N) : bool :=
  ((0xD800 <=? c) && (c <=? 0xDBFF))%N.

Definition isLowSurrogate (c : N) : bool :=
  ((0xDC00 <=? c) && (c <=? 0xDFFF))%N.

(** [new TextEncoder().encode(s).length]: the number of bytes of the UTF-8
    encoding of a string given by its UTF-16 code units. A surrogate pair is
    one code point of four bytes; a lone surrogate is encoded as U+FFFD. *)
Fixpoint utf8Length (s : JsString) : number :=
  match s with
  | [] => 0
  | c :: rest =>
      if (c <? 0x80)%N then 1 + utf8Length rest
      else if (c <? 0x800)%N then 2 + utf8Length rest
      else if isHighSurrogate c then
        match rest with
        | d :: rest' =>
            if isLowSurrogate d then 4 + utf8Length rest'
            else 3 + utf8Length rest
        | [] => 3
        end
      else 3 + utf8Length rest
  end.

(** [validateMessageSize(body)]. *)
Definition validateMessageSize (body : JsString) : Outcome Exception unit :=
  let size := utf8Length body in
  if size >? MAX_MESSAGE_SIZE
  then Thrown (ThrownError (SqsMessageTooLargeError
         ("Message size " ++ numberToString size ++
          " exceeds maximum allowed size " ++ numberToString MAX_MESSAGE_SIZE)
         size MAX_MESSAGE_SIZE))
  else Returned tt.

(** The [context] argument of [convertSqsError]. *)
Record Context : Type := mkContext { contextQueueUrl : option string }.

(** [convertSqsError(error, operation, context)]: the function never
    returns; its value here is what it throws. *)
Definition convertSqsError (error : Exception) (operation : string)
           (context : option Context) : Exception :=
  match error with
  | ThrownError e =>
      if isTimeoutError e || isAbortError e then error
      else
        let message := Errors.message e in
        let errorName := Errors.name e in
        if (errorName =? "QueueDoesNotExist")%string
           || (errorName =? "AWS.SimpleQueueService.NonExistentQueue")%string
           || includes "does not exist" message
           || includes "NonExistentQueue" message
        then ThrownError (SqsQueueNotFoundError message
               (nullish (optChain context contextQueueUrl) "unknown") (Some e))
        else if (errorName =? "ReceiptHandleIsInvalid")%string
                || includes "ReceiptHandleIsInvalid" message
                || includes "receipt handle" message
        then ThrownError (SqsMessageNotFoundError message (Some e))
        else ThrownError (SqsCommandError message operation (Some e))
  | ThrownValue repr => ThrownError (SqsCommandError repr operation None)
  end.

(** The errors an operation of a client configured with [configQueueUrl]
    can end with: the four classes the client constructs, and the two it
    passes through. *)
Definition isClientError (configQueueUrl : string) (e : ErrorValue) : bool :=
  match e with
  | SqsCommandError _ _ _ | SqsMessageTooLargeError _ _ _
  | SqsMessageNotFoundError _ _ | TimeoutError _ _ _ | AbortError _ _ => true
  | SqsQueueNotFoundError _ url _ => (url =? configQueueUrl)%string
  | _ => false
  end.

(** A message attribute of the client and of the SDK. A record of attributes
    is the list of its entries in property order (keys are distinct). *)
Record SqsMessageAttribute : Type := mkAttribute {
  dataType : option string;
  stringValue : option string;
  binaryValue : option (list Byte.byte)
}.

Record MessageAttributeValue : Type := mkSdkAttribute {
  DataType : option string;
  StringValue : option string;
  BinaryValue : option (list Byte.byte)
}.

Definition convertMessageAttributes
           (attrs : option (list (string * MessageAttributeValue)))
  : option (list (string * SqsMessageAttribute)) :=
  match attrs with
  | None => None
  | Some entries =>
      Some (map (fun entry =>
                   (fst entry,
                    mkAttribute (DataType (snd entry)) (StringValue (snd entry))
                                (BinaryValue (snd entry))))
                entries)
  end.

Definition toSdkMessageAttributes
           (attrs : option (list (string * SqsMessageAttribute)))
  : option (list (string * MessageAttributeValue)) :=
  match attrs with
  | None => None
  | Some entries =>
      Some (map (fun entry =>
                   (fst entry,
                    mkSdkAttribute (dataType (snd entry)) (stringValue (snd entry))
                                   (binaryValue (snd entry))))
                entries)
  end.

(** The options of the calls. Each extends [CommonOptions]. *)
Record SqsSendOptions : Type := mkSendOptions {
  sendCommon : CommonOptions;
  delaySeconds : option number;
  messageAttributes : option (list (string * SqsMessageAttribute));
  messageGroupId : option string;
  messageDeduplicationId : option string
}.

Record SqsReceiveOptions : Type := mkReceiveOptions {
  receiveCommon : CommonOptions;
  maxMessages : option number;
  visibilityTimeout : option number;
  waitTimeSeconds : option number;
  messageAttributeNames : option (list string);
  attributeNames : option (list string)
}.

Record SqsBatchMessage : Type := mkBatchMessage {
  id : string;
  body : JsString;
  batchDelaySeconds : option number;
  batchMessageAttributes : option (list (string * SqsMessageAttribute))
}.

(** The commands handed to the SDK client. *)
Record SendMessageBatchRequestEntry : Type := mkSendEntry {
  Id : string;
  MessageBody : JsString;
  DelaySeconds : option number;
  MessageAttributes : option (list (string * MessageAttributeValue))
}.

Record DeleteMessageBatchRequestEntry : Type := mkDeleteEntry {
  deleteId : string;
  ReceiptHandle : string
}.

Inductive Command : Type :=
| SendMessageCommand (QueueUrl : string) (MessageBody : JsString)
    (DelaySeconds : option number)
    (MessageAttributes : option (list (string * MessageAttributeValue)))
    (MessageGroupId MessageDeduplicationId : option string)
| SendMessageBatchCommand (QueueUrl : string)
    (Entries : list SendMessageBatchRequestEntry)
| ReceiveMessageCommand (QueueUrl : string)
    (MaxNumberOfMessages VisibilityTimeout WaitTimeSeconds : option number)
    (MessageAttributeNames AttributeNames : option (list string))
| DeleteMessageCommand (QueueUrl ReceiptHandle : string)
| DeleteMessageBatchCommand (QueueUrl : string)
    (Entries : list DeleteMessageBatchRequestEntry)
| PurgeQueueCommand (QueueUrl : string).

(** The outputs of the SDK client. *)
Record SendMessageOutput : Type := mkSendOutput {
  MessageId : option string;
  MD5OfMessageBody : option string;
  SequenceNumber : option string
}.

Record SendMessageBatchResultEntry : Type := mkBatchResultEntry {
  entryId : option string;
  entryMessageId : option string
}.

Record BatchResultErrorEntry : Type := mkBatchErrorEntry {
  errorId : option string;
  errorCode : option string;
  errorMessage : option string
}.

Record SendMessageBatchOutput : Type := mkSendBatchOutput {
  sendSuccessful : option (list SendMessageBatchResultEntry);
  sendFailed : option (list BatchResultErrorEntry)
}.

Record DeleteMessageBatchOutput : Type := mkDeleteBatchOutput {
  deleteSuccessful : option (list (option string));
  deleteFailed : option (list BatchResultErrorEntry)
}.

Record Message : Type := mkSdkMessage {
  sdkMessageId : option string;
  sdkBody : option JsString;
  sdkReceiptHandle : option string;
  sdkAttributes : option (list (string * string));
  sdkMessageAttributes : option (list (string * MessageAttributeValue));
  sdkMD5OfBody : option string
}.

Record ReceiveMessageOutput : Type := mkReceiveOutput {
  Messages : option (list Message)
}.

(** The result objects of the client. *)
Record SqsResult (P : Type) : Type := mkSqsResult {
  ok : bool;
  fields : P;
  duration : number
}.

Arguments mkSqsResult {P} _ _ _.
Arguments ok {P} _.
Arguments fields {P} _.
Arguments duration {P} _.

Record SendFields : Type := mkSendFields {
  messageId : option string;
  md5OfBody : option string;
  sequenceNumber : option string
}.

Record SqsBatchSuccessEntry : Type := mkSuccessEntry {
  successMessageId : option string;
  successId : option string
}.

Record SqsBatchFailedEntry : Type := mkFailedEntry {
  failedId : option string;
  failedCode : option string;
  failedMessage : string
}.

Record BatchFields (S : Type) : Type := mkBatchFields {
  successful : list S;
  failed : list SqsBatchFailedEntry
}.

Arguments mkBatchFields {S} _ _.
Arguments successful {S} _.
Arguments failed {S} _.

Record SqsMessage : Type := mkMessage {
  receivedMessageId : option string;
  receivedBody : option JsString;
  receiptHandle : option string;
  attributes : list (string * string);
  receivedMessageAttributes : option (list (string * SqsMessageAttribute));
  receivedMd5OfBody : option string
}.

(** What a consumer reads from a result of the client: neither [processed]
    nor [error] is a property of it. *)
Definition reads {P} (r : SqsResult P) : Reads ErrorValue :=
  mkReads None (Some (ok r)) Undefined.

(** [SqsClientImpl]: [config.queueUrl], [#closed], and the SDK client seen
    through the commands it was handed (oldest first) and the number of
    calls of [destroy]. *)
Record SqsClientImpl : Type := mkClient {
  queueUrl : string;
  closed : bool;
  sent : list Command;
  destroyCalls : nat
}.

Definition Call (A : Type) : Type := Method.M Exception SqsClientImpl A.

(** [createSqsClient(config)]: [construct] is what [new SQSClient] throws,
    if it throws. *)
Definition createSqsClient (configQueueUrl : string)
           (construct : option Exception) : Outcome Exception SqsClientImpl :=
  match construct with
  | Some error =>
      Thrown (ThrownError (SqsConnectionError
        ("Failed to create SQS client: " ++
         match error with
         | ThrownError e => Errors.message e
         | ThrownValue repr => repr
         end)
        match error with
        | ThrownError e => Some e
        | ThrownValue _ => None
        end))
  | None => Returned (mkClient configQueueUrl false [] 0)
  end.

(** [#ensureOpen()]. *)
Definition ensureOpen : Call unit :=
  c <- Method.get ;;
  if closed c
  then Method.throw (ThrownError (SqsCommandError "Client is closed" "" None))
  else Method.ret tt.

(** [await withOptions(this.#client.send(command), options, operation)]: the
    command is handed to the SDK client before [withOptions] is entered. *)
Definition clientSend {T} (command : Command) (reply : list (Event T))
           (options : option CommonOptions) (operation : string) : Call T :=
  Method.modify (fun c =>
    mkClient (queueUrl c) (closed c) (sent c ++ [command]) (destroyCalls c)) ;;;
  Method.lift (awaited (withOptions reply options operation)).

(** The [catch] block of every operation. *)
Definition catchConvert {A} (operation : string) (error : Exception) : Call A :=
  c <- Method.get ;;
  Method.throw
    (convertSqsError error operation (Some (mkContext (Some (queueUrl c))))).

(** [send(body, options)]. *)
Definition send (body : JsString) (options : option SqsSendOptions)
           (reply : list (Event SendMessageOutput)) (elapsed : number)
  : Call (SqsResult SendFields) :=
  ensureOpen ;;;
  Method.lift (validateMessageSize body) ;;;
  Method.tryCatch
    (c <- Method.get ;;
     response <- clientSend
       (SendMessageCommand (queueUrl c) body
          (optChain options delaySeconds)
          (toSdkMessageAttributes (optChain options messageAttributes))
          (optChain options messageGroupId)
          (optChain options messageDeduplicationId))
       reply (option_map sendCommon options) "send" ;;
     Method.ret (mkSqsResult true
       (mkSendFields (MessageId response) (MD5OfMessageBody response)
                     (SequenceNumber response))
       elapsed))
    (catchConvert "send").

(** [for (const msg of messages) validateMessageSize(msg.body)]. *)
Fixpoint validateEach (messages : list SqsBatchMessage) : Outcome Exception unit :=
  match messages with
  | [] => Returned tt
  | msg :: rest =>
      match validateMessageSize (body msg) with
      | Returned _ => validateEach rest
      | Thrown e => Thrown e
      | Pending => Pending
      end
  end.

(** The mapping of the [Failed] entries of a batch output. *)
Definition failedEntries (entries : option (list BatchResultErrorEntry))
  : list SqsBatchFailedEntry :=
  map (fun entry =>
         mkFailedEntry (errorId entry) (errorCode entry)
                       (nullish (errorMessage entry) ""))
      (nullish entries []).

(** [sendBatch(messages)]. *)
Definition sendBatch (messages : list SqsBatchMessage)
           (reply : list (Event SendMessageBatchOutput)) (elapsed : number)
  : Call (SqsResult (BatchFields SqsBatchSuccessEntry)) :=
  ensureOpen ;;;
  Method.lift (validateEach messages) ;;;
  Method.tryCatch
    (c <- Method.get ;;
     response <- clientSend
       (SendMessageBatchCommand (queueUrl c)
          (map (fun msg =>
                  mkSendEntry (id msg) (body msg) (batchDelaySeconds msg)
                    (toSdkMessageAttributes (batchMessageAttributes msg)))
               messages))
       reply None "sendBatch" ;;
     let successful :=
       map (fun entry => mkSuccessEntry (entryMessageId entry) (entryId entry))
           (nullish (sendSuccessful response) []) in
     let failed := failedEntries (sendFailed response) in
     Method.ret (mkSqsResult (Z.of_nat (List.length failed) =? 0)
                             (mkBatchFields successful failed) elapsed))
    (catchConvert "sendBatch").

(** [receive(options)]. *)
Definition receive (options : option SqsReceiveOptions)
           (reply : list (Event ReceiveMessageOutput)) (elapsed : number)
  : Call (SqsResult (list SqsMessage)) :=
  ensureOpen ;;;
  Method.tryCatch
    (c <- Method.get ;;
     response <- clientSend
       (ReceiveMessageCommand (queueUrl c)
          (optChain options maxMessages)
          (optChain options visibilityTimeout)
          (optChain options waitTimeSeconds)
          (optChain options messageAttributeNames)
          (optChain options attributeNames))
       reply (option_map receiveCommon options) "receive" ;;
     let messages :=
       map (fun msg =>
              mkMessage (sdkMessageId msg) (sdkBody msg) (sdkReceiptHandle msg)
                        (nullish (sdkAttributes msg) [])
                        (convertMessageAttributes (sdkMessageAttributes msg))
                        (sdkMD5OfBody msg))
           (nullish (Messages response) []) in
     Method.ret (mkSqsResult true
                   (SqsMessages.createSqsMessages messages) elapsed))
    (catchConvert "receive").

(** [delete(receiptHandle, options)]. *)
Definition delete (receiptHandle : string) (options : option CommonOptions)
           (reply : list (Event unit)) (elapsed : number)
  : Call (SqsResult unit) :=
  ensureOpen ;;;
  Method.tryCatch
    (c <- Method.get ;;
     clientSend (DeleteMessageCommand (queueUrl c) receiptHandle)
                reply options "delete" ;;;
     Method.ret (mkSqsResult true tt elapsed))
    (catchConvert "delete").

(** [receiptHandles.map((handle, index) => ...)] from [index] on. *)
Fixpoint deleteEntries (index : nat) (receiptHandles : list string)
  : list DeleteMessageBatchRequestEntry :=
  match receiptHandles with
  | [] => []
  | handle :: rest =>
      mkDeleteEntry (numberToString (Z.of_nat index)) handle
      :: deleteEntries (S index) rest
  end.

(** [deleteBatch(receiptHandles, options)]. *)
Definition deleteBatch (receiptHandles : list string)
           (options : option CommonOptions)
           (reply : list (Event DeleteMessageBatchOutput)) (elapsed : number)
  : Call (SqsResult (BatchFields (option string))) :=
  ensureOpen ;;;
  Method.tryCatch
    (c <- Method.get ;;
     response <- clientSend
       (DeleteMessageBatchCommand (queueUrl c) (deleteEntries 0 receiptHandles))
       reply options "deleteBatch" ;;
     let successful := nullish (deleteSuccessful response) [] in
     let failed := failedEntries (deleteFailed response) in
     Method.ret (mkSqsResult (Z.of_nat (List.length failed) =? 0)
                             (mkBatchFields successful failed) elapsed))
    (catchConvert "deleteBatch").

(** [purge(options)]. *)
Definition purge (options : option CommonOptions)
           (reply : list (Event unit)) (elapsed : number)
  : Call (SqsResult unit) :=
  ensureOpen ;;;
  Method.tryCatch
    (c <- Method.get ;;
     clientSend (PurgeQueueCommand (queueUrl c)) reply options "purge" ;;;
     Method.ret (mkSqsResult true tt elapsed))
    (catchConvert "purge").

(** [this.#client.destroy()]: [throws] is what the SDK client throws, if it
    throws. *)
Definition destroy (throws : option Exception) : Call unit :=
  Method.modify (fun c =>
    mkClient (queueUrl c) (closed c) (sent c) (S (destroyCalls c))) ;;;
  match throws with
  | Some e => Method.throw e
  | None => Method.ret tt
  end.

(** [close()]. *)
Definition close (throws : option Exception) : Call unit :=
  c <- Method.get ;;
  if closed c then Method.ret tt
  else
    Method.modify (fun c =>
      mkClient (queueUrl c) true (sent c) (destroyCalls c)) ;;;
    Method.tryCatch (destroy throws) (fun _ => Method.ret tt) ;;;
    Method.ret tt.

(** [[Symbol.asyncDispose]()]. *)
Definition asyncDispose (throws : option Exception) : Call unit := close throws.

End SqsClient.

(* ================================================================= *)
(** ** HTTP responses (client-http/response.ts)

    A response object is a result whose fields hold the body read at receipt
    time and the private caches of [text()] and [json()]. [TextDecoder] and
    [JSON.parse] are collaborators: the methods run in a state that also
    counts the calls they receive. *)

Module HttpResponse.

(** [Headers], seen through its [get] method. *)
Definition Headers : Type := string -> option string.

(** The Web [Response] handed over by [fetch]: [arrayBuffer] is how the
    body read settles, [setCookies] the list of [Set-Cookie] values the
    client iterates over. *)
Record Response : Type := mkResponse {
  rawStatus : number;
  rawStatusText : string;
  rawOk : bool;
  rawUrl : string;
  rawHeaders : Headers;
  rawBodyIsNull : bool;
  arrayBuffer : Outcome Exception (list Byte.byte);
  setCookies : list JsString
}.

(** The three implementation classes. *)
Inductive Impl : Type :=
| HttpResponseSuccessImpl
| HttpResponseErrorImpl
| HttpResponseFailureImpl.

Section Responses.

(** The values [JSON.parse] produces. *)
Variable Json : Type.

Record HttpFields : Type := mkFields {
  impl : Impl;
  status : option number;
  statusText : option string;
  headers : option Headers;
  url : string;
  body : option (list Byte.byte);
  raw : option Response;
  textCache : Field string;
  jsonCache : Field Json;
  jsonParsed : bool
}.

(** The error slot holds the [Error] of an error response or the
    [HttpFailureError] of a failure response. *)
Definition HttpResponse : Type := Result ErrorValue ErrorValue HttpFields.

Definition createHttpResponseSuccess (raw : Response)
           (body : option (list Byte.byte)) (duration : number) : HttpResponse :=
  mkResult "http" true true None duration
    (mkFields HttpResponseSuccessImpl (Some (rawStatus raw))
       (Some (rawStatusText raw)) (Some (rawHeaders raw)) (rawUrl raw) body
       (Some raw) Undefined Undefined false).

Definition createHttpResponseError (raw : Response)
           (body : option (list Byte.byte)) (duration : number)
           (error : ErrorValue) : HttpResponse :=
  mkResult "http" true false (Some (inl error)) duration
    (mkFields HttpResponseErrorImpl (Some (rawStatus raw))
       (Some (rawStatusText raw)) (Some (rawHeaders raw)) (rawUrl raw) body
       (Some raw) Undefined Undefined false).

Definition createHttpResponseFailure (url : string) (duration : number)
           (error : ErrorValue) : HttpResponse :=
  mkResult "http" false false (Some (inr error)) duration
    (mkFields HttpResponseFailureImpl None None None url None None
       Undefined Undefined false).

(** [response.error] as a value. *)
Definition errorValue (r : HttpResponse) : option ErrorValue :=
  match error r with
  | None => None
  | Some (inl e) => Some e
  | Some (inr e) => Some e
  end.

(** Reading the body at receipt time: [null] when the response has no body
    or the body is empty. *)
Definition readBody (raw : Response) : Outcome Exception (option (list Byte.byte)) :=
  if rawBodyIsNull raw then Returned None
  else
    match arrayBuffer raw with
    | Returned bytes =>
        if Z.of_nat (List.length bytes) >? 0 then Returned (Some bytes)
        else Returned None
    | Thrown e => Thrown e
    | Pending => Pending
    end.

(** [createHttpResponse(raw, duration)] (deprecated). *)
Definition createHttpResponse (raw : Response) (duration : number)
  : Outcome Exception HttpResponse :=
  match readBody raw with
  | Returned body =>
      if rawOk raw then Returned (createHttpResponseSuccess raw body duration)
      else Returned (createHttpResponseError raw body duration
             (NativeError CtorError "Error"
                ("HTTP " ++ numberToString (rawStatus raw) ++ ": " ++
                 rawStatusText raw) None None None))
  | Thrown e => Thrown e
  | Pending => Pending
  end.

(** [new TextDecoder().decode(bytes)] and [JSON.parse(text)]. *)
Variable decode : list Byte.byte -> string.
Variable parse : string -> Outcome Exception Json.

(** A response object together with the number of calls its collaborators
    have received. *)
Record Run : Type := mkRun {
  this : HttpResponse;
  decodeCalls : nat;
  parseCalls : nat
}.

Definition Call (A : Type) : Type := Method.M Exception Run A.

Definition setFields (f : HttpFields -> HttpFields) (r : HttpResponse)
  : HttpResponse :=
  mkResult (kind r) (processed r) (ok r) (error r) (duration r) (f (payload r)).

Definition setTextCache (v : Field string) (f : HttpFields) : HttpFields :=
  mkFields (impl f) (status f) (statusText f) (headers f) (url f) (body f)
           (raw f) v (jsonCache f) (jsonParsed f).

Definition setJsonCache (v : Field Json) (f : HttpFields) : HttpFields :=
  mkFields (impl f) (status f) (statusText f) (headers f) (url f) (body f)
           (raw f) (textCache f) v true.

(** The object [r] with its three private caches replaced; every other
    field is that of [r]. *)
Definition withCaches (t : Field string) (j : Field Json) (parsed : bool)
           (r : HttpResponse) : HttpResponse :=
  setFields (fun f =>
               mkFields (impl f) (status f) (statusText f) (headers f) (url f)
                        (body f) (raw f) t j parsed) r.

(** [raw()], [arrayBuffer()] and [blob()]: a blob is its bytes and its
    type. *)
Definition rawOf (r : HttpResponse) : option Response := raw (payload r).

Definition arrayBufferOf (r : HttpResponse) : option (list Byte.byte) :=
  match impl (payload r) with
  | HttpResponseFailureImpl => None
  | _ => body (payload r)
  end.

Definition blob (r : HttpResponse) : option (list Byte.byte * string) :=
  match impl (payload r) with
  | HttpResponseFailureImpl => None
  | _ =>
      match body (payload r) with
      | None => None
      | Some bytes =>
          Some (bytes,
                nullish (optChain (headers (payload r))
                                  (fun h => h "content-type")) "")
      end
  end.

(** [text()]. *)
Definition text : Call (Field string) :=
  r <- Method.get ;;
  match impl (payload (this r)) with
  | HttpResponseFailureImpl => Method.ret Null
  | _ =>
      match body (payload (this r)) with
      | None => Method.ret Null
      | Some bytes =>
          match textCache (payload (this r)) with
          | Undefined =>
              Method.modify (fun r =>
                mkRun (setFields (setTextCache (Value (decode bytes))) (this r))
                      (S (decodeCalls r)) (parseCalls r))
          | _ => Method.ret tt
          end ;;;
          r' <- Method.get ;;
          Method.ret (textCache (payload (this r')))
      end
  end.

(** [JSON.parse(textValue)], counted. An [undefined] argument is converted
    to the string it prints as. *)
Definition callParse (textValue : string) : Call Json :=
  Method.modify (fun r => mkRun (this r) (decodeCalls r) (S (parseCalls r))) ;;;
  Method.lift (parse textValue).

(** [json()]. *)
Definition json : Call (Field Json) :=
  r <- Method.get ;;
  match impl (payload (this r)) with
  | HttpResponseFailureImpl => Method.ret Null
  | _ =>
      match body (payload (this r)) with
      | None => Method.ret Null
      | Some _ =>
          (if negb (jsonParsed (payload (this r)))
           then
             textValue <- text ;;
             parsed <- match textValue with
                       | Null => Method.ret Null
                       | Value t => (j <- callParse t ;; Method.ret (Value j))
                       | Undefined =>
                           (j <- callParse "undefined" ;; Method.ret (Value j))
                       end ;;
             Method.modify (fun r =>
               mkRun (setFields (setJsonCache parsed) (this r))
                     (decodeCalls r) (parseCalls r))
           else Method.ret tt) ;;;
          r' <- Method.get ;;
          Method.ret (jsonCache (payload (this r')))
      end
  end.

(** A sequence of reads of one response object, with the completion of
    each. A read that throws does not stop the caller from reading again. *)
Inductive Read : Type :=
| ReadText
| ReadJson.

Inductive Completion : Type :=
| TextCompleted (o : Outcome Exception (Field string))
| JsonCompleted (o : Outcome Exception (Field Json)).

Definition perform (rd : Read) (r : Run) : Run * Completion :=
  match rd with
  | ReadText => (fst (text r), TextCompleted (snd (text r)))
  | ReadJson => (fst (json r), JsonCompleted (snd (json r)))
  end.

Fixpoint performAll (reads : list Read) (r : Run) : Run * list Completion :=
  match reads with
  | [] => (r, [])
  | rd :: rest =>
      let step := perform rd r in
      let tail := performAll rest (fst step) in
      (fst tail, snd step :: snd tail)
  end.

(** The number of [json()] calls in a sequence of reads. *)
Definition jsonReads (reads : list Read) : nat :=
  List.length
    (filter (fun rd => match rd with ReadJson => true | ReadText => false end)
            reads).

End Responses.

Arguments mkFields {Json} _ _ _ _ _ _ _ _ _ _.
Arguments impl {Json} _.
Arguments status {Json} _.
Arguments statusText {Json} _.
Arguments headers {Json} _.
Arguments url {Json} _.
Arguments body {Json} _.
Arguments raw {Json} _.
Arguments textCache {Json} _.
Arguments jsonCache {Json} _.
Arguments jsonParsed {Json} _.
Arguments mkRun {Json} _ _ _.
Arguments this {Json} _.
Arguments decodeCalls {Json} _.
Arguments parseCalls {Json} _.
Arguments createHttpResponseSuccess {Json} _ _ _.
Arguments createHttpResponseError {Json} _ _ _ _.
Arguments createHttpResponseFailure {Json} _ _ _.
Arguments createHttpResponse {Json} _ _.
Arguments errorValue {Json} _.
Arguments rawOf {Json} _.
Arguments arrayBufferOf {Json} _.
Arguments blob {Json} _.
Arguments TextCompleted {Json} o.
Arguments JsonCompleted {Json} o.
Arguments withCaches {Json} _ _ _ _.
Arguments text {Json} _ _.
Arguments json {Json} _ _ _.
Arguments perform {Json} _ _ _ _.
Arguments performAll {Json} _ _ _ _.

End HttpResponse.

(* ================================================================= *)
(** ** The HTTP client (client-http/client.ts)

    [fetch], the [URL] class, [JSON] and [Deno.inspect] are collaborators.
    A request is modelled from the point where its URL is built: [url] is
    the value of [buildUrl], [fetched] the settlement of the call of
    [fetch]. A cookie string is the list of its UTF-16 code units, so that
    [trim] and the character classes of the pattern are exact. *)

Module HttpClient.

Import HttpResponse.

(** [HttpConnectionConfig]. *)
Record HttpConnectionConfig : Type := mkConnection {
  protocol : option string;
  host : option string;
  port : option number;
  path : option string
}.

(** [resolveBaseUrl(url)]. *)
Definition resolveBaseUrl (url : string + HttpConnectionConfig) : string :=
  match url with
  | inl s => s
  | inr c =>
      let portSuffix :=
        if truthyNumber (port c)
        then ":" ++ numberToString (nullish (port c) 0)
        else "" in
      nullish (protocol c) "http" ++ "://" ++ nullish (host c) "localhost"
        ++ portSuffix ++ nullish (path c) ""
  end.

(** An object used as a record of strings, or a [Map]: the list of its
    entries in insertion order, with distinct keys. Writing a key that is
    present replaces its value in place. *)
Fixpoint setEntry {K V} (eqb : K -> K -> bool) (k : K) (v : V)
         (entries : list (K * V)) : list (K * V) :=
  match entries with
  | [] => [(k, v)]
  | (k', v') :: rest =>
      if eqb k k' then (k, v) :: rest
      else (k', v') :: setEntry eqb k v rest
  end.

Fixpoint getEntry {K V} (eqb : K -> K -> bool) (k : K)
         (entries : list (K * V)) : option V :=
  match entries with
  | [] => None
  | (k', v') :: rest => if eqb k k' then Some v' else getEntry eqb k rest
  end.

(** [Object.assign(target, source)]. *)
Definition assign (target source : list (string * string))
  : list (string * string) :=
  fold_left (fun acc entry => setEntry String.eqb (fst entry) (snd entry) acc)
            source target.

(** [mergeHeaders(...sources)]. *)
Definition mergeHeaders (sources : list (option (list (string * string))))
  : list (string * string) :=
  fold_left (fun result source =>
               match source with
               | Some s => assign result s
               | None => result
               end)
            sources [].

(** Equality of two strings given by their code units. *)
Fixpoint unitsEqb (a b : JsString) : bool :=
  match a, b with
  | [], [] => true
  | x :: a', y :: b' => (x =? y)%N && unitsEqb a' b'
  | _, _ => false
  end.

(** The code units of [=], [;] and the space. *)
Definition EQUALS : N := 61%N.
Definition SEMICOLON : N := 59%N.
Definition SPACE : N := 32%N.

(** [parts.join("; ")]. *)
Fixpoint joinUnits (sep : JsString) (parts : list JsString) : JsString :=
  match parts with
  | [] => []
  | [x] => x
  | x :: rest => (x ++ sep ++ joinUnits sep rest)%list
  end.

(** [serializeCookies(cookies)], over the entries of [cookies]. *)
Definition serializeCookies (cookies : list (JsString * JsString)) : JsString :=
  joinUnits [SEMICOLON; SPACE]
    (map (fun entry => (fst entry ++ [EQUALS] ++ snd entry)%list) cookies).

(** The code units that [trim] removes: white space and line
    terminators. *)
Definition isWhiteSpace (c : N) : bool :=
  ((9 <=? c) && (c <=? 13) || (c =? 32) || (c =? 0xA0) || (c =? 0x1680)
   || (0x2000 <=? c) && (c <=? 0x200A) || (c =? 0x2028) || (c =? 0x2029)
   || (c =? 0x202F) || (c =? 0x205F) || (c =? 0x3000) || (c =? 0xFEFF))%N.

Fixpoint trimStart (s : JsString) : JsString :=
  match s with
  | c :: rest => if isWhiteSpace c then trimStart rest else s
  | [] => []
  end.

Definition trim (s : JsString) : JsString :=
  rev (trimStart (rev (trimStart s))).

(** The longest prefix without the code unit [stop], and what follows
    it. *)
Fixpoint spanUntil (stop : N) (s : JsString) : JsString * JsString :=
  match s with
  | [] => ([], [])
  | c :: rest =>
      if (c =? stop)%N then ([], s)
      else (c :: fst (spanUntil stop rest), snd (spanUntil stop rest))
  end.

(** [parseSetCookie(setCookie)]: the pattern asks, from the start of the
    string, for one or more code units other than [=], then [=], then the
    code units up to the first [;]. *)
Definition parseSetCookie (setCookie : JsString) : option (JsString * JsString) :=
  match spanUntil EQUALS setCookie with
  | ((_ :: _) as name, _ :: afterEquals) =>
      Some (trim name, trim (fst (spanUntil SEMICOLON afterEquals)))
  | _ => None
  end.

Section Client.

Variable Json : Type.

(** [new TextDecoder().decode(bytes)]. *)
Variable decode : list Byte.byte -> string.

(** [Deno.inspect(JSON.parse(text), ...)], or [None] when [JSON.parse]
    throws. *)
Variable inspectJson : string -> option string.

(** [formatBodyDetail(bodyText)]. *)
Definition formatBodyDetail (bodyText : option string) : string :=
  match bodyText with
  | None => ""
  | Some "" => ""
  | Some text =>
      let detail := nullish (inspectJson text) text in
      let indented :=
        join (String "010" "")
             (map (fun line => "  " ++ line) (splitLines detail)) in
      String "010" (String "010" indented)
  end.

(** [createHttpError(status, statusText, bodyText)]. *)
Definition createHttpError (status : number) (statusText : string)
           (bodyText : option string) : ErrorValue :=
  let detail := formatBodyDetail bodyText in
  let message := numberToString status ++ ": " ++ statusText ++ detail in
  if status =? 400 then HttpError CHttpBadRequestError message 400 "Bad Request"
  else if status =? 401
  then HttpError CHttpUnauthorizedError message 401 "Unauthorized"
  else if status =? 403 then HttpError CHttpForbiddenError message 403 "Forbidden"
  else if status =? 404 then HttpError CHttpNotFoundError message 404 "Not Found"
  else if status =? 409 then HttpError CHttpConflictError message 409 "Conflict"
  else if status =? 429
  then HttpError CHttpTooManyRequestsError message 429 "Too Many Requests"
  else if status =? 500
  then HttpError CHttpInternalServerError message 500 "Internal Server Error"
  else HttpError CHttpError message status statusText.

(** [convertFetchError(error)]. *)
Definition convertFetchError (error : Exception) : ErrorValue :=
  match error with
  | ThrownError e =>
      if isAbortError e || isTimeoutError e then e
      else if isHttpNetworkError e then e
      else if (Errors.name e =? "AbortError")%string
      then AbortError "Request was aborted" (Some e)
      else if (Errors.name e =? "TimeoutError")%string
      then TimeoutError "Request timed out" 0 (Some e)
      else if isTypeError e
      then HttpNetworkError ("Connection failed: " ++ Errors.message e) (Some e)
      else if (Errors.name e =? "NetworkError")%string
      then HttpNetworkError ("Network error: " ++ Errors.message e) (Some e)
      else HttpNetworkError (Errors.message e) (Some e)
  | ThrownValue repr => HttpNetworkError repr None
  end.

(** [HttpClientConfig] and [HttpOptions], as far as the client reads them
    after the URL and the headers are built. *)
Record CookieConfig : Type := mkCookieConfig {
  disabled : option bool;
  initial : option (list (JsString * JsString))
}.

Record HttpClientConfig : Type := mkConfig {
  configUrl : string + HttpConnectionConfig;
  configHeaders : option (list (string * string));
  configThrowOnError : option bool;
  cookies : option CookieConfig
}.

Record HttpOptions : Type := mkOptions {
  common : CommonOptions;
  optionHeaders : option (list (string * string));
  throwOnError : option bool
}.

(** [HttpClientImpl]. *)
Record HttpClientImpl : Type := mkClient {
  config : HttpClientConfig;
  baseUrl : string;
  cookieJar : list (JsString * JsString);
  cookiesEnabled : bool
}.

Definition Call (A : Type) : Type := Method.M Exception HttpClientImpl A.

(** [this.#cookieJar.set(name, value)] for each entry in turn. *)
Definition setAll (entries : list (JsString * JsString))
           (jar : list (JsString * JsString)) : list (JsString * JsString) :=
  fold_left (fun acc entry => setEntry unitsEqb (fst entry) (snd entry) acc)
            entries jar.

(** [createHttpClient(config)]: the constructor of [HttpClientImpl]. *)
Definition createHttpClient (config : HttpClientConfig) : HttpClientImpl :=
  mkClient config (resolveBaseUrl (configUrl config))
    (setAll (nullish (optChain (cookies config) initial) []) [])
    (negb (nullish (optChain (cookies config) disabled) false)).

(** [getCookies()], as the entries of the object it returns (for names that
    are not array indices, the order of the jar). *)
Definition getCookies (c : HttpClientImpl) : list (JsString * JsString) :=
  cookieJar c.

(** [setCookie(name, value)]. *)
Definition setCookie (name value : JsString) : Call unit :=
  c <- Method.get ;;
  if negb (cookiesEnabled c)
  then Method.throw (ThrownError (NativeError CtorError "Error"
         "Cookie handling is disabled. Remove cookies.disabled: true from HttpClientConfig."
         None None None))
  else Method.modify (fun c =>
         mkClient (config c) (baseUrl c)
                  (setEntry unitsEqb name value (cookieJar c)) (cookiesEnabled c)).

(** [clearCookies()]. *)
Definition clearCookies : Call unit :=
  Method.modify (fun c => mkClient (config c) (baseUrl c) [] (cookiesEnabled c)).

(** The loop over the [Set-Cookie] values of a response. *)
Fixpoint storeCookies (setCookies : list JsString)
         (jar : list (JsString * JsString)) : list (JsString * JsString) :=
  match setCookies with
  | [] => jar
  | cookieStr :: rest =>
      match parseSetCookie (trim cookieStr) with
      | Some parsed =>
          storeCookies rest (setEntry unitsEqb (fst parsed) (snd parsed) jar)
      | None => storeCookies rest jar
      end
  end.

(** [#request(method, path, body, options)] from the call of [fetch] on. *)
Definition request (options : option HttpOptions) (url : string)
           (fetched : Outcome Exception Response) (elapsed : number)
  : Call (HttpResponse Json) :=
  c <- Method.get ;;
  let shouldThrow :=
    nullish (optChain options throwOnError)
            (nullish (configThrowOnError (config c)) false) in
  match fetched with
  | Thrown fetchError =>
      let error := convertFetchError fetchError in
      if shouldThrow then Method.throw (ThrownError error)
      else Method.ret (createHttpResponseFailure url elapsed error)
  | Pending => Method.lift Pending
  | Returned rawResponse =>
      responseBody <- Method.lift (readBody rawResponse) ;;
      let response :=
        if rawOk rawResponse
        then createHttpResponseSuccess rawResponse responseBody elapsed
        else
          let bodyText := option_map decode responseBody in
          createHttpResponseError rawResponse responseBody elapsed
            (createHttpError (rawStatus rawResponse)
                             (rawStatusText rawResponse) bodyText) in
      (if cookiesEnabled c
       then Method.modify (fun c =>
              mkClient (config c) (baseUrl c)
                       (storeCookies (setCookies rawResponse) (cookieJar c))
                       (cookiesEnabled c))
       else Method.ret tt) ;;;
      if negb (ok response) && shouldThrow
      then Method.throw
             match errorValue response with
             | Some e => ThrownError e
             | None => ThrownValue "null"
             end
      else Method.ret response
  end.

(** [close()] and [[Symbol.asyncDispose]()]. *)
Definition close : Call unit := Method.ret tt.

Definition asyncDispose : Call unit := close.

End Client.

End HttpClient.

(* ================================================================= *)
(** ** The MySQL taxonomy and client (client-sql-mysql/errors.ts,
       client-sql-mysql/client.ts)

    The pool of the driver is seen through how its calls settle and through
    counters of the calls it receives. A query result is the object handed
    to the constructor of [SqlQueryResult]. *)

Module MySql.

Definition ER_ACCESS_DENIED_ERROR : number := 1045.
Definition ER_DUP_ENTRY : number := 1062.
Definition ER_NO_REFERENCED_ROW_2 : number := 1452.
Definition ER_ROW_IS_REFERENCED_2 : number := 1451.
Definition ER_LOCK_DEADLOCK : number := 1213.
Definition ER_PARSE_ERROR : number := 1064.
Definition ER_CHECK_CONSTRAINT_VIOLATED : number := 3819.

(** The characters before the first [stop], if [stop] occurs. *)
Fixpoint upTo (stop : ascii) (s : string) : option string :=
  match s with
  | EmptyString => None
  | String c rest =>
      if Ascii.eqb c stop then Some EmptyString
      else option_map (String c) (upTo stop rest)
  end.

(** One alternative of the constraint pattern, tried at the start of [s]:
    the text [opening], one or more characters other than [closing], then
    [closing]. The value is the captured group. *)
Definition quotedAt (opening : string) (closing : ascii) (s : string)
  : option string :=
  if String.prefix opening s
  then
    match upTo closing
            (String.substring (String.length opening)
               (String.length s - String.length opening) s) with
    | Some EmptyString => None
    | Some name => Some name
    | None => None
    end
  else None.

(** [message.match(pattern)] for the constraint pattern: the leftmost
    position where one of the two alternatives matches, the first
    alternative first. The value is the captured group. *)
Fixpoint constraintMatch (s : string) : option string :=
  match quotedAt "for key '" "'" s with
  | Some name => Some name
  | None =>
      match quotedAt "CONSTRAINT `" "`" s with
      | Some name => Some name
      | None =>
          match s with
          | EmptyString => None
          | String _ rest => constraintMatch rest
          end
      end
  end.

Definition optionEqb (a : option number) (b : number) : bool :=
  match a with Some v => v =? b | None => false end.

(** [convertMySqlError(error)]. The options object ([cause], [errno],
    [sqlState]) is spread over the last three arguments. *)
Definition convertMySqlError (error : Exception) : ErrorValue :=
  match error with
  | ThrownValue repr => SqlError CMySqlError repr None None None None
  | ThrownError err =>
      let make cls constraint :=
        SqlError cls (Errors.message err) constraint (Some err)
                 (Errors.errno err) (Errors.sqlState err) in
      if match Errors.code err with
         | Some c => (c =? "ECONNREFUSED")%string
         | None => false
         end
      then make CConnectionRefusedError None
      else if optionEqb (Errors.errno err) ER_ACCESS_DENIED_ERROR
      then make CAccessDeniedError None
      else if optionEqb (Errors.errno err) ER_PARSE_ERROR
      then make CQuerySyntaxError None
      else if optionEqb (Errors.errno err) ER_DUP_ENTRY
              || optionEqb (Errors.errno err) ER_NO_REFERENCED_ROW_2
              || optionEqb (Errors.errno err) ER_ROW_IS_REFERENCED_2
              || optionEqb (Errors.errno err) ER_CHECK_CONSTRAINT_VIOLATED
      then make CConstraintError
             (Some (nullish (constraintMatch (Errors.message err)) "unknown"))
      else if optionEqb (Errors.errno err) ER_LOCK_DEADLOCK
      then make CDeadlockError None
      else make CMySqlError None
  end.

(** The configuration objects (client-sql-mysql/types.ts). *)
Record MySqlTlsConfig : Type := mkTls {
  ca : option string;
  cert : option string;
  key : option string;
  rejectUnauthorized : option bool
}.

Record MySqlPoolConfig : Type := mkPoolConfig {
  connectionLimit : option number;
  minConnections : option number;
  queueLimit : option number;
  waitForConnections : option bool;
  idleTimeout : option number
}.

Record MySqlConnectionConfig : Type := mkConnection {
  host : string;
  port : option number;
  user : string;
  password : option string;
  database : string;
  tls : option MySqlTlsConfig;
  multipleStatements : option bool
}.

Record MySqlClientConfig : Type := mkConfig {
  connection : MySqlConnectionConfig;
  pool : option MySqlPoolConfig;
  charset : option string;
  timezone : option string
}.

(** The options handed to [mysql.createPool]. *)
Record SslOptions : Type := mkSsl {
  sslCa : option string;
  sslCert : option string;
  sslKey : option string;
  sslRejectUnauthorized : bool
}.

Record PoolOptions : Type := mkPoolOptions {
  poolHost : string;
  poolPort : number;
  poolUser : string;
  poolPassword : option string;
  poolDatabase : string;
  poolCharset : option string;
  poolTimezone : option string;
  poolWaitForConnections : bool;
  poolConnectionLimit : number;
  poolQueueLimit : number;
  poolIdleTimeout : number;
  enableKeepAlive : bool;
  poolMultipleStatements : bool;
  ssl : option SslOptions
}.

(** The [poolConfig] built by [createMySqlClient] for a connection given as
    an object. *)
Definition poolConfig (config : MySqlClientConfig) : PoolOptions :=
  let connConfig := connection config in
  mkPoolOptions (host connConfig) (nullish (port connConfig) 3306)
    (user connConfig) (password connConfig) (database connConfig)
    (charset config) (timezone config)
    (nullish (optChain (pool config) waitForConnections) true)
    (nullish (optChain (pool config) connectionLimit) 10)
    (nullish (optChain (pool config) queueLimit) 0)
    (nullish (optChain (pool config) idleTimeout) 10000)
    true
    (nullish (multipleStatements connConfig) false)
    (option_map (fun t =>
                   mkSsl (ca t) (cert t) (key t)
                         (nullish (rejectUnauthorized t) true))
                (tls connConfig)).

(** What [pool.execute] resolves with: an array of rows or a
    [ResultSetHeader]. *)
Record ResultSetHeader : Type := mkHeader {
  affectedRows : number;
  insertId : number;
  warningStatus : number
}.

Inductive Executed (Row : Type) : Type :=
| RowsArray (rows : list Row)
| Header (resultHeader : ResultSetHeader).

Arguments RowsArray {Row} rows.
Arguments Header {Row} resultHeader.

Record SqlQueryResultMetadata : Type := mkMetadata {
  lastInsertId : option Z;
  warnings : option (list string)
}.

Record SqlQueryResultInit (Row : Type) : Type := mkInit {
  ok : bool;
  rows : list Row;
  rowCount : number;
  duration : number;
  metadata : SqlQueryResultMetadata
}.

Arguments mkInit {Row} _ _ _ _ _.
Arguments ok {Row} _.
Arguments rows {Row} _.
Arguments rowCount {Row} _.
Arguments duration {Row} _.
Arguments metadata {Row} _.

(** [MySqlClientImpl]: [#closed], and the pool seen through the statements
    it executed (oldest first) and the calls of [end], [commit] and
    [rollback] it received. *)
Record MySqlClientImpl : Type := mkClient {
  closed : bool;
  executed : list string;
  endCalls : nat;
  commitCalls : nat;
  rollbackCalls : nat
}.

Definition Call (A : Type) : Type := Method.M Exception MySqlClientImpl A.

(** [createMySqlClient(config)]: [tested] is how creating the pool and
    testing a connection settles. *)
Definition createMySqlClient (config : MySqlClientConfig)
           (tested : Outcome Exception unit)
  : Outcome Exception (PoolOptions * MySqlClientImpl) :=
  match tested with
  | Returned _ => Returned (poolConfig config, mkClient false [] 0 0 0)
  | Thrown error => Thrown (ThrownError (convertMySqlError error))
  | Pending => Pending
  end.

(** [throw convertMySqlError(new Error("Client is closed"))]. *)
Definition throwClosed {A} : Call A :=
  Method.throw (ThrownError (convertMySqlError
    (ThrownError (NativeError CtorError "Error" "Client is closed"
                              None None None)))).

(** [await this.#pool.execute(sql, params)]. *)
Definition execute {Row} (sql : string)
           (reply : Outcome Exception (Executed Row)) : Call (Executed Row) :=
  Method.modify (fun c =>
    mkClient (closed c) (executed c ++ [sql]) (endCalls c) (commitCalls c)
             (rollbackCalls c)) ;;;
  Method.lift reply.

(** [query(sql, params)]. *)
Definition query {Row} (sql : string)
           (reply : Outcome Exception (Executed Row)) (elapsed : number)
  : Call (SqlQueryResultInit Row) :=
  c <- Method.get ;;
  if closed c then throwClosed
  else
    Method.tryCatch
      (result <- execute sql reply ;;
       match result with
       | RowsArray rows =>
           Method.ret (mkInit true rows (Z.of_nat (List.length rows)) elapsed
                              (mkMetadata None None))
       | Header resultHeader =>
           Method.ret (mkInit true [] (affectedRows resultHeader) elapsed
             (mkMetadata
                (if truthyNumber (Some (insertId resultHeader))
                 then Some (insertId resultHeader) else None)
                (if warningStatus resultHeader >? 0
                 then Some [numberToString (warningStatus resultHeader)
                              ++ " warning(s)"]
                 else None)))
       end)
      (fun error => Method.throw (ThrownError (convertMySqlError error))).

(** [await tx.commit()] and [await tx.rollback()]. *)
Definition commit (settles : Outcome Exception unit) : Call unit :=
  Method.modify (fun c =>
    mkClient (closed c) (executed c) (endCalls c) (S (commitCalls c))
             (rollbackCalls c)) ;;;
  Method.lift settles.

Definition rollback (settles : Outcome Exception unit) : Call unit :=
  Method.modify (fun c =>
    mkClient (closed c) (executed c) (endCalls c) (commitCalls c)
             (S (rollbackCalls c))) ;;;
  Method.lift settles.

(** [transaction(fn, options)]: [begun] is how taking a connection and
    beginning the transaction settles, [ran] how [fn(tx)] settles. *)
Definition transaction {T} (begun : Outcome Exception unit)
           (ran : Outcome Exception T)
           (committed rolledBack : Outcome Exception unit) : Call T :=
  c <- Method.get ;;
  if closed c then throwClosed
  else
    Method.tryCatch (Method.lift begun)
      (fun error => Method.throw (ThrownError (convertMySqlError error))) ;;;
    Method.tryCatch
      (result <- Method.lift ran ;;
       commit committed ;;;
       Method.ret result)
      (fun error => rollback rolledBack ;;; Method.throw error).

(** [close()]: [ended] is how [pool.end()] settles. *)
Definition close (ended : Outcome Exception unit) : Call unit :=
  c <- Method.get ;;
  if closed c then Method.ret tt
  else
    Method.modify (fun c =>
      mkClient true (executed c) (endCalls c) (commitCalls c)
               (rollbackCalls c)) ;;;
    Method.modify (fun c =>
      mkClient (closed c) (executed c) (S (endCalls c)) (commitCalls c)
               (rollbackCalls c)) ;;;
    Method.lift ended.

(** [[Symbol.asyncDispose]()]. *)
Definition asyncDispose (ended : Outcome Exception unit) : Call unit :=
  close ended.

End MySql.

(* ================================================================= *)
(** * Properties *)

(* ================================================================= *)
(** ** The tri-state reading of the factories *)

Section TriStateShapes.

Context {Op Fail P : Type}.

(** A result of the success shape is in the success state only. *)
Lemma success_shape_tri_state (k : string) (d : number) (p : P) :
  TriState (mkResult (Op := Op) (Fail := Fail) k true true None d p).
Proof. reflexivity. Qed.

(** A result of the error shape is in the error state only. *)
Lemma error_shape_tri_state (k : string) (e : Op) (d : number) (p : P) :
  TriState (mkResult (Fail := Fail) k true false (Some (inl e)) d p).
Proof. reflexivity. Qed.

(** A result of the failure shape is in the failure state only. *)
Lemma failure_shape_tri_state (k : string) (f : Fail) (d : number) (p : P) :
  TriState (mkResult (Op := Op) k false false (Some (inr f)) d p).
Proof. reflexivity. Qed.

End TriStateShapes.

(** A read without [processed] is in none of the three states, whatever the
    tier of its error. *)
Lemma no_processed_no_state {E} (tier : E -> Tier) (o : option bool)
      (e : Field E) :
  triState tier (mkReads None o e) = false.
Proof. destruct o as [[|]|], e; reflexivity. Qed.

(** C2 (as amended): every result built by a factory function of the Redis
    results, of the SQS results and of the HTTP responses satisfies the
    tri-state invariant; the seven MongoDB failure factories build results
    that read [ok = false] and their error, and no [processed]. *)
Theorem factory_results_tri_state :
  forall (Op Fail Msg Json Doc : Type) (e : Op) (f : Fail) (m : Doc)
         (d : number) (s : option string) (n : number) (xs : list string)
         (h : list (string * string)) (id md5 q : string)
         (ok_ : list SqsResult.SqsBatchSuccessEntry)
         (ko : list SqsResult.SqsBatchFailedEntry) (msgs : list Msg)
         (raw : HttpResponse.Response) (b : option (list Byte.byte))
         (err fail : ErrorValue),
    (TriState (Redis.createRedisGetResultSuccess Op Fail s d)
     /\ TriState (Redis.createRedisGetResultError Op Fail e d)
     /\ TriState (Redis.createRedisGetResultFailure Op Fail f d)
     /\ TriState (Redis.createRedisSetResultSuccess Op Fail d)
     /\ TriState (Redis.createRedisSetResultError Op Fail e d)
     /\ TriState (Redis.createRedisSetResultFailure Op Fail f d)
     /\ TriState (Redis.createRedisCountResultSuccess Op Fail n d)
     /\ TriState (Redis.createRedisCountResultError Op Fail e d)
     /\ TriState (Redis.createRedisCountResultFailure Op Fail f d)
     /\ TriState (Redis.createRedisArrayResultSuccess Op Fail xs d)
     /\ TriState (Redis.createRedisArrayResultError Op Fail (T := string) e d)
     /\ TriState (Redis.createRedisArrayResultFailure Op Fail (T := string) f d)
     /\ TriState (Redis.createRedisHashResultSuccess Op Fail h d)
     /\ TriState (Redis.createRedisHashResultError Op Fail e d)
     /\ TriState (Redis.createRedisHashResultFailure Op Fail f d)
     /\ TriState (Redis.createRedisCommonResultSuccess Op Fail n d)
     /\ TriState (Redis.createRedisCommonResultError Op Fail (T := number) e d)
     /\ TriState (Redis.createRedisCommonResultFailure Op Fail (T := number) f d))
    /\ (TriState (SqsResult.createSqsSendResultSuccess Op Fail id md5 s d)
        /\ TriState (SqsResult.createSqsSendResultError Op Fail e d)
        /\ TriState (SqsResult.createSqsSendResultFailure Op Fail f d)
        /\ TriState (SqsResult.createSqsSendBatchResultSuccess Op Fail ok_ ko d)
        /\ TriState (SqsResult.createSqsSendBatchResultError Op Fail e d)
        /\ TriState (SqsResult.createSqsSendBatchResultFailure Op Fail f d)
        /\ TriState (SqsResult.createSqsReceiveResultSuccess Op Fail Msg msgs d)
        /\ TriState (SqsResult.createSqsReceiveResultError Op Fail Msg e d)
        /\ TriState (SqsResult.createSqsReceiveResultFailure Op Fail Msg f d)
        /\ TriState (SqsResult.createSqsDeleteResultSuccess Op Fail d)
        /\ TriState (SqsResult.createSqsDeleteResultError Op Fail e d)
        /\ TriState (SqsResult.createSqsDeleteResultFailure Op Fail f d)
        /\ TriState (SqsResult.createSqsDeleteBatchResultSuccess Op Fail xs ko d)
        /\ TriState (SqsResult.createSqsDeleteBatchResultError Op Fail e d)
        /\ TriState (SqsResult.createSqsDeleteBatchResultFailure Op Fail f d)
        /\ TriState (SqsResult.createSqsEnsureQueueResultSuccess Op Fail q d)
        /\ TriState (SqsResult.createSqsEnsureQueueResultError Op Fail e d)
        /\ TriState (SqsResult.createSqsEnsureQueueResultFailure Op Fail f d)
        /\ TriState (SqsResult.createSqsDeleteQueueResultSuccess Op Fail d)
        /\ TriState (SqsResult.createSqsDeleteQueueResultError Op Fail e d)
        /\ TriState (SqsResult.createSqsDeleteQueueResultFailure Op Fail f d))
    /\ (TriState (HttpResponse.createHttpResponseSuccess (Json := Json) raw b d)
        /\ TriState (HttpResponse.createHttpResponseError (Json := Json) raw b d err)
        /\ TriState (HttpResponse.createHttpResponseFailure (Json := Json) q d fail))
    /\ (Mongo.reads (Mongo.createMongoFindFailure m d)
          = mkReads None (Some false) (Value m)
        /\ Mongo.reads (Mongo.createMongoFindOneFailure m d)
          = mkReads None (Some false) (Value m)
        /\ Mongo.reads (Mongo.createMongoInsertOneFailure m d)
          = mkReads None (Some false) (Value m)
        /\ Mongo.reads (Mongo.createMongoInsertManyFailure m d)
          = mkReads None (Some false) (Value m)
        /\ Mongo.reads (Mongo.createMongoUpdateFailure m d)
          = mkReads None (Some false) (Value m)
        /\ Mongo.reads (Mongo.createMongoDeleteFailure m d)
          = mkReads None (Some false) (Value m)
        /\ Mongo.reads (Mongo.createMongoCountFailure m d)
          = mkReads None (Some false) (Value m)).
Proof.
  intros.
  repeat split;
    first [ apply success_shape_tri_state
          | apply error_shape_tri_state
          | apply failure_shape_tri_state
          | reflexivity ].
Qed.

(** C2, the claim as stated fails: the result of [createMongoFindFailure]
    has no [processed] property, so it is in none of the three states,
    whichever tier its error is given. *)
Lemma mongo_failure_not_tri_state :
  triState (fun _ : ErrorValue => TransportFailure)
    (Mongo.reads (Mongo.createMongoFindFailure
       (NativeError CtorError "MongoQueryError" "Test error" None None None)
       123)) = false
  /\ triState (fun _ : ErrorValue => OperationError)
       (Mongo.reads (Mongo.createMongoFindFailure
          (NativeError CtorError "MongoQueryError" "Test error" None None None)
          123)) = false.
Proof. split; apply no_processed_no_state. Qed.

(* ================================================================= *)
(** ** Batch results *)

(** C5 (as amended): a batch result built by a failure factory has
    [successful = null], [failed = null], [processed = false] and
    [ok = false]; a batch result built by an error factory has
    [processed = true], [ok = false] and two empty arrays. *)
Theorem whole_batch_failure_fields :
  forall (Op Fail : Type) (e : Op) (f : Fail) (d : number),
    (let r := SqsResult.createSqsSendBatchResultFailure Op Fail f d in
     SqsResult.successful (payload r) = None
     /\ SqsResult.failed (payload r) = None
     /\ processed r = false /\ ok r = false /\ error r = Some (inr f))
    /\ (let r := SqsResult.createSqsDeleteBatchResultFailure Op Fail f d in
        SqsResult.successful (payload r) = None
        /\ SqsResult.failed (payload r) = None
        /\ processed r = false /\ ok r = false /\ error r = Some (inr f))
    /\ (let r := SqsResult.createSqsSendBatchResultError Op Fail e d in
        SqsResult.successful (payload r) = Some []
        /\ SqsResult.failed (payload r) = Some []
        /\ processed r = true /\ ok r = false /\ error r = Some (inl e))
    /\ (let r := SqsResult.createSqsDeleteBatchResultError Op Fail e d in
        SqsResult.successful (payload r) = Some []
        /\ SqsResult.failed (payload r) = Some []
        /\ processed r = true /\ ok r = false /\ error r = Some (inl e)).
Proof. intros; cbv zeta; repeat split. Qed.

(** C5, the claim as stated fails: a batch that hit an operation error is
    built by the error factory, whose [successful] and [failed] are empty
    arrays and not [null]. *)
Lemma batch_error_has_empty_arrays :
  SqsResult.successful (payload
    (SqsResult.createSqsSendBatchResultError ErrorValue ErrorValue
       (SqsCommandError "Access denied" "sendBatch" None) 12)) = Some []
  /\ SqsResult.failed (payload
       (SqsResult.createSqsSendBatchResultError ErrorValue ErrorValue
          (SqsCommandError "Access denied" "sendBatch" None) 12)) = Some []
  /\ Some (@nil SqsResult.SqsBatchSuccessEntry) <> None.
Proof. repeat split; discriminate. Qed.

(* ================================================================= *)
(** ** The cancellation gate *)

Section GateFacts.

Context {T : Type}.

(** Who wins the race: the operation itself, the timer, or the abort
    listener. *)
Lemma race_cases (operation : string) (timeout : option number)
      (listening : bool) (trace : list (Event T)) (r : Settled T) :
  race operation timeout listening trace = Some r ->
  awaitPromise trace = Some r
  \/ (exists ms, timeout = Some ms
        /\ r = Rejected (ThrownError
                 (TimeoutError ("Operation timed out: " ++ operation) ms None)))
  \/ (listening = true
      /\ r = Rejected (ThrownError
               (AbortError ("Operation aborted: " ++ operation) None))).
Proof.
  induction trace as [|ev rest IH]; simpl; [discriminate|].
  destruct ev as [s| |].
  - intros H; left; exact H.
  - destruct timeout as [ms|].
    + intros H; inversion H; right; left; exists ms; split; reflexivity.
    + exact IH.
  - destruct listening.
    + intros H; inversion H; right; right; split; reflexivity.
    + exact IH.
Qed.

(** The same for [withOptions]. *)
Lemma withOptions_cases (trace : list (Event T))
      (options : option CommonOptions) (operation : string) (r : Settled T) :
  withOptions trace options operation = Some r ->
  awaitPromise trace = Some r
  \/ (exists o ms, options = Some o /\ timeout o = Some ms
        /\ r = Rejected (ThrownError
                 (TimeoutError ("Operation timed out: " ++ operation) ms None)))
  \/ (exists o sg, options = Some o /\ signal o = Some sg
        /\ r = Rejected (ThrownError
                 (AbortError ("Operation aborted: " ++ operation) None))).
Proof.
  unfold withOptions.
  destruct options as [o|]; simpl.
  - destruct (negb (truthyNumber (timeout o)) && negb (isSome (signal o))).
    + intros H; left; exact H.
    + destruct (signal o) as [sg|] eqn:Hs.
      * destruct (aborted sg).
        -- intros H; inversion H; right; right; exists o, sg; repeat split;
             assumption.
        -- intros H; apply race_cases in H.
           destruct H as [H|[[ms [Ht Hr]]|[_ Hr]]].
           ++ left; exact H.
           ++ right; left; exists o, ms; repeat split; assumption.
           ++ right; right; exists o, sg; repeat split; assumption.
      * intros H; apply race_cases in H.
        destruct H as [H|[[ms [Ht Hr]]|[Hl _]]].
        -- left; exact H.
        -- right; left; exists o, ms; repeat split; assumption.
        -- discriminate.
  - intros H; left; exact H.
Qed.

End GateFacts.

(* ================================================================= *)
(** ** The taxonomies *)

(** An instance of [TimeoutError] or [AbortError] has none of the driver
    fields the MySQL taxonomy reads. *)
Lemma timeout_abort_no_driver_fields (e : ErrorValue) :
  isTimeoutError e || isAbortError e = true ->
  Errors.code e = None /\ Errors.errno e = None /\ Errors.sqlState e = None.
Proof. destruct e; simpl; try discriminate; intros _; repeat split. Qed.

(** C6 (as amended): the SQS taxonomy and the fetch taxonomy pass an
    instance of [TimeoutError] or [AbortError] through unchanged; the MySQL
    taxonomy has no such rule and wraps it in a [MySqlError] whose cause it
    becomes. *)
Theorem timeout_abort_through_taxonomies :
  forall (e : ErrorValue) (operation : string)
         (context : option SqsClient.Context),
    isTimeoutError e || isAbortError e = true ->
    SqsClient.convertSqsError (ThrownError e) operation context = ThrownError e
    /\ HttpClient.convertFetchError (ThrownError e) = e
    /\ MySql.convertMySqlError (ThrownError e)
       = SqlError CMySqlError (Errors.message e) None (Some e) None None.
Proof.
  intros e operation context H.
  destruct (timeout_abort_no_driver_fields e H) as [Hc [Hn Hs]].
  repeat split.
  - unfold SqsClient.convertSqsError; rewrite H; reflexivity.
  - unfold HttpClient.convertFetchError.
    rewrite orb_comm in H; rewrite H; reflexivity.
  - unfold MySql.convertMySqlError; rewrite Hc, Hn, Hs; reflexivity.
Qed.

(** C6, a witness: the timeout error of a send that ran out of time. *)
Lemma timeout_abort_through_taxonomies_witness :
  SqsClient.convertSqsError
    (ThrownError (TimeoutError "Operation timed out: send" 50 None)) "send" None
  = ThrownError (TimeoutError "Operation timed out: send" 50 None)
  /\ HttpClient.convertFetchError
       (ThrownError (TimeoutError "Operation timed out: send" 50 None))
     = TimeoutError "Operation timed out: send" 50 None
  /\ MySql.convertMySqlError
       (ThrownError (TimeoutError "Operation timed out: send" 50 None))
     = SqlError CMySqlError
         (Errors.message (TimeoutError "Operation timed out: send" 50 None))
         None (Some (TimeoutError "Operation timed out: send" 50 None))
         None None.
Proof.
  apply (timeout_abort_through_taxonomies
           (TimeoutError "Operation timed out: send" 50 None) "send" None).
  reflexivity.
Defined.

(** C6, the claim as stated fails: the MySQL taxonomy turns a
    [TimeoutError] into a [MySqlError]. *)
Lemma mysql_reclassifies_timeout :
  MySql.convertMySqlError (ThrownError (TimeoutError "Query timed out" 50 None))
  = SqlError CMySqlError "Query timed out" None
      (Some (TimeoutError "Query timed out" 50 None)) None None
  /\ isTimeoutError
       (MySql.convertMySqlError
          (ThrownError (TimeoutError "Query timed out" 50 None))) = false.
Proof. split; reflexivity. Qed.

(** What the fetch taxonomy makes of a rejection, when the outcome is a
    [TimeoutError]: the rejection itself, or a new error of duration [0]. *)
Lemma convertFetchError_timeout (x : Exception) :
  isTimeoutError (HttpClient.convertFetchError x) = true ->
  (exists e, x = ThrownError e /\ isTimeoutError e = true
             /\ HttpClient.convertFetchError x = e)
  \/ (exists e, x = ThrownError e
                /\ HttpClient.convertFetchError x
                   = TimeoutError "Request timed out" 0 (Some e)).
Proof.
  destruct x as [e|repr]; simpl; [|discriminate].
  destruct (isAbortError e) eqn:Ha; simpl.
  - intros H; left; exists e; repeat split; assumption.
  - destruct (isTimeoutError e) eqn:Ht.
    + intros _; left; exists e; repeat split; assumption.
    + destruct (isHttpNetworkError e) eqn:Hn.
      * intros H; rewrite Ht in H; discriminate.
      * destruct (Errors.name e =? "AbortError")%string; [discriminate|].
        destruct (Errors.name e =? "TimeoutError")%string.
        -- intros _; right; exists e; split; reflexivity.
        -- destruct (isTypeError e); [discriminate|].
           destruct (Errors.name e =? "NetworkError")%string; discriminate.
Qed.

(** C7 (as amended): a [TimeoutError] that comes out of [withOptions] is the
    operation's own rejection or carries the [timeout] of the options of the
    call; a [TimeoutError] that comes out of the fetch taxonomy is the
    rejection itself or carries the duration [0]; an [AbortError] carries no
    duration. *)
Theorem timeout_error_carries_duration :
  (forall (T : Type) (trace : list (Event T)) (options : option CommonOptions)
          (operation : string) (e : ErrorValue),
      withOptions trace options operation = Some (Rejected (ThrownError e)) ->
      isTimeoutError e = true ->
      awaitPromise trace = Some (Rejected (ThrownError e))
      \/ exists o ms, options = Some o /\ timeout o = Some ms
           /\ e = TimeoutError ("Operation timed out: " ++ operation) ms None
           /\ timeoutMs e = timeout o)
  /\ (forall x : Exception,
         isTimeoutError (HttpClient.convertFetchError x) = true ->
         (exists e, x = ThrownError e /\ isTimeoutError e = true
                    /\ HttpClient.convertFetchError x = e)
         \/ timeoutMs (HttpClient.convertFetchError x) = Some 0)
  /\ (forall e : ErrorValue, isAbortError e = true -> timeoutMs e = None).
Proof.
  split; [|split].
  - intros T trace options operation e H Ht.
    apply withOptions_cases in H.
    destruct H as [H|[[o [ms [Ho [Hms Hr]]]]|[o [sg [_ [_ Hr]]]]]].
    + left; exact H.
    + right; exists o, ms. inversion Hr; subst.
      repeat split; try assumption; try reflexivity.
      simpl; symmetry; assumption.
    + inversion Hr; subst; discriminate.
  - intros x H.
    destruct (convertFetchError_timeout x H) as [Hx|[e [_ Hx]]].
    + left; exact Hx.
    + right; rewrite Hx; reflexivity.
  - intros e H; destruct e; try discriminate; reflexivity.
Qed.

(** C7, a witness: a send with a timeout of 50 ms whose timer fires
    first. *)
Lemma timeout_error_carries_duration_witness :
  awaitPromise (T := unit) [TimerFires]
  = Some (Rejected (ThrownError
            (TimeoutError "Operation timed out: send" 50 None)))
  \/ exists o ms,
       Some (mkCommonOptions (Some 50) None) = Some o /\ timeout o = Some ms
       /\ TimeoutError "Operation timed out: send" 50 None
          = TimeoutError ("Operation timed out: " ++ "send") ms None
       /\ timeoutMs (TimeoutError "Operation timed out: send" 50 None)
          = timeout o.
Proof.
  apply (proj1 timeout_error_carries_duration unit [TimerFires]
           (Some (mkCommonOptions (Some 50) None)) "send"
           (TimeoutError "Operation timed out: send" 50 None));
    reflexivity.
Defined.

(** C7, the claim as stated fails: a request with [timeout = 50] whose
    [fetch] is rejected with the runtime's timeout exception ends with a
    [TimeoutError] of duration [0]. *)
Lemma fetch_timeout_loses_duration :
  snd (HttpClient.request unit (fun _ => "") (fun _ => None)
         (Some (HttpClient.mkOptions (mkCommonOptions (Some 50) None) None None))
         "http://localhost/slow"
         (Thrown (ThrownError
            (NativeError CtorDOMException "TimeoutError" "Signal timed out"
                         None None None)))
         50
         (HttpClient.createHttpClient
            (HttpClient.mkConfig (inl "http://localhost") None None None)))
  = Returned (HttpResponse.createHttpResponseFailure "http://localhost/slow" 50
      (TimeoutError "Request timed out" 0
         (Some (NativeError CtorDOMException "TimeoutError" "Signal timed out"
                            None None None))))
  /\ timeoutMs
       (TimeoutError "Request timed out" 0
          (Some (NativeError CtorDOMException "TimeoutError" "Signal timed out"
                             None None None))) = Some 0
  /\ (0 =? 50) = false.
Proof. repeat split. Qed.

(* ================================================================= *)
(** ** The operations of the SQS client *)

Section SqsOperations.

Import SqsClient.

(** Unfolds one operation of the client on a state given by its fields. *)
Ltac run_operation :=
  unfold send, sendBatch, receive, delete, deleteBatch, purge, ensureOpen,
    clientSend, catchConvert, Method.bind, Method.tryCatch, Method.get,
    Method.throw, Method.ret, Method.lift, Method.modify;
  cbn [closed queueUrl sent destroyCalls fst snd].

(** A closed client refuses every operation before anything else: the
    state is unchanged and the error is that of [#ensureOpen]. *)
Lemma closed_client_refuses (c : SqsClientImpl) :
  closed c = true ->
  (forall body options reply elapsed,
      send body options reply elapsed c
      = (c, Thrown (ThrownError (SqsCommandError "Client is closed" "" None))))
  /\ (forall messages reply elapsed,
         sendBatch messages reply elapsed c
         = (c, Thrown (ThrownError (SqsCommandError "Client is closed" "" None))))
  /\ (forall options reply elapsed,
         receive options reply elapsed c
         = (c, Thrown (ThrownError (SqsCommandError "Client is closed" "" None))))
  /\ (forall receiptHandle options reply elapsed,
         delete receiptHandle options reply elapsed c
         = (c, Thrown (ThrownError (SqsCommandError "Client is closed" "" None))))
  /\ (forall receiptHandles options reply elapsed,
         deleteBatch receiptHandles options reply elapsed c
         = (c, Thrown (ThrownError (SqsCommandError "Client is closed" "" None))))
  /\ (forall options reply elapsed,
         purge options reply elapsed c
         = (c, Thrown (ThrownError (SqsCommandError "Client is closed" "" None)))).
Proof.
  intros H; repeat split; intros; run_operation; rewrite H; reflexivity.
Qed.

(** The completion of an operation of an open client whose command was
    handed to the SDK client: the mapped response, or the conversion of
    what the awaited call threw. *)
Lemma send_open (c : SqsClientImpl) (body : JsString)
      (options : option SqsSendOptions) (reply : list (Event SendMessageOutput))
      (elapsed : number) :
  closed c = false ->
  validateMessageSize body = Returned tt ->
  send body options reply elapsed c
  = (mkClient (queueUrl c) false
       (sent c ++ [SendMessageCommand (queueUrl c) body
                     (optChain options delaySeconds)
                     (toSdkMessageAttributes (optChain options messageAttributes))
                     (optChain options messageGroupId)
                     (optChain options messageDeduplicationId)])
       (destroyCalls c),
     match awaited (withOptions reply (option_map sendCommon options) "send") with
     | Returned response =>
         Returned (mkSqsResult true
           (mkSendFields (MessageId response) (MD5OfMessageBody response)
                         (SequenceNumber response)) elapsed)
     | Thrown x =>
         Thrown (convertSqsError x "send" (Some (mkContext (Some (queueUrl c)))))
     | Pending => Pending
     end).
Proof.
  intros Hc Hv; run_operation; rewrite Hc, Hv.
  destruct (awaited _); rewrite ?Hc; reflexivity.
Qed.

Lemma sendBatch_open (c : SqsClientImpl) (messages : list SqsBatchMessage)
      (reply : list (Event SendMessageBatchOutput)) (elapsed : number) :
  closed c = false ->
  validateEach messages = Returned tt ->
  sendBatch messages reply elapsed c
  = (mkClient (queueUrl c) false
       (sent c ++ [SendMessageBatchCommand (queueUrl c)
                     (map (fun msg =>
                             mkSendEntry (id msg) (body msg)
                               (batchDelaySeconds msg)
                               (toSdkMessageAttributes
                                  (batchMessageAttributes msg)))
                          messages)])
       (destroyCalls c),
     match awaited (withOptions reply None "sendBatch") with
     | Returned response =>
         Returned (mkSqsResult
           (Z.of_nat (List.length (failedEntries (sendFailed response))) =? 0)
           (mkBatchFields
              (map (fun entry =>
                      mkSuccessEntry (entryMessageId entry) (entryId entry))
                   (nullish (sendSuccessful response) []))
              (failedEntries (sendFailed response)))
           elapsed)
     | Thrown x =>
         Thrown (convertSqsError x "sendBatch"
                   (Some (mkContext (Some (queueUrl c)))))
     | Pending => Pending
     end).
Proof.
  intros Hc Hv; run_operation; rewrite Hc, Hv.
  destruct (awaited _); rewrite ?Hc; reflexivity.
Qed.

Lemma receive_open (c : SqsClientImpl) (options : option SqsReceiveOptions)
      (reply : list (Event ReceiveMessageOutput)) (elapsed : number) :
  closed c = false ->
  receive options reply elapsed c
  = (mkClient (queueUrl c) false
       (sent c ++ [ReceiveMessageCommand (queueUrl c)
                     (optChain options maxMessages)
                     (optChain options visibilityTimeout)
                     (optChain options waitTimeSeconds)
                     (optChain options messageAttributeNames)
                     (optChain options attributeNames)])
       (destroyCalls c),
     match awaited (withOptions reply (option_map receiveCommon options)
                                "receive") with
     | Returned response =>
         Returned (mkSqsResult true
           (map (fun msg =>
                   mkMessage (sdkMessageId msg) (sdkBody msg)
                     (sdkReceiptHandle msg) (nullish (sdkAttributes msg) [])
                     (convertMessageAttributes (sdkMessageAttributes msg))
                     (sdkMD5OfBody msg))
                (nullish (Messages response) []))
           elapsed)
     | Thrown x =>
         Thrown (convertSqsError x "receive"
                   (Some (mkContext (Some (queueUrl c)))))
     | Pending => Pending
     end).
Proof.
  intros Hc; run_operation; rewrite Hc.
  destruct (awaited _); rewrite ?Hc; reflexivity.
Qed.

Lemma delete_open (c : SqsClientImpl) (receiptHandle : string)
      (options : option CommonOptions) (reply : list (Event unit))
      (elapsed : number) :
  closed c = false ->
  delete receiptHandle options reply elapsed c
  = (mkClient (queueUrl c) false
       (sent c ++ [DeleteMessageCommand (queueUrl c) receiptHandle])
       (destroyCalls c),
     match awaited (withOptions reply options "delete") with
     | Returned _ => Returned (mkSqsResult true tt elapsed)
     | Thrown x =>
         Thrown (convertSqsError x "delete"
                   (Some (mkContext (Some (queueUrl c)))))
     | Pending => Pending
     end).
Proof.
  intros Hc; run_operation; rewrite Hc.
  destruct (awaited _); rewrite ?Hc; reflexivity.
Qed.

Lemma deleteBatch_open (c : SqsClientImpl) (receiptHandles : list string)
      (options : option CommonOptions)
      (reply : list (Event DeleteMessageBatchOutput)) (elapsed : number) :
  closed c = false ->
  deleteBatch receiptHandles options reply elapsed c
  = (mkClient (queueUrl c) false
       (sent c ++ [DeleteMessageBatchCommand (queueUrl c)
                     (deleteEntries 0 receiptHandles)])
       (destroyCalls c),
     match awaited (withOptions reply options "deleteBatch") with
     | Returned response =>
         Returned (mkSqsResult
           (Z.of_nat (List.length (failedEntries (deleteFailed response))) =? 0)
           (mkBatchFields (nullish (deleteSuccessful response) [])
                          (failedEntries (deleteFailed response)))
           elapsed)
     | Thrown x =>
         Thrown (convertSqsError x "deleteBatch"
                   (Some (mkContext (Some (queueUrl c)))))
     | Pending => Pending
     end).
Proof.
  intros Hc; run_operation; rewrite Hc.
  destruct (awaited _); rewrite ?Hc; reflexivity.
Qed.

Lemma purge_open (c : SqsClientImpl) (options : option CommonOptions)
      (reply : list (Event unit)) (elapsed : number) :
  closed c = false ->
  purge options reply elapsed c
  = (mkClient (queueUrl c) false (sent c ++ [PurgeQueueCommand (queueUrl c)])
       (destroyCalls c),
     match awaited (withOptions reply options "purge") with
     | Returned _ => Returned (mkSqsResult true tt elapsed)
     | Thrown x =>
         Thrown (convertSqsError x "purge"
                   (Some (mkContext (Some (queueUrl c)))))
     | Pending => Pending
     end).
Proof.
  intros Hc; run_operation; rewrite Hc.
  destruct (awaited _); rewrite ?Hc; reflexivity.
Qed.

End SqsOperations.

(* ================================================================= *)
(** ** What is thrown and what is returned *)

Section HttpRequests.

Import HttpResponse HttpClient.

Variable Json : Type.
Variable decode : list Byte.byte -> string.
Variable inspectJson : string -> option string.

(** [options?.throwOnError ?? this.config.throwOnError ?? false]. *)
Lemma request_fetch_rejected (options : option HttpOptions) (url : string)
      (x : Exception) (elapsed : number) (c : HttpClientImpl) :
  request Json decode inspectJson options url (Thrown x) elapsed c
  = (c, if nullish (optChain options throwOnError)
               (nullish (configThrowOnError (config c)) false)
        then Thrown (ThrownError (convertFetchError x))
        else Returned (createHttpResponseFailure url elapsed
                         (convertFetchError x))).
Proof.
  unfold request, Method.bind, Method.get, Method.throw, Method.ret.
  destruct (nullish _ _); reflexivity.
Qed.

(** A request whose body read succeeds: the jar takes the cookies of the
    response when cookies are enabled, and the response is returned unless
    it is not [ok] and throwing is asked for. *)
Lemma request_fetch_resolved (options : option HttpOptions) (url : string)
      (rawResponse : Response) (responseBody : option (list Byte.byte))
      (elapsed : number) (c : HttpClientImpl) :
  readBody rawResponse = Returned responseBody ->
  request Json decode inspectJson options url (Returned rawResponse) elapsed c
  = (if cookiesEnabled c
     then mkClient (config c) (baseUrl c)
            (storeCookies (setCookies rawResponse) (cookieJar c))
            (cookiesEnabled c)
     else c,
     if rawOk rawResponse
     then Returned (createHttpResponseSuccess rawResponse responseBody elapsed)
     else if nullish (optChain options throwOnError)
                     (nullish (configThrowOnError (config c)) false)
     then Thrown (ThrownError
            (createHttpError inspectJson (rawStatus rawResponse)
               (rawStatusText rawResponse) (option_map decode responseBody)))
     else Returned (createHttpResponseError rawResponse responseBody elapsed
            (createHttpError inspectJson (rawStatus rawResponse)
               (rawStatusText rawResponse) (option_map decode responseBody)))).
Proof.
  intros Hb.
  unfold request, Method.bind, Method.get, Method.throw, Method.ret,
    Method.lift, Method.modify.
  rewrite Hb.
  destruct (cookiesEnabled c) eqn:He, (rawOk rawResponse), (nullish _ _);
    simpl; rewrite ?He; reflexivity.
Qed.

End HttpRequests.

Section ThrownOrReturned.

Import SqsClient.

(** C1 (as amended): in the SQS client a [TimeoutError] or [AbortError]
    that the awaited backend call ends with is thrown to the caller
    unchanged, by every operation (the client has no [throwOnError]
    switch). In the HTTP client a [fetch] rejected with a [TimeoutError] or
    an [AbortError] is thrown only when [throwOnError] resolves to [true];
    otherwise it is returned as a failure response that holds the error. *)
Theorem timeout_abort_thrown_or_returned :
  forall e : ErrorValue,
    isTimeoutError e || isAbortError e = true ->
    (forall (c : SqsClientImpl), closed c = false ->
       (forall body options reply elapsed,
           validateMessageSize body = Returned tt ->
           awaited (withOptions reply (option_map sendCommon options) "send")
           = Thrown (ThrownError e) ->
           snd (send body options reply elapsed c) = Thrown (ThrownError e))
       /\ (forall messages reply elapsed,
              validateEach messages = Returned tt ->
              awaited (withOptions reply None "sendBatch")
              = Thrown (ThrownError e) ->
              snd (sendBatch messages reply elapsed c) = Thrown (ThrownError e))
       /\ (forall options reply elapsed,
              awaited (withOptions reply (option_map receiveCommon options)
                                   "receive")
              = Thrown (ThrownError e) ->
              snd (receive options reply elapsed c) = Thrown (ThrownError e))
       /\ (forall receiptHandle options reply elapsed,
              awaited (withOptions reply options "delete")
              = Thrown (ThrownError e) ->
              snd (delete receiptHandle options reply elapsed c)
              = Thrown (ThrownError e))
       /\ (forall receiptHandles options reply elapsed,
              awaited (withOptions reply options "deleteBatch")
              = Thrown (ThrownError e) ->
              snd (deleteBatch receiptHandles options reply elapsed c)
              = Thrown (ThrownError e))
       /\ (forall options reply elapsed,
              awaited (withOptions reply options "purge")
              = Thrown (ThrownError e) ->
              snd (purge options reply elapsed c) = Thrown (ThrownError e)))
    /\ (forall (Json : Type) decode inspectJson options url elapsed
               (c : HttpClient.HttpClientImpl),
           snd (HttpClient.request Json decode inspectJson options url
                  (Thrown (ThrownError e)) elapsed c)
           = if nullish (optChain options HttpClient.throwOnError)
                  (nullish (HttpClient.configThrowOnError (HttpClient.config c))
                           false)
             then Thrown (ThrownError e)
             else Returned (HttpResponse.createHttpResponseFailure url elapsed e)).
Proof.
  intros e He.
  assert (Hsqs : forall operation context,
             convertSqsError (ThrownError e) operation context = ThrownError e).
  { intros; unfold convertSqsError; rewrite He; reflexivity. }
  assert (Hhttp : HttpClient.convertFetchError (ThrownError e) = e).
  { unfold HttpClient.convertFetchError.
    rewrite orb_comm in He; rewrite He; reflexivity. }
  split.
  - intros c Hc; repeat split; intros.
    + rewrite send_open by assumption; simpl.
      rewrite H0; rewrite Hsqs; reflexivity.
    + rewrite sendBatch_open by assumption; simpl.
      rewrite H0; rewrite Hsqs; reflexivity.
    + rewrite receive_open by assumption; simpl.
      rewrite H; rewrite Hsqs; reflexivity.
    + rewrite delete_open by assumption; simpl.
      rewrite H; rewrite Hsqs; reflexivity.
    + rewrite deleteBatch_open by assumption; simpl.
      rewrite H; rewrite Hsqs; reflexivity.
    + rewrite purge_open by assumption; simpl.
      rewrite H; rewrite Hsqs; reflexivity.
  - intros; rewrite request_fetch_rejected; cbn [snd]; rewrite Hhttp.
    reflexivity.
Qed.

(** C1, a witness: a send with a timeout of 50 ms whose timer fires before
    the backend answers. *)
Lemma timeout_abort_thrown_or_returned_witness :
  snd (send [104; 105]%N
         (Some (mkSendOptions (mkCommonOptions (Some 50) None)
                              None None None None))
         [TimerFires] 50 (mkClient "https://sqs.local/queue" false [] 0))
  = Thrown (ThrownError (TimeoutError "Operation timed out: send" 50 None)).
Proof.
  apply (proj1 (proj1 (timeout_abort_thrown_or_returned
                         (TimeoutError "Operation timed out: send" 50 None)
                         eq_refl)
                      (mkClient "https://sqs.local/queue" false [] 0) eq_refl));
    reflexivity.
Defined.

(** C1, the claim as stated fails: a request with [throwOnError = false]
    whose [fetch] is rejected with the runtime's timeout exception returns
    a failure response; nothing is thrown. *)
Lemma http_timeout_is_returned :
  snd (HttpClient.request unit (fun _ => "") (fun _ => None)
         (Some (HttpClient.mkOptions (mkCommonOptions (Some 50) None) None
                                     (Some false)))
         "http://localhost/slow"
         (Thrown (ThrownError
            (NativeError CtorDOMException "TimeoutError" "Signal timed out"
                         None None None)))
         50
         (HttpClient.createHttpClient
            (HttpClient.mkConfig (inl "http://localhost") None None None)))
  = Returned (HttpResponse.createHttpResponseFailure "http://localhost/slow" 50
      (TimeoutError "Request timed out" 0
         (Some (NativeError CtorDOMException "TimeoutError" "Signal timed out"
                            None None None))))
  /\ Errors.kind (TimeoutError "Request timed out" 0
       (Some (NativeError CtorDOMException "TimeoutError" "Signal timed out"
                          None None None))) = Some "timeout".
Proof. split; reflexivity. Qed.

(** C3 (as amended): the HTTP client returns a rejected [fetch] as a failure
    response and a response that is not [ok] as an error response when
    [throwOnError] resolves to [false], and throws the same error when it
    resolves to [true]. The SQS client returns no failure: whatever the
    awaited backend call throws is thrown to the caller, converted by
    [convertSqsError], by every operation. *)
Theorem failures_thrown_or_returned :
  (forall (Json : Type) decode inspectJson options url elapsed
          (c : HttpClient.HttpClientImpl),
      (forall x,
          snd (HttpClient.request Json decode inspectJson options url
                 (Thrown x) elapsed c)
          = if nullish (optChain options HttpClient.throwOnError)
                 (nullish (HttpClient.configThrowOnError (HttpClient.config c))
                          false)
            then Thrown (ThrownError (HttpClient.convertFetchError x))
            else Returned (HttpResponse.createHttpResponseFailure url elapsed
                             (HttpClient.convertFetchError x)))
      /\ (forall rawResponse responseBody,
             HttpResponse.readBody rawResponse = Returned responseBody ->
             HttpResponse.rawOk rawResponse = false ->
             snd (HttpClient.request Json decode inspectJson options url
                    (Returned rawResponse) elapsed c)
             = if nullish (optChain options HttpClient.throwOnError)
                    (nullish (HttpClient.configThrowOnError
                                (HttpClient.config c)) false)
               then Thrown (ThrownError
                      (HttpClient.createHttpError inspectJson
                         (HttpResponse.rawStatus rawResponse)
                         (HttpResponse.rawStatusText rawResponse)
                         (option_map decode responseBody)))
               else Returned
                      (HttpResponse.createHttpResponseError rawResponse
                         responseBody elapsed
                         (HttpClient.createHttpError inspectJson
                            (HttpResponse.rawStatus rawResponse)
                            (HttpResponse.rawStatusText rawResponse)
                            (option_map decode responseBody)))))
  /\ (forall (c : SqsClientImpl) (x : Exception), closed c = false ->
        (forall body options reply elapsed,
            validateMessageSize body = Returned tt ->
            awaited (withOptions reply (option_map sendCommon options) "send")
            = Thrown x ->
            snd (send body options reply elapsed c)
            = Thrown (convertSqsError x "send"
                        (Some (mkContext (Some (queueUrl c))))))
        /\ (forall messages reply elapsed,
               validateEach messages = Returned tt ->
               awaited (withOptions reply None "sendBatch") = Thrown x ->
               snd (sendBatch messages reply elapsed c)
               = Thrown (convertSqsError x "sendBatch"
                           (Some (mkContext (Some (queueUrl c))))))
        /\ (forall options reply elapsed,
               awaited (withOptions reply (option_map receiveCommon options)
                                    "receive") = Thrown x ->
               snd (receive options reply elapsed c)
               = Thrown (convertSqsError x "receive"
                           (Some (mkContext (Some (queueUrl c))))))
        /\ (forall receiptHandle options reply elapsed,
               awaited (withOptions reply options "delete") = Thrown x ->
               snd (delete receiptHandle options reply elapsed c)
               = Thrown (convertSqsError x "delete"
                           (Some (mkContext (Some (queueUrl c))))))
        /\ (forall receiptHandles options reply elapsed,
               awaited (withOptions reply options "deleteBatch") = Thrown x ->
               snd (deleteBatch receiptHandles options reply elapsed c)
               = Thrown (convertSqsError x "deleteBatch"
                           (Some (mkContext (Some (queueUrl c))))))
        /\ (forall options reply elapsed,
               awaited (withOptions reply options "purge") = Thrown x ->
               snd (purge options reply elapsed c)
               = Thrown (convertSqsError x "purge"
                           (Some (mkContext (Some (queueUrl c))))))).
Proof.
  split.
  - intros; split.
    + intros; rewrite request_fetch_rejected; reflexivity.
    + intros rawResponse responseBody Hb Hok.
      rewrite (request_fetch_resolved _ _ _ _ _ _ responseBody) by assumption.
      simpl; rewrite Hok; reflexivity.
  - intros c x Hc; repeat split; intros.
    + rewrite send_open by assumption; simpl; rewrite H0; reflexivity.
    + rewrite sendBatch_open by assumption; simpl; rewrite H0; reflexivity.
    + rewrite receive_open by assumption; simpl; rewrite H; reflexivity.
    + rewrite delete_open by assumption; simpl; rewrite H; reflexivity.
    + rewrite deleteBatch_open by assumption; simpl; rewrite H; reflexivity.
    + rewrite purge_open by assumption; simpl; rewrite H; reflexivity.
Qed.

(** C3, a witness: a 404 answer without a body, with [throwOnError]
    unset. *)
Lemma failures_thrown_or_returned_witness :
  snd (HttpClient.request unit (fun _ => "") (fun _ => None) None
         "http://localhost/users/7"
         (Returned (HttpResponse.mkResponse 404 "Not Found" false
                      "http://localhost/users/7" (fun _ => None) true
                      (Returned []) []))
         12
         (HttpClient.createHttpClient
            (HttpClient.mkConfig (inl "http://localhost") None None None)))
  = Returned
      (HttpResponse.createHttpResponseError
         (HttpResponse.mkResponse 404 "Not Found" false
            "http://localhost/users/7" (fun _ => None) true (Returned []) [])
         None 12
         (HttpError CHttpNotFoundError "404: Not Found" 404 "Not Found")).
Proof.
  apply (proj2 (proj1 failures_thrown_or_returned unit (fun _ => "")
                  (fun _ => None) None "http://localhost/users/7" 12
                  (HttpClient.createHttpClient
                     (HttpClient.mkConfig (inl "http://localhost")
                                          None None None)))
               (HttpResponse.mkResponse 404 "Not Found" false
                  "http://localhost/users/7" (fun _ => None) true
                  (Returned []) [])
               None);
    reflexivity.
Defined.

(** C3, the claim as stated fails: a send that the backend rejects because
    the queue does not exist throws; no result is returned. *)
Lemma sqs_backend_error_is_thrown :
  snd (send [104; 105]%N None
         [OpSettles (Rejected (ThrownError
            (NativeError CtorError "QueueDoesNotExist"
               "The specified queue does not exist." None None None)))]
         7 (mkClient "https://sqs.local/queue" false [] 0))
  = Thrown (ThrownError
      (SqsQueueNotFoundError "The specified queue does not exist."
         "https://sqs.local/queue"
         (Some (NativeError CtorError "QueueDoesNotExist"
                  "The specified queue does not exist." None None None)))).
Proof. reflexivity. Qed.

End ThrownOrReturned.

(* ================================================================= *)
(** ** Batches, size limits and closing *)

Section SqsBatchesAndLimits.

Import SqsClient.

(** C4: a batch of three messages of which the backend accepts the first
    and the third and refuses the second. The client reports the two
    lists with [ok = false], because it computes [ok] as
    [failed.length === 0]; the result types of client-sqs/result.ts
    document [ok: true] for this answer, and the success factory builds
    it. *)
Example send_batch_partial_failure_not_ok :
  exists r,
    snd (sendBatch
           [mkBatchMessage "1" [97]%N None None;
            mkBatchMessage "2" [98]%N None None;
            mkBatchMessage "3" [99]%N None None]
           [OpSettles (Resolved (mkSendBatchOutput
              (Some [mkBatchResultEntry (Some "1") (Some "msg-1");
                     mkBatchResultEntry (Some "3") (Some "msg-3")])
              (Some [mkBatchErrorEntry (Some "2") (Some "InvalidParameterValue")
                                       (Some "Invalid message body")])))]
           15 (mkClient "https://sqs.local/queue" false [] 0))
    = Returned r
    /\ List.length (successful (fields r)) = 2%nat
    /\ List.length (failed (fields r)) = 1%nat
    /\ ok r = false
    /\ Results.ok (SqsResult.createSqsSendBatchResultSuccess
                     ErrorValue ErrorValue
                     [SqsResult.mkSuccessEntry "msg-1" "1";
                      SqsResult.mkSuccessEntry "msg-3" "3"]
                     [SqsResult.mkFailedEntry "2" "InvalidParameterValue"
                                              "Invalid message body"]
                     15) = true.
Proof. eexists; repeat split. Qed.

(** The SQS taxonomy never throws a size error. *)
Lemma convertSqsError_not_too_large (x : Exception) (operation : string)
      (context : option Context) (e : ErrorValue) :
  convertSqsError x operation context = ThrownError e ->
  isSqsMessageTooLargeError e = false.
Proof.
  intros H.
  destruct x as [e0|repr]; simpl in H.
  - destruct (isTimeoutError e0 || isAbortError e0) eqn:Hp.
    + inversion H; subst. destruct e; simpl in Hp; try discriminate; reflexivity.
    + destruct (_ || _) in H; [inversion H; reflexivity|].
      destruct (_ || _) in H; inversion H; reflexivity.
  - inversion H; reflexivity.
Qed.

(** [validateMessageSize] by the size of the body. *)
Lemma validateMessageSize_over (body : JsString) :
  utf8Length body > MAX_MESSAGE_SIZE ->
  validateMessageSize body
  = Thrown (ThrownError (SqsMessageTooLargeError
      ("Message size " ++ numberToString (utf8Length body) ++
       " exceeds maximum allowed size " ++ numberToString MAX_MESSAGE_SIZE)
      (utf8Length body) MAX_MESSAGE_SIZE)).
Proof.
  intros H; unfold validateMessageSize.
  destruct (Z.gtb_spec (utf8Length body) MAX_MESSAGE_SIZE); [reflexivity|lia].
Qed.

Lemma validateMessageSize_within (body : JsString) :
  utf8Length body <= MAX_MESSAGE_SIZE ->
  validateMessageSize body = Returned tt.
Proof.
  intros H; unfold validateMessageSize.
  destruct (Z.gtb_spec (utf8Length body) MAX_MESSAGE_SIZE); [lia|reflexivity].
Qed.

(** The loop over a batch stops at the first body over the limit. *)
Lemma validateEach_over (messages : list SqsBatchMessage) :
  (exists msg, In msg messages /\ utf8Length (body msg) > MAX_MESSAGE_SIZE) ->
  exists msg,
    In msg messages /\ utf8Length (body msg) > MAX_MESSAGE_SIZE
    /\ validateEach messages = validateMessageSize (body msg).
Proof.
  induction messages as [|m rest IH]; intros [msg [Hin Hover]];
    [destruct Hin|].
  simpl.
  destruct (Z_gt_le_dec (utf8Length (body m)) MAX_MESSAGE_SIZE) as [Hm|Hm].
  - exists m; repeat split; [left; reflexivity|assumption|].
    rewrite (validateMessageSize_over _ Hm); reflexivity.
  - rewrite (validateMessageSize_within _ Hm).
    destruct Hin as [Heq|Hin]; [subst; lia|].
    destruct IH as [msg' [Hin' [Hover' Heq']]]; [exists msg; split; assumption|].
    exists msg'; repeat split; [right; assumption|assumption|assumption].
Qed.

Lemma validateEach_within (messages : list SqsBatchMessage) :
  (forall msg, In msg messages -> utf8Length (body msg) <= MAX_MESSAGE_SIZE) ->
  validateEach messages = Returned tt.
Proof.
  induction messages as [|m rest IH]; intros H; [reflexivity|].
  simpl. rewrite validateMessageSize_within by (apply H; left; reflexivity).
  apply IH; intros; apply H; right; assumption.
Qed.

(** C10 (as amended): on an open client, [send] with a body whose UTF-8
    encoding is longer than 262144 bytes throws an
    [SqsMessageTooLargeError] that reports the size, and [sendBatch] with
    such a body anywhere in the batch throws one for the first such body;
    in both cases the client state is unchanged, so no command was handed
    to the backend. With every body within the limit, whatever [send] or
    [sendBatch] throws is no size error. *)
Theorem oversized_body_rejected_before_dispatch :
  forall c : SqsClientImpl,
    closed c = false ->
    (forall body options reply elapsed,
        utf8Length body > MAX_MESSAGE_SIZE ->
        send body options reply elapsed c
        = (c, Thrown (ThrownError (SqsMessageTooLargeError
                ("Message size " ++ numberToString (utf8Length body) ++
                 " exceeds maximum allowed size " ++
                 numberToString MAX_MESSAGE_SIZE)
                (utf8Length body) MAX_MESSAGE_SIZE))))
    /\ (forall messages reply elapsed,
           (exists msg, In msg messages
                        /\ utf8Length (body msg) > MAX_MESSAGE_SIZE) ->
           exists msg,
             In msg messages /\ utf8Length (body msg) > MAX_MESSAGE_SIZE
             /\ sendBatch messages reply elapsed c
                = (c, Thrown (ThrownError (SqsMessageTooLargeError
                        ("Message size " ++
                         numberToString (utf8Length (body msg)) ++
                         " exceeds maximum allowed size " ++
                         numberToString MAX_MESSAGE_SIZE)
                        (utf8Length (body msg)) MAX_MESSAGE_SIZE))))
    /\ (forall body options reply elapsed e,
           utf8Length body <= MAX_MESSAGE_SIZE ->
           snd (send body options reply elapsed c) = Thrown (ThrownError e) ->
           isSqsMessageTooLargeError e = false)
    /\ (forall messages reply elapsed e,
           (forall msg, In msg messages ->
                        utf8Length (body msg) <= MAX_MESSAGE_SIZE) ->
           snd (sendBatch messages reply elapsed c) = Thrown (ThrownError e) ->
           isSqsMessageTooLargeError e = false).
Proof.
  intros c Hc; repeat split.
  - intros body options reply elapsed Hover.
    unfold send, ensureOpen, Method.bind, Method.get, Method.ret,
      Method.throw, Method.lift.
    rewrite Hc, (validateMessageSize_over _ Hover); reflexivity.
  - intros messages reply elapsed Hex.
    destruct (validateEach_over messages Hex) as [msg [Hin [Hover Heq]]].
    exists msg; repeat split; [assumption|assumption|].
    unfold sendBatch, ensureOpen, Method.bind, Method.get, Method.ret,
      Method.throw, Method.lift.
    rewrite Hc, Heq, (validateMessageSize_over _ Hover); reflexivity.
  - intros body options reply elapsed e Hle H.
    rewrite send_open in H
      by (try assumption; apply validateMessageSize_within; assumption).
    cbn [snd] in H.
    destruct (awaited _); try discriminate.
    inversion H as [Hx].
    apply (convertSqsError_not_too_large _ _ _ _ Hx).
  - intros messages reply elapsed e Hle H.
    rewrite sendBatch_open in H
      by (try assumption; apply validateEach_within; assumption).
    cbn [snd] in H.
    destruct (awaited _); try discriminate.
    inversion H as [Hx].
    apply (convertSqsError_not_too_large _ _ _ _ Hx).
Qed.

(** C10, a witness: a body of 262145 letters sent through an open
    client. *)
Lemma oversized_body_rejected_before_dispatch_witness :
  send (repeat 97%N (N.to_nat 262145)) None [] 0
       (mkClient "https://sqs.local/queue" false [] 0)
  = (mkClient "https://sqs.local/queue" false [] 0,
     Thrown (ThrownError (SqsMessageTooLargeError
       ("Message size " ++
        numberToString (utf8Length (repeat 97%N (N.to_nat 262145))) ++
        " exceeds maximum allowed size " ++ numberToString MAX_MESSAGE_SIZE)
       (utf8Length (repeat 97%N (N.to_nat 262145))) MAX_MESSAGE_SIZE))).
Proof.
  apply (proj1 (oversized_body_rejected_before_dispatch
                  (mkClient "https://sqs.local/queue" false [] 0) eq_refl)).
  vm_compute; reflexivity.
Defined.

(** C10, the claim as stated fails: on a closed client a body of 262145
    bytes is refused with the error of [#ensureOpen], which runs first, and
    not with a size error. *)
Lemma closed_client_hides_size_error :
  (utf8Length (repeat 97%N (N.to_nat 262145)) >? MAX_MESSAGE_SIZE) = true
  /\ snd (send (repeat 97%N (N.to_nat 262145)) None [] 0
               (mkClient "https://sqs.local/queue" true [] 0))
     = Thrown (ThrownError (SqsCommandError "Client is closed" "" None))
  /\ isSqsMessageTooLargeError (SqsCommandError "Client is closed" "" None)
     = false.
Proof.
  split; [vm_compute; reflexivity|split; [|reflexivity]].
  rewrite (proj1 (closed_client_refuses
                    (mkClient "https://sqs.local/queue" true [] 0) eq_refl)).
  reflexivity.
Qed.

(** C9: closing a client a second time is a no-op. After a first [close],
    whatever the state before it and however the release of the transport
    went, a second [close] returns without an error and leaves the client
    as it is, so the SDK client is not destroyed and the pool is not ended
    a second time; the first [close] releases at most once. The HTTP client
    owns nothing: its [close] never changes anything. *)
Theorem close_is_idempotent :
  (forall (c : SqsClientImpl) (first second : option Exception),
      close second (fst (close first c)) = (fst (close first c), Returned tt)
      /\ snd (close first c) = Returned tt
      /\ destroyCalls (fst (close first c))
         = (if closed c then destroyCalls c else S (destroyCalls c)))
  /\ (forall (c : MySql.MySqlClientImpl)
             (first second : Outcome Exception unit),
         MySql.close second (fst (MySql.close first c))
         = (fst (MySql.close first c), Returned tt)
         /\ MySql.endCalls (fst (MySql.close first c))
            = (if MySql.closed c then MySql.endCalls c
               else S (MySql.endCalls c)))
  /\ (forall c : HttpClient.HttpClientImpl,
         HttpClient.close c = (c, Returned tt)).
Proof.
  repeat split.
  - destruct c as [q [|] s d], first as [x|]; reflexivity.
  - destruct c as [q [|] s d], first as [x|]; reflexivity.
  - destruct c as [q [|] s d], first as [x|]; reflexivity.
  - destruct c as [[|] ex en co ro], first as [u|x|]; reflexivity.
  - destruct c as [[|] ex en co ro], first as [u|x|]; reflexivity.
Qed.

End SqsBatchesAndLimits.

(* ================================================================= *)
(** ** The caches of a response *)

Section ResponseCaches.

Import HttpResponse.

Variable Json : Type.
Variable decode : list Byte.byte -> string.
Variable parse : string -> Outcome Exception Json.

(** [text()] on a processed response with a body, by the state of the text
    cache. *)
Lemma text_with_caches (resp : HttpResponse Json) (bytes : list Byte.byte)
      (tc : Field string) (jc : Field Json) (jp : bool) (dc pc : nat) :
  impl (payload resp) <> HttpResponseFailureImpl ->
  body (payload resp) = Some bytes ->
  text decode (mkRun (withCaches tc jc jp resp) dc pc)
  = match tc with
    | Undefined =>
        (mkRun (withCaches (Value (decode bytes)) jc jp resp) (S dc) pc,
         Returned (Value (decode bytes)))
    | _ => (mkRun (withCaches tc jc jp resp) dc pc, Returned tc)
    end.
Proof.
  intros Hi Hb.
  unfold text, Method.bind, Method.get, Method.ret, Method.modify.
  cbn [this payload withCaches setFields impl body textCache].
  rewrite Hb.
  destruct (impl (payload resp)) eqn:E; try congruence;
    destruct tc; reflexivity.
Qed.

(** [json()] on a processed response with a body whose text cache is empty
    or holds the decoded body. *)
Lemma json_with_caches (resp : HttpResponse Json) (bytes : list Byte.byte)
      (tc : Field string) (jc : Field Json) (jp : bool) (dc pc : nat) :
  impl (payload resp) <> HttpResponseFailureImpl ->
  body (payload resp) = Some bytes ->
  tc = Undefined \/ tc = Value (decode bytes) ->
  json decode parse (mkRun (withCaches tc jc jp resp) dc pc)
  = if jp then (mkRun (withCaches tc jc jp resp) dc pc, Returned jc)
    else
      let dc' := match tc with Undefined => S dc | _ => dc end in
      match parse (decode bytes) with
      | Returned j =>
          (mkRun (withCaches (Value (decode bytes)) (Value j) true resp)
                 dc' (S pc),
           Returned (Value j))
      | Thrown x =>
          (mkRun (withCaches (Value (decode bytes)) jc false resp) dc' (S pc),
           Thrown x)
      | Pending =>
          (mkRun (withCaches (Value (decode bytes)) jc false resp) dc' (S pc),
           Pending)
      end.
Proof.
  intros Hi Hb Htc.
  unfold json.
  unfold Method.bind at 1. unfold Method.get at 1.
  cbn [this payload withCaches setFields impl body jsonParsed].
  rewrite Hb.
  destruct (impl (payload resp)) eqn:E; try congruence;
    destruct jp; try reflexivity;
    cbn [negb];
    unfold Method.bind at 1; unfold Method.bind at 1;
    rewrite (text_with_caches resp bytes) by (rewrite ?E; congruence);
    destruct Htc as [-> | ->];
    unfold callParse, Method.bind, Method.get, Method.ret, Method.modify,
      Method.lift;
    cbn [this decodeCalls parseCalls fst snd];
    destruct (parse (decode bytes)); reflexivity.
Qed.

(** How a read of a processed response with body [bytes] completes. *)
Local Abbreviation completionOf bytes rd :=
  (match rd with
   | ReadText => TextCompleted (Returned (Value (decode bytes)))
   | ReadJson =>
       JsonCompleted
         match parse (decode bytes) with
         | Returned j => Returned (Value j)
         | Thrown x => Thrown x
         | Pending => Pending
         end
   end).

(** The object and the counters after the reads [reads] of a freshly built
    response [resp] with body [bytes]: the text cache holds the decoded body
    and the decoder was called once as soon as one read was made; the JSON
    cache holds the parsed value, the parsed flag is set and the parser was
    called once as soon as one [json()] was made and the parser returns;
    a parser that does not return is called by every [json()] and leaves
    the JSON cache empty. *)
Local Abbreviation stateAfter resp bytes reads :=
  (mkRun
     (withCaches
        (match reads%list with
         | [] => Undefined
         | _ :: _ => Value (decode bytes)
         end)
        (match parse (decode bytes) with
         | Returned j =>
             match jsonReads reads%list with
             | O => Undefined
             | S _ => Value j
             end
         | _ => Undefined
         end)
        (match parse (decode bytes) with
         | Returned _ =>
             match jsonReads reads%list with O => false | S _ => true end
         | _ => false
         end)
        resp)
     (match reads%list with [] => O | _ :: _ => 1%nat end)
     (match parse (decode bytes) with
      | Returned _ => match jsonReads reads%list with O => O | S _ => 1%nat end
      | _ => jsonReads reads%list
      end)).

Lemma jsonReads_snoc (h : list Read) (rd : Read) :
  jsonReads (h ++ [rd])%list
  = match rd with ReadJson => S (jsonReads h) | ReadText => jsonReads h end.
Proof.
  unfold jsonReads. rewrite filter_app, length_app.
  destruct rd; cbn [filter List.length]; lia.
Qed.

Lemma jsonReads_nil_iff (reads : list Read) :
  jsonReads reads = O <-> ~ In ReadJson reads.
Proof.
  unfold jsonReads.
  induction reads as [|rd rest IH]; cbn [filter List.length In].
  - split; [intros _ []|reflexivity].
  - destruct rd; cbn [List.length].
    + rewrite IH. split.
      * intros Hn [Hd | Hin]; [discriminate|exact (Hn Hin)].
      * intros Hn Hin; apply Hn; right; exact Hin.
    + split; [discriminate|]. intros Hn; exfalso; apply Hn; left; reflexivity.
Qed.

(** One more read after the reads [h]. *)
Lemma perform_after (resp : HttpResponse Json) (bytes : list Byte.byte)
      (h : list Read) (rd : Read) :
  impl (payload resp) <> HttpResponseFailureImpl ->
  body (payload resp) = Some bytes ->
  perform decode parse rd (stateAfter resp bytes h)
  = (stateAfter resp bytes (h ++ [rd])%list, completionOf bytes rd).
Proof.
  intros Hi Hb.
  destruct rd; unfold perform.
  - rewrite (text_with_caches resp bytes) by assumption.
    rewrite jsonReads_snoc.
    destruct h as [|a h']; reflexivity.
  - rewrite (json_with_caches resp bytes)
      by (try assumption; destruct h; auto).
    rewrite jsonReads_snoc.
    destruct (parse (decode bytes)) as [j|x|] eqn:Hp.
    + destruct (jsonReads h) as [|n] eqn:Hn.
      * destruct h as [|a h']; reflexivity.
      * destruct h as [|a h']; [discriminate Hn|reflexivity].
    + destruct h as [|a h']; reflexivity.
    + destruct h as [|a h']; reflexivity.
Qed.

(** A sequence of reads after the reads [h]. *)
Lemma performAll_after (resp : HttpResponse Json) (bytes : list Byte.byte)
      (reads : list Read) :
  impl (payload resp) <> HttpResponseFailureImpl ->
  body (payload resp) = Some bytes ->
  forall h : list Read,
    performAll decode parse reads (stateAfter resp bytes h)
    = (stateAfter resp bytes (h ++ reads)%list,
       map (fun rd => completionOf bytes rd) reads).
Proof.
  intros Hi Hb.
  induction reads as [|rd rest IH]; intros h.
  - rewrite app_nil_r. reflexivity.
  - cbn [performAll map].
    rewrite (perform_after resp bytes h rd Hi Hb). cbn [fst snd].
    rewrite (IH (h ++ [rd])%list). cbn [fst snd].
    rewrite <- app_assoc. reflexivity.
Qed.

(** C8: on a processed response with a non-null body (built by the success
    or by the error factory), whatever sequence of [text()] and [json()]
    calls is made: every [text()] returns the decoding of the body and every
    [json()] completes alike (with the parsed value, or with what the parser
    throws); the first read of any kind fills the text cache with the decoded
    body and calls the decoder, and no later read calls it again; the first
    [json()] whose parser returns fills the JSON cache, sets the parsed flag
    and is the only call of the parser, while a parser that throws is called
    by every [json()] and leaves the JSON cache empty; the object differs
    from the one built only in its three caches; and a read of a kind made
    before leaves the object as it is, and the counters too unless it
    is a [json()] whose parser does not return. *)
Theorem response_reads_are_cached :
  forall (resp : HttpResponse Json) (raw : Response) (bytes : list Byte.byte)
         (d : number) (reads : list Read),
    resp = createHttpResponseSuccess raw (Some bytes) d
    \/ (exists err, resp = createHttpResponseError raw (Some bytes) d err) ->
    (forall o,
        In (TextCompleted o)
           (snd (performAll decode parse reads (mkRun resp 0 0))) ->
        o = Returned (Value (decode bytes)))
    /\ (forall o,
           In (JsonCompleted o)
              (snd (performAll decode parse reads (mkRun resp 0 0))) ->
           o = match parse (decode bytes) with
               | Returned j => Returned (Value j)
               | Thrown x => Thrown x
               | Pending => Pending
               end)
    /\ fst (performAll decode parse reads (mkRun resp 0 0))
       = mkRun
           (withCaches
              (match reads with
               | [] => Undefined
               | _ :: _ => Value (decode bytes)
               end)
              (match parse (decode bytes) with
               | Returned j =>
                   match jsonReads reads with
                   | O => Undefined
                   | S _ => Value j
                   end
               | _ => Undefined
               end)
              (match parse (decode bytes) with
               | Returned _ =>
                   match jsonReads reads with O => false | S _ => true end
               | _ => false
               end)
              resp)
           (match reads with [] => O | _ :: _ => 1%nat end)
           (match parse (decode bytes) with
            | Returned _ =>
                match jsonReads reads with O => O | S _ => 1%nat end
            | _ => jsonReads reads
            end)
    /\ (decodeCalls (fst (performAll decode parse reads (mkRun resp 0 0)))
        <= 1)%nat
    /\ (isReturned (parse (decode bytes)) = true ->
        (parseCalls (fst (performAll decode parse reads (mkRun resp 0 0)))
         <= 1)%nat)
    /\ (forall rd,
           In rd reads ->
           this (fst (perform decode parse rd
                        (fst (performAll decode parse reads (mkRun resp 0 0)))))
           = this (fst (performAll decode parse reads (mkRun resp 0 0))))
    /\ (forall rd,
           In rd reads ->
           rd = ReadText \/ isReturned (parse (decode bytes)) = true ->
           fst (perform decode parse rd
                  (fst (performAll decode parse reads (mkRun resp 0 0))))
           = fst (performAll decode parse reads (mkRun resp 0 0))).
Proof.
  intros resp raw bytes d reads Hresp.
  assert (Hi : impl (payload resp) <> HttpResponseFailureImpl)
    by (destruct Hresp as [-> | [err ->]]; discriminate).
  assert (Hb : body (payload resp) = Some bytes)
    by (destruct Hresp as [-> | [err ->]]; reflexivity).
  assert (Hf : mkRun resp 0 0 = stateAfter resp bytes (@nil Read))
    by (destruct Hresp as [-> | [err ->]];
        destruct (parse (decode bytes)); reflexivity).
  rewrite Hf, (performAll_after resp bytes reads Hi Hb []).
  cbn [fst snd app].
  assert (Hkeep : forall rd,
             In rd reads ->
             rd = ReadText \/ isReturned (parse (decode bytes)) = true ->
             stateAfter resp bytes (reads ++ [rd])%list = stateAfter resp bytes reads).
  { intros rd Hin Hrd. rewrite jsonReads_snoc.
    destruct reads as [|a rest]; [destruct Hin|]. cbn [app].
    destruct rd; [reflexivity|].
    destruct Hrd as [Hrd | Hrd]; [discriminate|].
    destruct (parse (decode bytes)) as [j|x|]; try discriminate.
    destruct (jsonReads (a :: rest)) as [|n] eqn:Hn; [|reflexivity].
    exfalso. apply (proj1 (jsonReads_nil_iff (a :: rest)) Hn). exact Hin. }
  split; [|split; [|split; [|split; [|split; [|split]]]]].
  - intros o Hin. apply in_map_iff in Hin.
    destruct Hin as [rd [Heq _]]. destruct rd; inversion Heq; reflexivity.
  - intros o Hin. apply in_map_iff in Hin.
    destruct Hin as [rd [Heq _]]. destruct rd; inversion Heq; reflexivity.
  - reflexivity.
  - cbn [decodeCalls]. destruct reads; auto.
  - intros Hr. cbn [parseCalls].
    destruct (parse (decode bytes)); try discriminate.
    destruct (jsonReads reads); auto.
  - intros rd Hin.
    rewrite (perform_after resp bytes reads rd Hi Hb). cbn [fst this].
    rewrite jsonReads_snoc.
    destruct reads as [|a rest]; [destruct Hin|]. cbn [app].
    destruct rd; [reflexivity|].
    destruct (parse (decode bytes)) as [j|x|]; try reflexivity.
    destruct (jsonReads (a :: rest)) as [|n] eqn:Hn; [|reflexivity].
    exfalso. apply (proj1 (jsonReads_nil_iff (a :: rest)) Hn). exact Hin.
  - intros rd Hin Hrd.
    rewrite (perform_after resp bytes reads rd Hi Hb). cbn [fst].
    apply Hkeep; assumption.
Qed.

End ResponseCaches.

(** C8, a witness: four reads of a response whose body is the two bytes of
    an empty JSON object leave the text cache and the JSON cache filled, the
    parsed flag set, and the decoder and the parser called once each. *)
Lemma response_reads_are_cached_witness :
  fst (HttpResponse.performAll (fun _ => "{}") (fun _ => Returned tt)
         [HttpResponse.ReadJson; HttpResponse.ReadText;
          HttpResponse.ReadText; HttpResponse.ReadJson]
         (HttpResponse.mkRun
            (HttpResponse.createHttpResponseSuccess
               (HttpResponse.mkResponse 200 "OK" true
                  "http://localhost/data" (fun _ => None) false
                  (Returned [Byte.x7b; Byte.x7d]) [])
               (Some [Byte.x7b; Byte.x7d]) 3)
            0 0))
  = HttpResponse.mkRun
      (HttpResponse.withCaches (Value "{}") (Value tt) true
         (HttpResponse.createHttpResponseSuccess
            (HttpResponse.mkResponse 200 "OK" true
               "http://localhost/data" (fun _ => None) false
               (Returned [Byte.x7b; Byte.x7d]) [])
            (Some [Byte.x7b; Byte.x7d]) 3))
      1 1.
Proof.
  exact (proj1 (proj2 (proj2
           (response_reads_are_cached unit (fun _ => "{}")
              (fun _ => Returned tt)
              (HttpResponse.createHttpResponseSuccess
                 (HttpResponse.mkResponse 200 "OK" true
                    "http://localhost/data" (fun _ => None) false
                    (Returned [Byte.x7b; Byte.x7d]) [])
                 (Some [Byte.x7b; Byte.x7d]) 3)
              (HttpResponse.mkResponse 200 "OK" true
                 "http://localhost/data" (fun _ => None) false
                 (Returned [Byte.x7b; Byte.x7d]) [])
              [Byte.x7b; Byte.x7d] 3
              [HttpResponse.ReadJson; HttpResponse.ReadText;
               HttpResponse.ReadText; HttpResponse.ReadJson]
              (or_introl eq_refl))))).
Defined.

(* ================================================================= *)
(** ** More on the cancellation gate *)

(** X1: a timeout of [0] (or none) and no signal: [withOptions] hands back the
    promise itself, so no timer event and no abort event can end the call.
    With a signal that is not aborted, a timeout of [0] does arm the
    timer. *)
Theorem zero_timeout_needs_signal :
  forall (T : Type) (trace : list (Event T)) (operation : string)
         (o : CommonOptions),
    signal o = None ->
    timeout o = None \/ timeout o = Some 0 ->
    withOptions trace (Some o) operation = awaitPromise trace
    /\ withOptions (TimerFires :: trace)
         (Some (mkCommonOptions (Some 0) (Some (mkSignal false)))) operation
       = Some (Rejected (ThrownError
           (TimeoutError ("Operation timed out: " ++ operation) 0 None))).
Proof.
  intros T trace operation [t s]; simpl; intros -> [-> | ->]; split;
    reflexivity.
Qed.

(** X1, a witness: a receive with [timeout = 0] whose timer event comes
    first. *)
Lemma zero_timeout_needs_signal_witness :
  withOptions [TimerFires; OpSettles (Resolved 7)]
    (Some (mkCommonOptions (Some 0) None)) "receive"
  = awaitPromise [TimerFires; OpSettles (Resolved 7)]
  /\ withOptions (TimerFires :: [TimerFires; OpSettles (Resolved 7)])
       (Some (mkCommonOptions (Some 0) (Some (mkSignal false)))) "receive"
     = Some (Rejected (ThrownError
         (TimeoutError ("Operation timed out: " ++ "receive") 0 None))).
Proof.
  apply (zero_timeout_needs_signal Z [TimerFires; OpSettles (Resolved 7)]
           "receive" (mkCommonOptions (Some 0) None));
    [reflexivity | right; reflexivity].
Defined.

(** X2: [withOptions] invents no outcome: when its settlement is not the
    operation's own, it is the timeout error of a defined [timeout] or the
    abort error of a given signal. *)
Theorem gate_settlement_origin :
  forall (T : Type) (trace : list (Event T)) (options : option CommonOptions)
         (operation : string) (r : Settled T),
    withOptions trace options operation = Some r ->
    awaitPromise trace <> Some r ->
    exists o,
      options = Some o
      /\ ((exists ms, timeout o = Some ms
             /\ r = Rejected (ThrownError
                      (TimeoutError ("Operation timed out: " ++ operation)
                                    ms None)))
          \/ (isSome (signal o) = true
              /\ r = Rejected (ThrownError
                       (AbortError ("Operation aborted: " ++ operation)
                                   None)))).
Proof.
  intros T trace options operation r H Hn.
  destruct (withOptions_cases trace options operation r H)
    as [Ha | [[o [ms [Ho [Ht Hr]]]] | [o [sg [Ho [Hs Hr]]]]]].
  - contradiction.
  - exists o; split; [assumption|left; exists ms; split; assumption].
  - exists o; split; [assumption|right; rewrite Hs; split; [reflexivity|]].
    assumption.
Qed.

(** X2, a witness: a purge whose abort event comes before the timer and
    the answer. *)
Lemma gate_settlement_origin_witness :
  exists o,
    Some (mkCommonOptions (Some 50) (Some (mkSignal false))) = Some o
    /\ ((exists ms, timeout o = Some ms
           /\ Rejected (T := Z) (ThrownError
                (AbortError "Operation aborted: purge" None))
              = Rejected (ThrownError
                  (TimeoutError ("Operation timed out: " ++ "purge") ms None)))
        \/ (isSome (signal o) = true
            /\ Rejected (T := Z) (ThrownError
                 (AbortError "Operation aborted: purge" None))
               = Rejected (ThrownError
                   (AbortError ("Operation aborted: " ++ "purge") None)))).
Proof.
  apply (gate_settlement_origin Z [SignalAborts; TimerFires; OpSettles (Resolved 1)]
           (Some (mkCommonOptions (Some 50) (Some (mkSignal false)))) "purge"
           (Rejected (ThrownError (AbortError "Operation aborted: purge" None))));
    [reflexivity | discriminate].
Defined.

Section AbortedBeforeTheCall.

Import SqsClient.

(** X3: a signal that is already aborted when [send] is called does not stop
    the command from being handed to the SDK client: the command is sent,
    its answer is never looked at, and the call throws the abort error. *)
Theorem aborted_signal_still_dispatches :
  forall (c : SqsClientImpl) (body : JsString) (o : SqsSendOptions)
         (reply : list (Event SendMessageOutput)) (elapsed : number),
    closed c = false ->
    utf8Length body <= MAX_MESSAGE_SIZE ->
    signal (sendCommon o) = Some (mkSignal true) ->
    send body (Some o) reply elapsed c
    = (mkClient (queueUrl c) false
         (sent c ++ [SendMessageCommand (queueUrl c) body (delaySeconds o)
                       (toSdkMessageAttributes (messageAttributes o))
                       (messageGroupId o) (messageDeduplicationId o)])
         (destroyCalls c),
       Thrown (ThrownError (AbortError "Operation aborted: send" None))).
Proof.
  intros c body o reply elapsed Hc Hle Hs.
  rewrite send_open
    by (try assumption; apply validateMessageSize_within; assumption).
  cbn [option_map optChain].
  unfold withOptions. rewrite Hs; cbn [isSome negb aborted].
  rewrite andb_false_r. reflexivity.
Qed.

(** X3, a witness: a send with an aborted signal whose backend call
    succeeds. *)
Lemma aborted_signal_still_dispatches_witness :
  send [104; 105]%N
    (Some (mkSendOptions (mkCommonOptions None (Some (mkSignal true)))
                         None None None None))
    [OpSettles (Resolved (mkSendOutput (Some "id-1") (Some "md5") None))] 3
    (mkClient "https://sqs.local/queue" false [] 0)
  = (mkClient "https://sqs.local/queue" false
       ([] ++ [SendMessageCommand "https://sqs.local/queue" [104; 105]%N None
                 (toSdkMessageAttributes None) None None])
       0,
     Thrown (ThrownError (AbortError "Operation aborted: send" None))).
Proof.
  apply (aborted_signal_still_dispatches
           (mkClient "https://sqs.local/queue" false [] 0) [104; 105]%N
           (mkSendOptions (mkCommonOptions None (Some (mkSignal true)))
                          None None None None));
    [reflexivity | vm_compute; discriminate | reflexivity].
Defined.

End AbortedBeforeTheCall.

(* ================================================================= *)
(** ** More on the SQS client *)

Section SqsClientFacts.

Import SqsClient.

(** X4: once [close] has been called, every operation is refused with the
    error of [#ensureOpen] and leaves the client as it is: nothing is
    validated, nothing is handed to the SDK client. *)
Theorem operations_after_close_refused :
  forall (c : SqsClientImpl) (throws : option Exception),
    (forall body options reply elapsed,
        send body options reply elapsed (fst (close throws c))
        = (fst (close throws c),
           Thrown (ThrownError (SqsCommandError "Client is closed" "" None))))
    /\ (forall messages reply elapsed,
           sendBatch messages reply elapsed (fst (close throws c))
           = (fst (close throws c),
              Thrown (ThrownError (SqsCommandError "Client is closed" "" None))))
    /\ (forall options reply elapsed,
           receive options reply elapsed (fst (close throws c))
           = (fst (close throws c),
              Thrown (ThrownError (SqsCommandError "Client is closed" "" None))))
    /\ (forall receiptHandle options reply elapsed,
           delete receiptHandle options reply elapsed (fst (close throws c))
           = (fst (close throws c),
              Thrown (ThrownError (SqsCommandError "Client is closed" "" None))))
    /\ (forall receiptHandles options reply elapsed,
           deleteBatch receiptHandles options reply elapsed
                       (fst (close throws c))
           = (fst (close throws c),
              Thrown (ThrownError (SqsCommandError "Client is closed" "" None))))
    /\ (forall options reply elapsed,
           purge options reply elapsed (fst (close throws c))
           = (fst (close throws c),
              Thrown (ThrownError (SqsCommandError "Client is closed" "" None)))).
Proof.
  intros c throws.
  apply closed_client_refuses.
  destruct c as [q [|] s d], throws; reflexivity.
Qed.

(** What the taxonomy throws for a client configured with [url] is an
    error of the client. *)
Lemma convertSqsError_is_client_error (x : Exception) (operation url : string) :
  exists e,
    convertSqsError x operation (Some (mkContext (Some url))) = ThrownError e
    /\ isClientError url e = true.
Proof.
  destruct x as [e0|repr]; simpl.
  - destruct (isTimeoutError e0 || isAbortError e0) eqn:Hp.
    + exists e0; split; [reflexivity|].
      destruct e0; simpl in Hp; try discriminate; reflexivity.
    + match goal with |- context [if ?b then _ else _] => destruct b end.
      * eexists; split; [reflexivity|]. simpl. apply String.eqb_refl.
      * match goal with |- context [if ?b then _ else _] => destruct b end;
          eexists; split; reflexivity.
  - eexists; split; reflexivity.
Qed.

(** The loop over a batch returns or throws a size error. *)
Lemma validateEach_outcome (messages : list SqsBatchMessage) :
  validateEach messages = Returned tt
  \/ exists message size,
       validateEach messages
       = Thrown (ThrownError (SqsMessageTooLargeError message size
                                MAX_MESSAGE_SIZE)).
Proof.
  induction messages as [|m rest IH]; [left; reflexivity|].
  simpl.
  destruct (Z_gt_le_dec (utf8Length (body m)) MAX_MESSAGE_SIZE) as [Hm|Hm].
  - rewrite (validateMessageSize_over _ Hm).
    right; eexists; eexists; reflexivity.
  - rewrite (validateMessageSize_within _ Hm). exact IH.
Qed.

(** X5: whatever an operation of the client throws is an [Error] of one of
    six classes: [SqsCommandError], [SqsMessageTooLargeError],
    [SqsMessageNotFoundError], [SqsQueueNotFoundError] for the queue the
    client is configured with, or a [TimeoutError] or [AbortError]. No raw
    backend error and no value that is not an [Error] reaches the
    caller. *)
Theorem thrown_errors_are_client_errors :
  forall (c : SqsClientImpl) (x : Exception),
    (forall b options reply elapsed,
        snd (send b options reply elapsed c) = Thrown x ->
        exists e, x = ThrownError e /\ isClientError (queueUrl c) e = true)
    /\ (forall messages reply elapsed,
           snd (sendBatch messages reply elapsed c) = Thrown x ->
           exists e, x = ThrownError e /\ isClientError (queueUrl c) e = true)
    /\ (forall options reply elapsed,
           snd (receive options reply elapsed c) = Thrown x ->
           exists e, x = ThrownError e /\ isClientError (queueUrl c) e = true)
    /\ (forall handle options reply elapsed,
           snd (delete handle options reply elapsed c) = Thrown x ->
           exists e, x = ThrownError e /\ isClientError (queueUrl c) e = true)
    /\ (forall handles options reply elapsed,
           snd (deleteBatch handles options reply elapsed c) = Thrown x ->
           exists e, x = ThrownError e /\ isClientError (queueUrl c) e = true)
    /\ (forall options reply elapsed,
           snd (purge options reply elapsed c) = Thrown x ->
           exists e, x = ThrownError e /\ isClientError (queueUrl c) e = true).
Proof.
  intros c x.
  assert (Hconv : forall operation (T : Type) (o : Outcome Exception T) A
                         (k : T -> A),
            match o with
            | Returned v => Returned (k v)
            | Thrown y =>
                Thrown (convertSqsError y operation
                          (Some (mkContext (Some (queueUrl c)))))
            | Pending => Pending
            end = Thrown x ->
            exists e, x = ThrownError e /\ isClientError (queueUrl c) e = true).
  { intros operation T o A k H.
    destruct o as [v|y|]; try discriminate.
    destruct (convertSqsError_is_client_error y operation (queueUrl c))
      as [e [He Hk]].
    rewrite He in H; inversion H; exists e; split; [reflexivity|assumption]. }
  destruct (closed c) eqn:Hc.
  - destruct (closed_client_refuses c Hc) as [H1 [H2 [H3 [H4 [H5 H6]]]]].
    repeat split; intros;
      rewrite ?H1, ?H2, ?H3, ?H4, ?H5, ?H6 in H; inversion H;
      eexists; split; reflexivity.
  - repeat split.
    + intros b options reply elapsed H.
      destruct (Z_gt_le_dec (utf8Length b) MAX_MESSAGE_SIZE) as [Hb|Hb].
      * unfold send, ensureOpen, Method.bind, Method.get, Method.ret,
          Method.throw, Method.lift in H.
        rewrite Hc, (validateMessageSize_over _ Hb) in H.
        inversion H; eexists; split; reflexivity.
      * rewrite send_open in H
          by (try assumption; apply validateMessageSize_within; assumption).
        apply (Hconv _ _ _ _ _ H).
    + intros messages reply elapsed H.
      destruct (validateEach_outcome messages) as [Hv | [m [s Hv]]].
      * rewrite sendBatch_open in H by assumption.
        apply (Hconv _ _ _ _ _ H).
      * unfold sendBatch, ensureOpen, Method.bind, Method.get, Method.ret,
          Method.throw, Method.lift in H.
        rewrite Hc, Hv in H. inversion H; eexists; split; reflexivity.
    + intros options reply elapsed H.
      rewrite receive_open in H by assumption. apply (Hconv _ _ _ _ _ H).
    + intros handle options reply elapsed H.
      rewrite delete_open in H by assumption.
      apply (Hconv "delete" _ (awaited (withOptions reply options "delete")) _
                   (fun _ => mkSqsResult true tt elapsed)).
      exact H.
    + intros handles options reply elapsed H.
      rewrite deleteBatch_open in H by assumption. apply (Hconv _ _ _ _ _ H).
    + intros options reply elapsed H.
      rewrite purge_open in H by assumption.
      apply (Hconv "purge" _ (awaited (withOptions reply options "purge")) _
                   (fun _ => mkSqsResult true tt elapsed)).
      exact H.
Qed.

End SqsClientFacts.

Section SqsBatches.

Import SqsClient.

Lemma failedEntries_length (entries : option (list BatchResultErrorEntry)) :
  List.length (failedEntries entries) = List.length (nullish entries []).
Proof. unfold failedEntries; apply length_map. Qed.

Lemma length_zero_eqb {A} (xs : list A) :
  (Z.of_nat (List.length xs) =? 0) = true <-> xs = [].
Proof.
  destruct xs; simpl; split; intros H; try reflexivity; discriminate.
Qed.

(** X6: when the backend answers a batch, the client reports [ok = true]
    exactly when the answer lists no failed entry (a missing [Failed] list
    counts as empty), and it reports as many successful and failed entries
    as the answer lists. This holds for [sendBatch] and for
    [deleteBatch]. *)
Theorem batch_ok_iff_nothing_failed :
  forall (c : SqsClientImpl), closed c = false ->
    (forall messages reply elapsed response,
        validateEach messages = Returned tt ->
        awaited (withOptions reply None "sendBatch") = Returned response ->
        exists r,
          snd (sendBatch messages reply elapsed c) = Returned r
          /\ (ok r = true <-> nullish (sendFailed response) [] = [])
          /\ List.length (successful (fields r))
             = List.length (nullish (sendSuccessful response) [])
          /\ List.length (failed (fields r))
             = List.length (nullish (sendFailed response) []))
    /\ (forall handles options reply elapsed response,
           awaited (withOptions reply options "deleteBatch")
           = Returned response ->
           exists r,
             snd (deleteBatch handles options reply elapsed c) = Returned r
             /\ (ok r = true <-> nullish (deleteFailed response) [] = [])
             /\ successful (fields r) = nullish (deleteSuccessful response) []
             /\ List.length (failed (fields r))
                = List.length (nullish (deleteFailed response) [])).
Proof.
  intros c Hc; split.
  - intros messages reply elapsed response Hv Hr.
    rewrite sendBatch_open by assumption. cbn [snd]. rewrite Hr.
    eexists; split; [reflexivity|]. cbn [ok fields successful failed].
    repeat split.
    + intros H; apply length_zero_eqb in H.
      unfold failedEntries in H. apply map_eq_nil in H; assumption.
    + intros H; apply length_zero_eqb. unfold failedEntries; rewrite H.
      reflexivity.
    + apply length_map.
    + apply failedEntries_length.
  - intros handles options reply elapsed response Hr.
    rewrite deleteBatch_open by assumption. cbn [snd]. rewrite Hr.
    eexists; split; [reflexivity|]. cbn [ok fields successful failed].
    repeat split.
    + intros H; apply length_zero_eqb in H.
      unfold failedEntries in H. apply map_eq_nil in H; assumption.
    + intros H; apply length_zero_eqb. unfold failedEntries; rewrite H.
      reflexivity.
    + apply failedEntries_length.
Qed.

(** X6, a witness: a batch of two deletions of which the backend refuses
    the second. *)
Lemma batch_ok_iff_nothing_failed_witness :
  exists r,
    snd (deleteBatch ["handle-a"; "handle-b"] None
           [OpSettles (Resolved (mkDeleteBatchOutput (Some [Some "0"])
              (Some [mkBatchErrorEntry (Some "1") (Some "ReceiptHandleIsInvalid")
                                       None])))]
           4 (mkClient "https://sqs.local/queue" false [] 0))
    = Returned r
    /\ (ok r = true
        <-> nullish (deleteFailed (mkDeleteBatchOutput (Some [Some "0"])
              (Some [mkBatchErrorEntry (Some "1")
                       (Some "ReceiptHandleIsInvalid") None]))) [] = [])
    /\ successful (fields r)
       = nullish (deleteSuccessful (mkDeleteBatchOutput (Some [Some "0"])
           (Some [mkBatchErrorEntry (Some "1")
                    (Some "ReceiptHandleIsInvalid") None]))) []
    /\ List.length (failed (fields r))
       = List.length (nullish (deleteFailed (mkDeleteBatchOutput
           (Some [Some "0"])
           (Some [mkBatchErrorEntry (Some "1")
                    (Some "ReceiptHandleIsInvalid") None]))) []).
Proof.
  apply (proj2 (batch_ok_iff_nothing_failed
                  (mkClient "https://sqs.local/queue" false [] 0) eq_refl)).
  reflexivity.
Defined.

(** The decimal notation of a number determines the number. *)
Lemma numberToString_injective (a b : number) :
  numberToString a = numberToString b -> a = b.
Proof.
  unfold numberToString; intros H.
  assert (Hn : forall z, Z.to_int z <> Decimal.Pos Decimal.Nil
                         /\ Z.to_int z <> Decimal.Neg Decimal.Nil).
  { intros z; split; intros Hz;
      assert (H0 : Z.of_int (Z.to_int z) = 0) by (rewrite Hz; reflexivity);
      rewrite DecimalZ.of_to in H0; subst z; discriminate. }
  assert (Hi : Some (Z.to_int a) = Some (Z.to_int b)).
  { rewrite <- (NilZero.isi (Z.to_int a)) by apply Hn.
    rewrite <- (NilZero.isi (Z.to_int b)) by apply Hn.
    rewrite H; reflexivity. }
  inversion Hi as [Hab].
  rewrite <- (DecimalZ.of_to a), <- (DecimalZ.of_to b), Hab; reflexivity.
Qed.

Lemma deleteEntries_shape (handles : list string) :
  forall index,
    map ReceiptHandle (deleteEntries index handles) = handles
    /\ map deleteId (deleteEntries index handles)
       = map (fun i => numberToString (Z.of_nat i))
             (seq index (List.length handles)).
Proof.
  induction handles as [|h rest IH]; intros index; [split; reflexivity|].
  destruct (IH (S index)) as [H1 H2].
  simpl; rewrite H1, H2; split; reflexivity.
Qed.

(** X7: the entries of the command that [deleteBatch] builds carry the
    receipt handles in the order given, the entry at position [i] has the
    decimal notation of [i] as its [Id], and no two entries share an
    [Id]. *)
Theorem delete_batch_entry_ids :
  forall handles : list string,
    map ReceiptHandle (deleteEntries 0 handles) = handles
    /\ (forall i handle,
           nth_error handles i = Some handle ->
           nth_error (deleteEntries 0 handles) i
           = Some (mkDeleteEntry (numberToString (Z.of_nat i)) handle))
    /\ NoDup (map deleteId (deleteEntries 0 handles)).
Proof.
  intros handles.
  destruct (deleteEntries_shape handles 0) as [Hh Hi].
  split; [assumption|split].
  - assert (G : forall hs index i handle,
               nth_error hs i = Some handle ->
               nth_error (deleteEntries index hs) i
               = Some (mkDeleteEntry
                         (numberToString (Z.of_nat (index + i))) handle)).
    { induction hs as [|h rest IH]; intros index i handle H;
        [destruct i; discriminate|].
      destruct i as [|i]; simpl in *.
      - inversion H; subst; rewrite Nat.add_0_r; reflexivity.
      - rewrite (IH (S index) i handle H).
        replace (S index + i)%nat with (index + S i)%nat by lia; reflexivity. }
    intros i handle H; apply (G handles 0%nat i handle H).
  - rewrite Hi. apply Finite.Injective_map_NoDup; [|apply seq_NoDup].
    intros a b H. apply numberToString_injective in H. lia.
Qed.

Lemma map_fst_snd_id {A B} (f : B -> B) (entries : list (A * B)) :
  (forall b, f b = b) ->
  map (fun entry => (fst entry, f (snd entry))) entries = entries.
Proof.
  intros Hf; induction entries as [|[k v] rest IH]; simpl;
    [reflexivity|rewrite Hf, IH; reflexivity].
Qed.

(** X8: the two conversions of message attributes are inverse to each
    other: attributes sent and received back unchanged by the backend are
    read as they were written, and an absent record stays absent. *)
Theorem message_attributes_round_trip :
  (forall attrs : option (list (string * SqsMessageAttribute)),
      convertMessageAttributes (toSdkMessageAttributes attrs) = attrs)
  /\ (forall attrs : option (list (string * MessageAttributeValue)),
         toSdkMessageAttributes (convertMessageAttributes attrs) = attrs)
  /\ (forall attrs,
         toSdkMessageAttributes attrs = None <-> attrs = None).
Proof.
  repeat split.
  - intros [entries|]; [|reflexivity]. simpl. rewrite map_map. simpl.
    f_equal. apply (map_fst_snd_id
      (fun v => mkAttribute (dataType v) (stringValue v) (binaryValue v))).
    intros []; reflexivity.
  - intros [entries|]; [|reflexivity]. simpl. rewrite map_map. simpl.
    f_equal. apply (map_fst_snd_id
      (fun v => mkSdkAttribute (DataType v) (StringValue v) (BinaryValue v))).
    intros []; reflexivity.
  - destruct attrs; [discriminate|reflexivity].
  - intros ->; reflexivity.
Qed.

Lemma utf8Length_bounds_strong (s : JsString) :
  (Z.of_nat (List.length s) <= utf8Length s <= 3 * Z.of_nat (List.length s))
  /\ forall c, Z.of_nat (List.length (c :: s)) <= utf8Length (c :: s)
               <= 3 * Z.of_nat (List.length (c :: s)).
Proof.
  induction s as [|d rest [IH1 IH2]].
  - split; [simpl; lia|].
    intros c; simpl.
    destruct (c <? 128)%N, (c <? 2048)%N, (isHighSurrogate c); lia.
  - split; [apply IH2|].
    intros c.
    specialize (IH2 d).
    change (utf8Length (c :: d :: rest))
      with (if (c <? 0x80)%N then 1 + utf8Length (d :: rest)
            else if (c <? 0x800)%N then 2 + utf8Length (d :: rest)
            else if isHighSurrogate c
                 then if isLowSurrogate d then 4 + utf8Length rest
                      else 3 + utf8Length (d :: rest)
                 else 3 + utf8Length (d :: rest)).
    cbn [List.length] in *.
    destruct (c <? 128)%N, (c <? 2048)%N, (isHighSurrogate c),
      (isLowSurrogate d); lia.
Qed.

(** X9: the UTF-8 length of a body lies between its number of UTF-16 code
    units and three times that number. So a body of at most 87381 code
    units always passes the size check, and a body of more than 262144 code
    units never does. *)
Theorem body_size_bounds :
  forall body : JsString,
    Z.of_nat (List.length body) <= utf8Length body
    <= 3 * Z.of_nat (List.length body)
    /\ (Z.of_nat (List.length body) <= 87381 ->
        validateMessageSize body = Returned tt)
    /\ (Z.of_nat (List.length body) > 262144 ->
        isThrown (validateMessageSize body) = true).
Proof.
  intros b.
  destruct (utf8Length_bounds_strong b) as [Hb _].
  split; [exact Hb|split; intros H].
  - apply validateMessageSize_within. unfold MAX_MESSAGE_SIZE; lia.
  - rewrite validateMessageSize_over; [reflexivity|].
    unfold MAX_MESSAGE_SIZE; lia.
Qed.

(** X9, a witness: a body of three code units, one of them outside
    ASCII. *)
Lemma body_size_bounds_witness :
  validateMessageSize [104; 233; 0x20AC]%N = Returned tt.
Proof.
  apply (proj1 (proj2 (body_size_bounds [104; 233; 0x20AC]%N))).
  vm_compute; discriminate.
Defined.

End SqsBatches.

(* ================================================================= *)
(** ** More on the HTTP client *)

Section HttpClientFacts.

Import HttpResponse HttpClient.

Variable Json : Type.
Variable decode : list Byte.byte -> string.
Variable inspectJson : string -> option string.

(** The fetch taxonomy yields one of the three failure classes. *)
Lemma convertFetchError_is_failure (x : Exception) :
  isHttpFailureError (convertFetchError x) = true.
Proof.
  destruct x as [e|repr]; [|reflexivity].
  unfold convertFetchError.
  destruct (isAbortError e || isTimeoutError e) eqn:H1.
  - unfold isHttpFailureError.
    destruct (isAbortError e), (isTimeoutError e), (isHttpNetworkError e);
      try reflexivity; discriminate.
  - destruct (isHttpNetworkError e) eqn:H2.
    + unfold isHttpFailureError; rewrite H2; reflexivity.
    + repeat match goal with
             | |- context [if ?b then _ else _] => destruct b
             end; reflexivity.
Qed.

(** X10: the fetch taxonomy always yields one of the three failure classes
    ([HttpNetworkError], [AbortError], [TimeoutError]), and converting its
    own outcome again changes nothing. *)
Theorem fetch_error_conversion_is_idempotent :
  forall x : Exception,
    isHttpFailureError (convertFetchError x) = true
    /\ convertFetchError (ThrownError (convertFetchError x))
       = convertFetchError x.
Proof.
  intros x.
  split; [apply convertFetchError_is_failure|].
  generalize (convertFetchError_is_failure x).
  generalize (convertFetchError x); intros e He.
  unfold isHttpFailureError in He.
  destruct e; try discriminate; reflexivity.
Qed.

(** The error built for a response that is not [ok] is an [HttpError] with
    the status of the response. *)
Lemma createHttpError_status (status : number) (statusText : string)
      (bodyText : option string) :
  Errors.status (createHttpError inspectJson status statusText bodyText)
  = Some status
  /\ Errors.kind (createHttpError inspectJson status statusText bodyText)
     = Some "http".
Proof.
  unfold createHttpError.
  split;
    repeat match goal with
           | |- context [if ?a =? ?b then _ else _] =>
               destruct (Z.eqb_spec a b)
           end; subst; reflexivity.
Qed.

(** X11: the error built for a response that is not [ok] always is an
    [HttpError] whose [status] is the status of the response, also for the
    seven statuses that have a class of their own; its message begins with
    the status and the status text of the response, and is exactly that
    when the response has no body text. *)
Theorem http_error_keeps_status :
  forall (status : number) (statusText : string) (bodyText : option string),
    Errors.status (createHttpError inspectJson status statusText bodyText)
    = Some status
    /\ Errors.kind (createHttpError inspectJson status statusText bodyText)
       = Some "http"
    /\ Errors.message (createHttpError inspectJson status statusText bodyText)
       = numberToString status ++ ": " ++ statusText
           ++ formatBodyDetail inspectJson bodyText
    /\ (bodyText = None \/ bodyText = Some "" ->
        Errors.message (createHttpError inspectJson status statusText bodyText)
        = numberToString status ++ ": " ++ statusText).
Proof.
  intros status statusText bodyText.
  assert (Hnil : forall s : string, s ++ "" = s)
    by (induction s as [|a s IH]; simpl; [|rewrite IH]; reflexivity).
  destruct (createHttpError_status status statusText bodyText) as [Hs Hk].
  split; [exact Hs|split; [exact Hk|]].
  unfold createHttpError.
  split.
  - repeat match goal with
           | |- context [if ?a =? ?b then _ else _] =>
               destruct (Z.eqb_spec a b)
           end; subst; reflexivity.
  - intros [-> | ->];
      repeat match goal with
             | |- context [if ?a =? ?b then _ else _] =>
                 destruct (Z.eqb_spec a b)
             end; subst; simpl; rewrite ?Hnil; reflexivity.
Qed.

(** A response whose body cannot be read. *)
Lemma request_body_unreadable (options : option HttpOptions) (url : string)
      (rawResponse : Response) (elapsed : number) (c : HttpClientImpl) :
  isReturned (readBody rawResponse) = false ->
  request Json decode inspectJson options url (Returned rawResponse) elapsed c
  = (c, match readBody rawResponse with
        | Thrown x => Thrown x
        | _ => Pending
        end).
Proof.
  intros H.
  unfold request, Method.bind, Method.get, Method.lift.
  destruct (readBody rawResponse); [discriminate| |]; reflexivity.
Qed.

(** X12: every response that a request returns satisfies the tri-state
    invariant. A failure response holds one of the three failure classes,
    an error response holds an [HttpError] with the status of the
    response, and when [throwOnError] resolves to [true] a returned
    response is always [ok]. *)
Theorem returned_responses_are_classified :
  forall (options : option HttpOptions) (url : string)
         (fetched : Outcome Exception Response) (elapsed : number)
         (c : HttpClientImpl) (r : HttpResponse Json),
    snd (request Json decode inspectJson options url fetched elapsed c)
    = Returned r ->
    TriState r
    /\ (nullish (optChain options throwOnError)
                (nullish (configThrowOnError (config c)) false) = true ->
        ok r = true)
    /\ (processed r = false ->
        exists e, error r = Some (inr e) /\ isHttpFailureError e = true)
    /\ (processed r = true -> ok r = false ->
        exists e, error r = Some (inl e) /\ Errors.kind e = Some "http"
                  /\ Errors.status e = status (payload r)).
Proof.
  intros options url fetched elapsed c r H.
  destruct fetched as [rawResponse|x|].
  - destruct (readBody rawResponse) as [b|y|] eqn:Hb.
    + rewrite (request_fetch_resolved _ _ _ _ _ _ b) in H by assumption.
      cbn [snd] in H.
      destruct (rawOk rawResponse).
      * inversion H; subst r. repeat split; try discriminate; reflexivity.
      * destruct (nullish _ _) eqn:Ht; [discriminate|].
        inversion H; subst r.
        destruct (createHttpError_status (rawStatus rawResponse)
                    (rawStatusText rawResponse) (option_map decode b))
          as [Hs Hk].
        repeat split; try discriminate.
        intros _ _; eexists; repeat split; [exact Hk|exact Hs].
    + rewrite request_body_unreadable in H by (rewrite Hb; reflexivity).
      rewrite Hb in H; discriminate.
    + rewrite request_body_unreadable in H by (rewrite Hb; reflexivity).
      rewrite Hb in H; discriminate.
  - rewrite request_fetch_rejected in H. cbn [snd] in H.
    destruct (nullish _ _) eqn:Ht; [discriminate|].
    inversion H; subst r.
    repeat split; try discriminate.
    intros _; eexists; split; [reflexivity|].
    apply convertFetchError_is_failure.
  - discriminate.
Qed.

(** X13: when the body of a received response cannot be read, the
    request throws what the read threw, as it is: the error is not
    converted, [throwOnError] plays no part, and the cookies of the
    response are not stored. *)
Theorem body_read_failure_is_thrown :
  forall (options : option HttpOptions) (url : string)
         (rawResponse : Response) (x : Exception) (elapsed : number)
         (c : HttpClientImpl),
    rawBodyIsNull rawResponse = false ->
    arrayBuffer rawResponse = Thrown x ->
    request Json decode inspectJson options url (Returned rawResponse)
            elapsed c
    = (c, Thrown x).
Proof.
  intros options url rawResponse x elapsed c Hn Ha.
  assert (Hb : readBody rawResponse = Thrown x)
    by (unfold readBody; rewrite Hn, Ha; reflexivity).
  rewrite request_body_unreadable by (rewrite Hb; reflexivity).
  rewrite Hb; reflexivity.
Qed.

(** X14: a request changes nothing of the client but the cookie jar, and
    the jar only when cookies are enabled and a response was received and
    read; then the cookies of the response are stored whether the call
    returns the response or throws its error. *)
Theorem request_changes_only_the_jar :
  forall (options : option HttpOptions) (url : string)
         (fetched : Outcome Exception Response) (elapsed : number)
         (c : HttpClientImpl),
    fst (request Json decode inspectJson options url fetched elapsed c)
    = mkClient (config c) (baseUrl c)
        match fetched with
        | Returned rawResponse =>
            if cookiesEnabled c && isReturned (readBody rawResponse)
            then storeCookies (setCookies rawResponse) (cookieJar c)
            else cookieJar c
        | _ => cookieJar c
        end
        (cookiesEnabled c).
Proof.
  intros options url fetched elapsed c.
  destruct fetched as [rawResponse|x|].
  - destruct (readBody rawResponse) as [b|y|] eqn:Hb.
    + rewrite (request_fetch_resolved _ _ _ _ _ _ b) by assumption.
      destruct c as [cf bu jar [|]]; reflexivity.
    + rewrite request_body_unreadable by (rewrite Hb; reflexivity).
      rewrite andb_false_r. destruct c; reflexivity.
    + rewrite request_body_unreadable by (rewrite Hb; reflexivity).
      rewrite andb_false_r. destruct c; reflexivity.
  - rewrite request_fetch_rejected. destruct c; reflexivity.
  - destruct c; reflexivity.
Qed.

End HttpClientFacts.

(** X11, a witness: a 503 answer without a body. *)
Lemma http_error_keeps_status_witness :
  Errors.message
    (HttpClient.createHttpError (fun _ => None) 503 "Service Unavailable" None)
  = numberToString 503 ++ ": " ++ "Service Unavailable".
Proof.
  apply (proj2 (proj2 (proj2
           (http_error_keeps_status (fun _ => None) 503 "Service Unavailable" None)))).
  left; reflexivity.
Defined.

(** X12, a witness: a 200 answer with an empty body. *)
Lemma returned_responses_are_classified_witness :
  TriState
    (HttpResponse.createHttpResponseSuccess (Json := unit)
       (HttpResponse.mkResponse 200 "OK" true "http://localhost/health"
          (fun _ => None) false (Returned []) [])
       None 2).
Proof.
  apply (proj1 (returned_responses_are_classified unit (fun _ => "")
                  (fun _ => None) None "http://localhost/health"
                  (Returned (HttpResponse.mkResponse 200 "OK" true
                               "http://localhost/health" (fun _ => None) false
                               (Returned []) []))
                  2
                  (HttpClient.createHttpClient
                     (HttpClient.mkConfig (inl "http://localhost")
                                          None None None))
                  _ eq_refl)).
Defined.

(** X13, a witness: a 200 answer whose stream breaks, with
    [throwOnError = false]. *)
Lemma body_read_failure_is_thrown_witness :
  HttpClient.request unit (fun _ => "") (fun _ => None)
    (Some (HttpClient.mkOptions (mkCommonOptions None None) None (Some false)))
    "http://localhost/big"
    (Returned (HttpResponse.mkResponse 200 "OK" true "http://localhost/big"
                 (fun _ => None) false
                 (Thrown (ThrownError
                    (NativeError CtorTypeError "TypeError" "body stream broke"
                                 None None None)))
                 [[115; 61; 49]%N]))
    9
    (HttpClient.createHttpClient
       (HttpClient.mkConfig (inl "http://localhost") None None None))
  = (HttpClient.createHttpClient
       (HttpClient.mkConfig (inl "http://localhost") None None None),
     Thrown (ThrownError
       (NativeError CtorTypeError "TypeError" "body stream broke"
                    None None None))).
Proof.
  apply (body_read_failure_is_thrown unit (fun _ => "") (fun _ => None));
    reflexivity.
Defined.

(* ================================================================= *)
(** ** Cookies and headers *)

Section Cookies.

Import HttpClient.

Lemma spanUntil_spec (stop : N) (s : JsString) :
  s = (fst (spanUntil stop s) ++ snd (spanUntil stop s))%list
  /\ ~ In stop (fst (spanUntil stop s))
  /\ (snd (spanUntil stop s) = []
      \/ exists rest, snd (spanUntil stop s) = stop :: rest).
Proof.
  induction s as [|c rest [IH1 [IH2 IH3]]]; simpl.
  - repeat split; [intros []|left; reflexivity].
  - destruct (N.eqb_spec c stop) as [->|Hne]; simpl.
    + repeat split; [intros []|right; exists rest; reflexivity].
    + repeat split.
      * f_equal; exact IH1.
      * intros [H|H]; [apply Hne; exact H|apply IH2; exact H].
      * exact IH3.
Qed.

Lemma spanUntil_stop (stop : N) (a b : JsString) :
  ~ In stop a -> spanUntil stop (a ++ stop :: b)%list = (a, stop :: b).
Proof.
  induction a as [|c a IH]; simpl; intros H.
  - rewrite N.eqb_refl; reflexivity.
  - destruct (N.eqb_spec c stop) as [->|Hne];
      [exfalso; apply H; left; reflexivity|].
    rewrite IH by (intros Hin; apply H; right; exact Hin). reflexivity.
Qed.

Lemma spanUntil_absent (stop : N) (a : JsString) :
  ~ In stop a -> spanUntil stop a = (a, []).
Proof.
  induction a as [|c a IH]; simpl; intros H; [reflexivity|].
  destruct (N.eqb_spec c stop) as [->|Hne];
    [exfalso; apply H; left; reflexivity|].
  rewrite IH by (intros Hin; apply H; right; exact Hin). reflexivity.
Qed.

Lemma trimStart_incl (s : JsString) (c : N) :
  In c (trimStart s) -> In c s.
Proof.
  induction s as [|d s IH]; simpl; [intros []|].
  destruct (isWhiteSpace d); [intros H; right; apply IH; exact H|].
  intros H; exact H.
Qed.

Lemma trim_incl (s : JsString) (c : N) : In c (trim s) -> In c s.
Proof.
  unfold trim; intros H.
  apply in_rev in H. apply trimStart_incl in H. apply in_rev in H.
  apply trimStart_incl in H. exact H.
Qed.

Lemma joinUnits_cons (sep x y : JsString) (rest : list JsString) :
  joinUnits sep (x :: y :: rest)
  = (x ++ sep ++ joinUnits sep (y :: rest))%list.
Proof. reflexivity. Qed.

(** A cookie written as [name=value], alone or followed by [;] and
    attributes, is read back. *)
Lemma parseSetCookie_written (name value attributes : JsString) :
  name <> [] -> ~ In EQUALS name -> ~ In SEMICOLON value ->
  trim name = name -> trim value = value ->
  parseSetCookie (name ++ EQUALS :: value)%list = Some (name, value)
  /\ parseSetCookie (name ++ EQUALS :: value ++ SEMICOLON :: attributes)%list
     = Some (name, value).
Proof.
  intros Hne Hn Hv Htn Htv.
  unfold parseSetCookie.
  split.
  - rewrite (spanUntil_stop EQUALS name value Hn).
    destruct name as [|c name]; [contradiction|].
    rewrite (spanUntil_absent SEMICOLON value Hv); simpl fst.
    rewrite Htn, Htv; reflexivity.
  - rewrite (spanUntil_stop EQUALS name _ Hn).
    destruct name as [|c name]; [contradiction|].
    rewrite (spanUntil_stop SEMICOLON value attributes Hv); simpl fst.
    rewrite Htn, Htv; reflexivity.
Qed.

(** X15: [parseSetCookie] gives [null] exactly for a string without [=] or
    with [=] in front. Otherwise the name it gives holds no [=] and the
    value no [;]. A cookie written as [name=value], alone or followed by
    [;] and attributes, is read back as that name and value when both are
    free of surrounding white space. *)
Theorem set_cookie_parsing :
  (forall s : JsString,
      parseSetCookie s = None
      <-> (~ In EQUALS s \/ exists rest, s = EQUALS :: rest))
  /\ (forall s name value,
         parseSetCookie s = Some (name, value) ->
         ~ In EQUALS name /\ ~ In SEMICOLON value)
  /\ (forall name value attributes,
         name <> [] -> ~ In EQUALS name -> ~ In SEMICOLON value ->
         trim name = name -> trim value = value ->
         parseSetCookie (name ++ EQUALS :: value)%list = Some (name, value)
         /\ parseSetCookie
              (name ++ EQUALS :: value ++ SEMICOLON :: attributes)%list
            = Some (name, value)).
Proof.
  split; [|split].
  - intros s; unfold parseSetCookie.
    destruct (spanUntil_spec EQUALS s) as [Hs [Hn Ht]].
    destruct (spanUntil EQUALS s) as [name after]; simpl in *.
    split.
    + intros H. destruct name as [|c name].
      * destruct Ht as [-> | [rest ->]].
        -- left; subst s; intros [].
        -- right; exists rest; exact Hs.
      * destruct after as [|d after]; [|discriminate].
        left; subst s; rewrite app_nil_r; exact Hn.
    + intros [H | [rest H]].
      * destruct name as [|c name]; [reflexivity|].
        destruct after as [|d after]; [reflexivity|].
        destruct Ht as [Ht | [rest Ht]]; [discriminate|].
        inversion Ht; subst d. exfalso; apply H; rewrite Hs.
        apply in_or_app; right; left; reflexivity.
      * destruct name as [|c name]; [reflexivity|].
        subst s. inversion H; subst c. exfalso; apply Hn; left; reflexivity.
  - intros s name value; unfold parseSetCookie.
    destruct (spanUntil_spec EQUALS s) as [_ [Hn _]].
    destruct (spanUntil EQUALS s) as [n after]; simpl in *.
    destruct n as [|c n]; [discriminate|].
    destruct after as [|d after]; [discriminate|].
    intros H; inversion H; subst; split.
    + intros Hin; apply Hn; apply trim_incl; exact Hin.
    + intros Hin; apply trim_incl in Hin.
      destruct (spanUntil_spec SEMICOLON after) as [_ [Hv _]].
      apply Hv; exact Hin.
  - intros name value attributes Hne Hn Hv Htn Htv.
    apply parseSetCookie_written; assumption.
Qed.

(** X15, a witness: the cookie [sid=42] with an attribute. *)
Lemma set_cookie_parsing_witness :
  parseSetCookie ([115; 105; 100] ++ EQUALS :: [52; 50])%list%N
  = Some ([115; 105; 100]%N, [52; 50]%N)
  /\ parseSetCookie
       ([115; 105; 100] ++ EQUALS :: [52; 50]
          ++ SEMICOLON :: [32; 80; 97; 116; 104; 61; 47])%list%N
     = Some ([115; 105; 100]%N, [52; 50]%N).
Proof.
  apply (proj2 (proj2 set_cookie_parsing) [115; 105; 100]%N [52; 50]%N
           [32; 80; 97; 116; 104; 61; 47]%N);
    try reflexivity; try discriminate;
    vm_compute; intuition discriminate.
Defined.

(** X16: the [Cookie] header built from a record of cookies begins with
    its first cookie: parsed as a [Set-Cookie] value it gives back the
    first name and value, when both are free of [=], [;] and surrounding
    white space. *)
Theorem serialized_cookies_parse_back :
  forall (name value : JsString) (others : list (JsString * JsString)),
    name <> [] -> ~ In EQUALS name -> ~ In SEMICOLON value ->
    trim name = name -> trim value = value ->
    parseSetCookie (serializeCookies ((name, value) :: others))
    = Some (name, value).
Proof.
  intros name value others Hne Hn Hv Htn Htv.
  unfold serializeCookies.
  destruct others as [|o others].
  - simpl.
    apply (proj1 (parseSetCookie_written name value [] Hne Hn Hv Htn Htv)).
  - cbn [map fst snd].
    rewrite joinUnits_cons.
    set (tail := joinUnits _ (_ :: _)). clearbody tail.
    replace ((name ++ [EQUALS] ++ value) ++ [SEMICOLON; SPACE] ++ tail)%list
      with (name ++ EQUALS :: value ++ SEMICOLON :: SPACE :: tail)%list
      by (simpl; rewrite <- !app_assoc; reflexivity).
    apply (proj2 (parseSetCookie_written name value (SPACE :: tail) Hne Hn Hv
                    Htn Htv)).
Qed.

(** X16, a witness: the header of the cookies [a=1] and [b=2]. *)
Lemma serialized_cookies_parse_back_witness :
  parseSetCookie
    (serializeCookies [([97]%N, [49]%N); ([98]%N, [50]%N)])
  = Some ([97]%N, [49]%N).
Proof.
  apply (serialized_cookies_parse_back [97]%N [49]%N [([98]%N, [50]%N)]);
    try reflexivity; try discriminate;
    vm_compute; intuition discriminate.
Defined.

End Cookies.

Section Jar.

Import HttpClient.

Lemma unitsEqb_spec (a b : JsString) : unitsEqb a b = true <-> a = b.
Proof.
  revert b; induction a as [|x a IH]; destruct b as [|y b]; simpl;
    split; intros H; try reflexivity; try discriminate.
  - apply andb_true_iff in H; destruct H as [H1 H2].
    apply N.eqb_eq in H1; apply IH in H2; subst; reflexivity.
  - inversion H; subst. apply andb_true_iff; split;
      [apply N.eqb_refl|apply IH; reflexivity].
Qed.

Section Entries.

Context {K V : Type}.
Variable eqb : K -> K -> bool.
Hypothesis eqb_spec : forall a b, eqb a b = true <-> a = b.

Lemma eqb_refl_true (k : K) : eqb k k = true.
Proof. apply eqb_spec; reflexivity. Qed.

Lemma eqb_neq_false (a b : K) : a <> b -> eqb a b = false.
Proof.
  intros H; destruct (eqb a b) eqn:E; [|reflexivity].
  exfalso; apply H; apply eqb_spec; exact E.
Qed.

Lemma getEntry_setEntry_same (k : K) (v : V) (entries : list (K * V)) :
  getEntry eqb k (setEntry eqb k v entries) = Some v.
Proof.
  induction entries as [|[k' v'] rest IH]; simpl.
  - rewrite eqb_refl_true; reflexivity.
  - destruct (eqb k k') eqn:E; simpl.
    + rewrite eqb_refl_true; reflexivity.
    + rewrite E; exact IH.
Qed.

Lemma getEntry_setEntry_other (k other : K) (v : V) (entries : list (K * V)) :
  other <> k ->
  getEntry eqb other (setEntry eqb k v entries) = getEntry eqb other entries.
Proof.
  intros Hne.
  induction entries as [|[k' v'] rest IH]; simpl.
  - rewrite (eqb_neq_false other k Hne); reflexivity.
  - destruct (eqb k k') eqn:E; simpl.
    + apply eqb_spec in E; subst k'.
      rewrite (eqb_neq_false other k Hne); reflexivity.
    + destruct (eqb other k'); [reflexivity|exact IH].
Qed.

Lemma setEntry_keys (k : K) (v : V) (entries : list (K * V)) :
  NoDup (map fst entries) ->
  NoDup (map fst (setEntry eqb k v entries))
  /\ (forall x, In x (map fst (setEntry eqb k v entries))
                <-> x = k \/ In x (map fst entries)).
Proof.
  induction entries as [|[k' v'] rest IH]; simpl; intros Hnd.
  - split; [constructor; [intros []|constructor]|].
    intros x; split; intros [H|H]; auto.
  - inversion Hnd as [|? ? Hnotin Hrest]; subst.
    destruct (IH Hrest) as [IHnd IHin].
    destruct (eqb k k') eqn:E; simpl.
    + apply eqb_spec in E; subst k'. split; [exact Hnd|].
      intros x; split; [intros [H|H]; auto|intros [H|[H|H]]; auto].
    + split.
      * constructor; [|exact IHnd].
        intros Hin; apply IHin in Hin; destruct Hin as [Hin|Hin].
        -- subst k'. rewrite eqb_refl_true in E; discriminate.
        -- apply Hnotin; exact Hin.
      * intros x; split.
        -- intros [H|H]; [auto|]. apply IHin in H; destruct H; auto.
        -- intros [H|[H|H]]; [right; apply IHin; auto|auto|].
           right; apply IHin; auto.
Qed.

Lemma getEntry_fold_setEntry (k : K) (source : list (K * V)) :
  NoDup (map fst source) ->
  forall target,
    getEntry eqb k
      (fold_left (fun acc entry => setEntry eqb (fst entry) (snd entry) acc)
                 source target)
    = match getEntry eqb k source with
      | Some v => Some v
      | None => getEntry eqb k target
      end.
Proof.
  induction source as [|[k1 v1] rest IH]; simpl; intros Hnd target;
    [reflexivity|].
  inversion Hnd as [|? ? Hnotin Hrest]; subst.
  rewrite (IH Hrest).
  destruct (eqb k k1) eqn:E.
  - apply eqb_spec in E; subst k1.
    assert (Hnone : getEntry eqb k rest = None).
    { clear -Hnotin eqb_spec.
      induction rest as [|[k2 v2] rest IH]; simpl; [reflexivity|].
      destruct (eqb k k2) eqn:E2.
      - apply eqb_spec in E2; subst k2. exfalso; apply Hnotin; left; reflexivity.
      - apply IH; intros Hin; apply Hnotin; right; exact Hin. }
    rewrite Hnone. apply getEntry_setEntry_same.
  - destruct (getEntry eqb k rest); [reflexivity|].
    apply getEntry_setEntry_other.
    intros Heq; subst k1. rewrite eqb_refl_true in E; discriminate.
Qed.

End Entries.

(** X17: on a client with cookies enabled, [setCookie] returns and
    [getCookies] then shows the value under the name, every other name as
    before, and names stay distinct. On a client with cookies disabled it
    throws and changes nothing. [clearCookies] empties the jar. *)
Theorem cookie_jar_set_get :
  forall (c : HttpClientImpl) (name value : JsString),
    (cookiesEnabled c = true ->
     snd (setCookie name value c) = Returned tt
     /\ getEntry unitsEqb name (getCookies (fst (setCookie name value c)))
        = Some value
     /\ (forall other, other <> name ->
           getEntry unitsEqb other (getCookies (fst (setCookie name value c)))
           = getEntry unitsEqb other (getCookies c))
     /\ (NoDup (map fst (getCookies c)) ->
         NoDup (map fst (getCookies (fst (setCookie name value c))))))
    /\ (cookiesEnabled c = false ->
        fst (setCookie name value c) = c
        /\ isThrown (snd (setCookie name value c)) = true)
    /\ getCookies (fst (clearCookies c)) = [].
Proof.
  intros c name value. split; [|split].
  - intros He.
    unfold setCookie, Method.bind, Method.get, Method.modify, getCookies.
    rewrite He; cbn [negb fst snd cookieJar].
    repeat split.
    + apply getEntry_setEntry_same. apply unitsEqb_spec.
    + intros other Hne. apply getEntry_setEntry_other;
        [apply unitsEqb_spec|exact Hne].
    + intros Hnd. apply (setEntry_keys unitsEqb unitsEqb_spec); exact Hnd.
  - intros He.
    unfold setCookie, Method.bind, Method.get, Method.throw.
    rewrite He; split; reflexivity.
  - reflexivity.
Qed.

(** X17, a witness: setting [a=1] on a fresh client. *)
Lemma cookie_jar_set_get_witness :
  getEntry unitsEqb [97]%N
    (getCookies (fst (setCookie [97]%N [49]%N
       (createHttpClient (mkConfig (inl "http://localhost") None None None)))))
  = Some [49]%N.
Proof.
  apply (proj1 (cookie_jar_set_get
                  (createHttpClient
                     (mkConfig (inl "http://localhost") None None None))
                  [97]%N [49]%N) eq_refl).
Defined.

(** X18: in the headers merged for a request, a name has the value of the
    last source that holds it: a source given later overrides the ones
    before it, and an [undefined] source changes nothing. *)
Theorem merged_headers_last_wins :
  forall (sources : list (option (list (string * string))))
         (source : list (string * string)) (name : string),
    NoDup (map fst source) ->
    getEntry String.eqb name (mergeHeaders (sources ++ [Some source]))
    = match getEntry String.eqb name source with
      | Some v => Some v
      | None => getEntry String.eqb name (mergeHeaders sources)
      end
    /\ mergeHeaders (sources ++ [None]) = mergeHeaders sources.
Proof.
  intros sources source name Hnd.
  unfold mergeHeaders. rewrite !fold_left_app. cbn [fold_left].
  split; [|reflexivity].
  unfold assign. apply getEntry_fold_setEntry; [apply String.eqb_eq|exact Hnd].
Qed.

(** X18, a witness: a request header overriding a default of the
    client. *)
Lemma merged_headers_last_wins_witness :
  getEntry String.eqb "Accept"
    (mergeHeaders ([Some [("Accept", "text/html"); ("X-Id", "7")]; None]
                     ++ [Some [("Accept", "application/json")]]))
  = match getEntry String.eqb "Accept" [("Accept", "application/json")] with
    | Some v => Some v
    | None =>
        getEntry String.eqb "Accept"
          (mergeHeaders [Some [("Accept", "text/html"); ("X-Id", "7")]; None])
    end
  /\ mergeHeaders ([Some [("Accept", "text/html"); ("X-Id", "7")]; None]
                     ++ [None])
     = mergeHeaders [Some [("Accept", "text/html"); ("X-Id", "7")]; None].
Proof.
  apply (merged_headers_last_wins
           [Some [("Accept", "text/html"); ("X-Id", "7")]; None]
           [("Accept", "application/json")] "Accept").
  repeat constructor; intros [].
Defined.

End Jar.

(* ================================================================= *)
(** ** Responses without a body *)

Section Bodyless.

Import HttpResponse.

Variable Json : Type.
Variable decode : list Byte.byte -> string.
Variable parse : string -> Outcome Exception Json.

(** X19: on a response without a body (a failure response, or a processed
    response whose body is [null]) [text()], [json()], [arrayBuffer()] and
    [blob()] give [null]; the decoder and the parser are not called and
    the caches stay as they are. *)
Theorem bodyless_reads_are_null :
  forall (resp : HttpResponse Json) (decodeCalls parseCalls : nat),
    body (payload resp) = None
    \/ impl (payload resp) = HttpResponseFailureImpl ->
    text decode (mkRun resp decodeCalls parseCalls)
    = (mkRun resp decodeCalls parseCalls, Returned Null)
    /\ json decode parse (mkRun resp decodeCalls parseCalls)
       = (mkRun resp decodeCalls parseCalls, Returned Null)
    /\ arrayBufferOf resp = None
    /\ blob resp = None.
Proof.
  intros resp dc pc H.
  unfold text, json, arrayBufferOf, blob, Method.bind, Method.get, Method.ret.
  cbn [this].
  destruct H as [H | H]; rewrite H.
  - destruct (impl (payload resp)); repeat split.
  - repeat split.
Qed.

(** The body read at receipt time is [null] or not empty. *)
Lemma readBody_not_empty (raw : Response) (b : option (list Byte.byte)) :
  readBody raw = Returned b -> b <> Some [].
Proof.
  unfold readBody.
  destruct (rawBodyIsNull raw); [intros H; inversion H; discriminate|].
  destruct (arrayBuffer raw) as [bytes| |]; try discriminate.
  destruct bytes; simpl; intros H; inversion H; discriminate.
Qed.

(** X20: a response whose body stream is missing or holds no byte is
    returned with [body = null], so that its [text()] is [null] and not
    the empty string; the body of a returned response is never an empty
    array. *)
Theorem empty_body_is_null :
  forall (inspectJson : string -> option string)
         (options : option HttpClient.HttpOptions) (url : string)
         (rawResponse : Response) (elapsed : number)
         (c : HttpClient.HttpClientImpl) (r : HttpResponse Json),
    snd (HttpClient.request Json decode inspectJson options url
           (Returned rawResponse) elapsed c) = Returned r ->
    body (payload r) <> Some []
    /\ (rawBodyIsNull rawResponse = true
        \/ arrayBuffer rawResponse = Returned [] ->
        body (payload r) = None
        /\ snd (text decode (mkRun r 0 0)) = Returned Null).
Proof.
  intros inspectJson options url rawResponse elapsed c r H.
  destruct (readBody rawResponse) as [b|y|] eqn:Hb.
  - rewrite (request_fetch_resolved Json decode inspectJson options url
               rawResponse b elapsed c Hb) in H.
    cbn [snd] in H.
    assert (Hbody : body (payload r) = b).
    { destruct (rawOk rawResponse);
        [|destruct (nullish _ _); [discriminate|]];
        inversion H; reflexivity. }
    split.
    + rewrite Hbody. apply (readBody_not_empty rawResponse); exact Hb.
    + intros Hempty.
      assert (Hnone : b = None).
      { unfold readBody in Hb.
        destruct Hempty as [Hn | Ha]; [rewrite Hn in Hb|].
        - inversion Hb; reflexivity.
        - destruct (rawBodyIsNull rawResponse);
            [inversion Hb; reflexivity|].
          rewrite Ha in Hb; inversion Hb; reflexivity. }
      rewrite Hbody; split; [exact Hnone|].
      unfold text, Method.bind, Method.get, Method.ret. cbn [this].
      rewrite Hbody, Hnone.
      destruct (impl (payload r)); reflexivity.
  - unfold HttpClient.request, Method.bind, Method.get, Method.lift in H.
    rewrite Hb in H; discriminate.
  - unfold HttpClient.request, Method.bind, Method.get, Method.lift in H.
    rewrite Hb in H; discriminate.
Qed.

End Bodyless.

(** X19, a witness: a failure response. *)
Lemma bodyless_reads_are_null_witness :
  HttpResponse.text (fun _ => "x")
    (HttpResponse.mkRun
       (HttpResponse.createHttpResponseFailure (Json := unit)
          "http://localhost/down" 5 (HttpNetworkError "refused" None))
       0 0)
  = (HttpResponse.mkRun
       (HttpResponse.createHttpResponseFailure (Json := unit)
          "http://localhost/down" 5 (HttpNetworkError "refused" None))
       0 0,
     Returned Null).
Proof.
  apply (proj1 (bodyless_reads_are_null unit (fun _ => "x")
                  (fun _ => Returned tt)
                  (HttpResponse.createHttpResponseFailure
                     "http://localhost/down" 5 (HttpNetworkError "refused" None))
                  0 0 (or_introl eq_refl))).
Defined.

(** X20, a witness: a 204 answer without a body stream. *)
Lemma empty_body_is_null_witness :
  HttpResponse.body (payload
    (HttpResponse.createHttpResponseSuccess (Json := unit)
       (HttpResponse.mkResponse 204 "No Content" true "http://localhost/item"
          (fun _ => None) true (Returned []) [])
       None 6)) <> Some [].
Proof.
  apply (proj1 (empty_body_is_null unit (fun _ => "x") (fun _ => None) None
                  "http://localhost/item"
                  (HttpResponse.mkResponse 204 "No Content" true
                     "http://localhost/item" (fun _ => None) true
                     (Returned []) [])
                  6
                  (HttpClient.createHttpClient
                     (HttpClient.mkConfig (inl "http://localhost")
                                          None None None))
                  _ eq_refl)).
Defined.

(* ================================================================= *)
(** ** The MySQL taxonomy and client *)

Section MySqlFacts.

Import MySql.

(** X21: the MySQL taxonomy always yields a [SqlError]. For an [Error] it
    keeps the message, the [errno] and the [sqlState] of the driver and
    holds the original as its cause; a refused connection ([code]
    [ECONNREFUSED]) is classified before any [errno]; only a constraint
    error carries a constraint name. A value that is not an [Error]
    becomes a [MySqlError] of its text, without cause. *)
Theorem mysql_conversion_keeps_driver_fields :
  (forall err : ErrorValue,
      exists cls constraint,
        convertMySqlError (ThrownError err)
        = SqlError cls (Errors.message err) constraint (Some err)
                   (Errors.errno err) (Errors.sqlState err)
        /\ (constraint <> None <-> cls = CConstraintError)
        /\ (Errors.code err = Some "ECONNREFUSED" ->
            cls = CConnectionRefusedError))
  /\ (forall repr : string,
         convertMySqlError (ThrownValue repr)
         = SqlError CMySqlError repr None None None None).
Proof.
  split; [|reflexivity].
  intros err. unfold convertMySqlError.
  destruct (Errors.code err) as [c|] eqn:Hc.
  - destruct (c =? "ECONNREFUSED")%string eqn:He.
    + eexists; eexists; split; [reflexivity|].
      split; [split; [intros H; contradiction|discriminate]|reflexivity].
    + repeat match goal with
             | |- context [if ?b then _ else _] => destruct b
             end;
        eexists; eexists; (split; [reflexivity|]);
        (split; [split; [try (intros H; contradiction); reflexivity
                        |try discriminate; reflexivity]
                |intros H; inversion H; subst c;
                 rewrite String.eqb_refl in He; discriminate]).
  - repeat match goal with
           | |- context [if ?b then _ else _] => destruct b
           end;
      eexists; eexists; (split; [reflexivity|]);
      (split; [split; [try (intros H; contradiction); reflexivity
                      |try discriminate; reflexivity]
              |discriminate]).
Qed.

(** X21, a witness: a refused connection that also carries an [errno]. *)
Lemma mysql_conversion_keeps_driver_fields_witness :
  exists cls constraint,
    convertMySqlError
      (ThrownError (NativeError CtorError "Error" "connect ECONNREFUSED"
                      (Some "ECONNREFUSED") (Some 1045) None))
    = SqlError cls
        (Errors.message (NativeError CtorError "Error" "connect ECONNREFUSED"
                           (Some "ECONNREFUSED") (Some 1045) None))
        constraint
        (Some (NativeError CtorError "Error" "connect ECONNREFUSED"
                 (Some "ECONNREFUSED") (Some 1045) None))
        (Errors.errno (NativeError CtorError "Error" "connect ECONNREFUSED"
                         (Some "ECONNREFUSED") (Some 1045) None))
        (Errors.sqlState (NativeError CtorError "Error" "connect ECONNREFUSED"
                            (Some "ECONNREFUSED") (Some 1045) None))
    /\ (constraint <> None <-> cls = CConstraintError)
    /\ (Errors.code (NativeError CtorError "Error" "connect ECONNREFUSED"
                       (Some "ECONNREFUSED") (Some 1045) None)
        = Some "ECONNREFUSED" ->
        cls = CConnectionRefusedError).
Proof.
  apply (proj1 mysql_conversion_keeps_driver_fields
           (NativeError CtorError "Error" "connect ECONNREFUSED"
              (Some "ECONNREFUSED") (Some 1045) None)).
Defined.

Lemma upTo_spec (stop : ascii) (s name : string) :
  upTo stop s = Some name ->
  (exists post, s = name ++ String stop post)
  /\ ~ In stop (list_ascii_of_string name).
Proof.
  revert name; induction s as [|c rest IH]; simpl; intros name H;
    [discriminate|].
  destruct (Ascii.eqb_spec c stop) as [->|Hne].
  - inversion H; subst; split; [exists rest; reflexivity|intros []].
  - destruct (upTo stop rest) as [n|] eqn:E; [|discriminate].
    inversion H; subst.
    destruct (IH n eq_refl) as [[post Hp] Hn].
    split; [exists post; simpl; rewrite Hp; reflexivity|].
    simpl; intros [Hc|Hin]; [apply Hne; exact Hc|apply Hn; exact Hin].
Qed.

Lemma prefix_split (a s : string) :
  String.prefix a s = true ->
  s = a ++ String.substring (String.length a)
             (String.length s - String.length a) s.
Proof.
  revert s; induction a as [|c a IH]; intros s H; simpl.
  - rewrite Nat.sub_0_r.
    clear H; induction s as [|d s IHs]; simpl; [reflexivity|].
    f_equal; exact IHs.
  - destruct s as [|d s]; simpl in H; [discriminate|].
    destruct (Ascii.ascii_dec c d) as [->|Hne]; [|discriminate].
    simpl. f_equal. apply IH; exact H.
Qed.

Lemma quotedAt_spec (opening : string) (closing : ascii) (s name : string) :
  quotedAt opening closing s = Some name ->
  name <> ""
  /\ (exists post, s = opening ++ name ++ String closing post)
  /\ ~ In closing (list_ascii_of_string name).
Proof.
  unfold quotedAt.
  destruct (String.prefix opening s) eqn:Hp; [|discriminate].
  destruct (upTo closing _) as [n|] eqn:Hu; [|discriminate].
  destruct n as [|c n]; [discriminate|].
  intros H; inversion H; subst name.
  destruct (upTo_spec _ _ _ Hu) as [[post Hpost] Hn].
  split; [discriminate|split; [|exact Hn]].
  exists post. rewrite (prefix_split _ _ Hp) at 1. rewrite Hpost; reflexivity.
Qed.

(** X22: the constraint name taken from a message is never empty, and it
    is a piece of the message: the text between [for key '] and the next
    ['], or between [CONSTRAINT `] and the next [`]. *)
Theorem constraint_name_is_quoted_in_message :
  forall s name : string,
    constraintMatch s = Some name ->
    name <> ""
    /\ ((exists pre post, s = pre ++ "for key '" ++ name ++ String "'" post)
        /\ ~ In "'"%char (list_ascii_of_string name)
        \/ (exists pre post,
               s = pre ++ "CONSTRAINT `" ++ name ++ String "`" post)
           /\ ~ In "`"%char (list_ascii_of_string name)).
Proof.
  induction s as [|c rest IH]; intros name H.
  - simpl in H; discriminate.
  - cbn [constraintMatch] in H.
    destruct (quotedAt "for key '" "'" (String c rest)) as [n|] eqn:H1.
    + inversion H; subst n.
      destruct (quotedAt_spec _ _ _ _ H1) as [Hne [[post Hp] Hn]].
      split; [exact Hne|left; split; [|exact Hn]].
      exists "", post; exact Hp.
    + destruct (quotedAt "CONSTRAINT `" "`" (String c rest)) as [n|] eqn:H2.
      * inversion H; subst n.
        destruct (quotedAt_spec _ _ _ _ H2) as [Hne [[post Hp] Hn]].
        split; [exact Hne|right; split; [|exact Hn]].
        exists "", post; exact Hp.
      * destruct (IH name H) as [Hne [[[pre [post Hp]] Hn]|[[pre [post Hp]] Hn]]].
        -- split; [exact Hne|left; split; [|exact Hn]].
           exists (String c pre), post; simpl; rewrite Hp; reflexivity.
        -- split; [exact Hne|right; split; [|exact Hn]].
           exists (String c pre), post; simpl; rewrite Hp; reflexivity.
Qed.

(** X22, a witness: the message of a duplicate key. *)
Lemma constraint_name_is_quoted_in_message_witness :
  "users.email" <> ""
  /\ ((exists pre post,
          "Duplicate entry 'a@b.c' for key 'users.email'"
          = pre ++ "for key '" ++ "users.email" ++ String "'" post)
      /\ ~ In "'"%char (list_ascii_of_string "users.email")
      \/ (exists pre post,
             "Duplicate entry 'a@b.c' for key 'users.email'"
             = pre ++ "CONSTRAINT `" ++ "users.email" ++ String "`" post)
         /\ ~ In "`"%char (list_ascii_of_string "users.email")).
Proof.
  apply (constraint_name_is_quoted_in_message
           "Duplicate entry 'a@b.c' for key 'users.email'" "users.email").
  reflexivity.
Defined.

(** The MySQL taxonomy always yields a [SqlError]. *)
Lemma convertMySqlError_is_sql_error (y : Exception) :
  isSqlError (convertMySqlError y) = true.
Proof.
  destruct y as [err|repr]; [|reflexivity].
  unfold convertMySqlError.
  destruct (Errors.code err) as [c|];
    repeat match goal with
           | |- context [if ?b then _ else _] => destruct b
           end; reflexivity.
Qed.

(** X23: a query on a closed client throws a [MySqlError] that says so
    and executes nothing. Whatever a query throws is a [SqlError]; what it
    returns has [ok = true], and for a statement that yields rows the
    row count is their number. *)
Theorem query_outcomes :
  forall (Row : Type) (c : MySqlClientImpl) (sql : string)
         (reply : Outcome Exception (Executed Row)) (elapsed : number),
    (closed c = true ->
     query sql reply elapsed c
     = (c, Thrown (ThrownError
             (SqlError CMySqlError "Client is closed" None
                (Some (NativeError CtorError "Error" "Client is closed"
                         None None None)) None None))))
    /\ (forall x, snd (query sql reply elapsed c) = Thrown x ->
          exists e, x = ThrownError e /\ isSqlError e = true)
    /\ (forall r, snd (query sql reply elapsed c) = Returned r ->
          ok r = true
          /\ (forall found, reply = Returned (RowsArray found) ->
                rows r = found
                /\ rowCount r = Z.of_nat (List.length found))
          /\ (forall header, reply = Returned (Header header) ->
                rows r = [] /\ rowCount r = affectedRows header)).
Proof.
  intros Row c sql reply elapsed.
  unfold query, throwClosed, execute, Method.bind, Method.get, Method.throw,
    Method.ret, Method.lift, Method.modify, Method.tryCatch.
  destruct (closed c) eqn:Hc.
  - split; [intros _; reflexivity|split].
    + intros x H; inversion H; eexists; split; reflexivity.
    + intros r H; discriminate.
  - cbn [fst snd].
    split; [discriminate|].
    destruct reply as [[found|header]|y|]; cbn [fst snd]; split.
    + intros x H; discriminate.
    + intros r H; inversion H; subst r; cbn [ok rows rowCount].
      repeat split;
        repeat match goal with
               | Heq : Returned _ = Returned _ |- _ =>
                   inversion Heq; clear Heq; subst
               end; reflexivity.
    + intros x H; discriminate.
    + intros r H; inversion H; subst r; cbn [ok rows rowCount].
      repeat split;
        repeat match goal with
               | Heq : Returned _ = Returned _ |- _ =>
                   inversion Heq; clear Heq; subst
               end; reflexivity.
    + intros x H; inversion H; eexists; split;
        [reflexivity|apply convertMySqlError_is_sql_error].
    + intros r H; discriminate.
    + intros x H; discriminate.
    + intros r H; discriminate.
Qed.

(** X24: a transaction on an open client. When [fn] returns and the commit
    succeeds, the value of [fn] is returned after one commit and no
    rollback. When [fn] throws, or the commit fails, one rollback follows
    and the error is thrown as it is, not converted by the taxonomy; if the
    rollback fails too, its error is thrown instead. When the transaction
    cannot be begun, the converted error is thrown and neither commit nor
    rollback is called. *)
Theorem transaction_outcomes :
  forall (T : Type) (c : MySqlClientImpl)
         (begun : Outcome Exception unit) (ran : Outcome Exception T)
         (committed rolledBack : Outcome Exception unit),
    closed c = false ->
    (forall v,
        begun = Returned tt -> ran = Returned v -> committed = Returned tt ->
        transaction begun ran committed rolledBack c
        = (mkClient false (executed c) (endCalls c) (S (commitCalls c))
                    (rollbackCalls c),
           Returned v))
    /\ (forall x,
           begun = Returned tt -> ran = Thrown x ->
           transaction begun ran committed rolledBack c
           = (mkClient false (executed c) (endCalls c) (commitCalls c)
                       (S (rollbackCalls c)),
              match rolledBack with
              | Returned _ => Thrown x
              | Thrown y => Thrown y
              | Pending => Pending
              end))
    /\ (forall v x,
           begun = Returned tt -> ran = Returned v -> committed = Thrown x ->
           transaction begun ran committed rolledBack c
           = (mkClient false (executed c) (endCalls c) (S (commitCalls c))
                       (S (rollbackCalls c)),
              match rolledBack with
              | Returned _ => Thrown x
              | Thrown y => Thrown y
              | Pending => Pending
              end))
    /\ (forall x,
           begun = Thrown x ->
           transaction begun ran committed rolledBack c
           = (c, Thrown (ThrownError (convertMySqlError x)))).
Proof.
  intros T c begun ran committed rolledBack Hc.
  unfold transaction, throwClosed, commit, rollback, Method.bind, Method.get,
    Method.throw, Method.ret, Method.lift, Method.modify, Method.tryCatch.
  rewrite Hc.
  destruct c as [cl ex en co ro]; simpl in Hc; subst cl.
  cbn [closed executed endCalls commitCalls rollbackCalls].
  repeat split.
  - intros v -> -> ->; reflexivity.
  - intros x -> ->; destruct rolledBack as [[]| |]; reflexivity.
  - intros v x -> -> ->; destruct rolledBack as [[]| |]; reflexivity.
  - intros x ->; reflexivity.
Qed.

End MySqlFacts.

(** X23, a witness: a query on a client that was closed. *)
Lemma query_outcomes_witness :
  MySql.query (Row := string) "SELECT 1" (Returned (MySql.RowsArray ["1"])) 2
    (MySql.mkClient true [] 1 0 0)
  = (MySql.mkClient true [] 1 0 0,
     Thrown (ThrownError
       (SqlError CMySqlError "Client is closed" None
          (Some (NativeError CtorError "Error" "Client is closed"
                   None None None)) None None))).
Proof.
  apply (proj1 (query_outcomes string (MySql.mkClient true [] 1 0 0)
                  "SELECT 1" (Returned (MySql.RowsArray ["1"])) 2)).
  reflexivity.
Defined.

(** X24, a witness: a transaction whose function throws and whose rollback
    succeeds. *)
Lemma transaction_outcomes_witness :
  MySql.transaction (T := Z) (Returned tt)
    (Thrown (ThrownValue "boom")) (Returned tt) (Returned tt)
    (MySql.mkClient false [] 0 0 0)
  = (MySql.mkClient false
       (MySql.executed (MySql.mkClient false [] 0 0 0))
       (MySql.endCalls (MySql.mkClient false [] 0 0 0))
       (MySql.commitCalls (MySql.mkClient false [] 0 0 0))
       (S (MySql.rollbackCalls (MySql.mkClient false [] 0 0 0))),
     match Returned tt with
     | Returned _ => Thrown (ThrownValue "boom")
     | Thrown y => Thrown y
     | Pending => Pending
     end).
Proof.
  apply (proj1 (proj2 (transaction_outcomes Z (MySql.mkClient false [] 0 0 0)
                         (Returned tt) (Thrown (ThrownValue "boom"))
                         (Returned tt) (Returned tt) eq_refl)));
    reflexivity.
Defined.

(* ================================================================= *)
(** ** Arrays with helper methods *)

Lemma nth_error_last {T} (xs : list T) (x : T) :
  nth_error (xs ++ [x]) (List.length xs) = Some x.
Proof.
  rewrite nth_error_app2 by lia. rewrite Nat.sub_diag; reflexivity.
Qed.

(** A list is empty or ends with an element. *)
Lemma empty_or_snoc {T} (xs : list T) :
  xs = [] \/ exists front y, xs = (front ++ [y])%list.
Proof.
  destruct xs as [|x xs]; [left; reflexivity|right].
  destruct (exists_last (l := x :: xs)) as [front [y H]]; [discriminate|].
  exists front, y; exact H.
Qed.

(** X25: on the rows of a query, [first()] gives the first row and
    [last()] the last one ([undefined] on an empty result); the throwing
    helpers throw [No rows found] exactly on an empty result, and
    otherwise return what [first()] and [last()] give. *)
Theorem sql_rows_helpers :
  forall (T : Type) (rows : list T),
    SqlRows.first rows = hd_error rows
    /\ SqlRows.last rows = hd_error (rev rows)
    /\ SqlRows.firstOrThrow rows
       = match hd_error rows with
         | Some row => Returned (Some row)
         | None => Thrown "No rows found"
         end
    /\ SqlRows.lastOrThrow rows
       = match hd_error (rev rows) with
         | Some row => Returned (Some row)
         | None => Thrown "No rows found"
         end.
Proof.
  intros T rows.
  split; [destruct rows; reflexivity|].
  destruct (empty_or_snoc rows) as [-> | [front [y ->]]];
    [repeat split|].
  unfold SqlRows.last, SqlRows.firstOrThrow, SqlRows.lastOrThrow.
  rewrite rev_app_distr, length_app; cbn [List.length rev app hd_error].
  replace (List.length front + 1)%nat with (S (List.length front)) by lia.
  replace (S (List.length front) - 1)%nat with (List.length front) by lia.
  rewrite nth_error_last.
  destruct (Z.eqb_spec (Z.of_nat (S (List.length front))) 0); [lia|].
  repeat split. destruct front; reflexivity.
Qed.

(** X26: on the documents of a find, [first()] gives the first document
    and [last()] the last one ([undefined] when there is none); the
    throwing helpers throw their [No documents found] error exactly when
    there is none, and otherwise return what [first()] and [last()]
    give. *)
Theorem mongo_docs_helpers :
  forall (T : Type) (items : list T),
    Mongo.first (Mongo.createMongoDocs items) = hd_error items
    /\ Mongo.last (Mongo.createMongoDocs items) = hd_error (rev items)
    /\ Mongo.firstOrThrow (Mongo.createMongoDocs items)
       = match hd_error items with
         | Some doc => Returned (Some doc)
         | None => Thrown "No documents found (firstOrThrow)"
         end
    /\ Mongo.lastOrThrow (Mongo.createMongoDocs items)
       = match hd_error (rev items) with
         | Some doc => Returned (Some doc)
         | None => Thrown "No documents found (lastOrThrow)"
         end.
Proof.
  intros T items. unfold Mongo.createMongoDocs.
  split; [destruct items; reflexivity|].
  destruct (empty_or_snoc items) as [-> | [front [y ->]]];
    [repeat split|].
  unfold Mongo.last, Mongo.firstOrThrow, Mongo.lastOrThrow.
  rewrite rev_app_distr, length_app; cbn [List.length rev app hd_error].
  replace (List.length front + 1)%nat with (S (List.length front)) by lia.
  replace (S (List.length front) - 1)%nat with (List.length front) by lia.
  rewrite nth_error_last.
  destruct (Z.eqb_spec (Z.of_nat (S (List.length front))) 0); [lia|].
  destruct (Z.gtb_spec (Z.of_nat (S (List.length front))) 0); [|lia].
  repeat split. destruct front; reflexivity.
Qed.

(** X27: on the messages of a receive, [first()] gives the first message
    and [last()] the last one ([undefined] when there is none); the
    throwing helpers throw [No messages available] exactly when there is
    none, and otherwise return the message itself. *)
Theorem sqs_messages_helpers :
  forall (T : Type) (messages : list T),
    SqsMessages.first (SqsMessages.createSqsMessages messages)
    = hd_error messages
    /\ SqsMessages.last (SqsMessages.createSqsMessages messages)
       = hd_error (rev messages)
    /\ SqsMessages.firstOrThrow (SqsMessages.createSqsMessages messages)
       = match hd_error messages with
         | Some msg => Returned msg
         | None => Thrown "No messages available"
         end
    /\ SqsMessages.lastOrThrow (SqsMessages.createSqsMessages messages)
       = match hd_error (rev messages) with
         | Some msg => Returned msg
         | None => Thrown "No messages available"
         end.
Proof.
  intros T messages. unfold SqsMessages.createSqsMessages.
  split; [destruct messages; reflexivity|].
  assert (Hlast : SqsMessages.last messages = hd_error (rev messages)).
  { destruct (empty_or_snoc messages) as [-> | [front [y ->]]];
      [reflexivity|].
    unfold SqsMessages.last.
    rewrite rev_app_distr, length_app; cbn [List.length rev app hd_error].
    replace (List.length front + 1)%nat with (S (List.length front)) by lia.
    apply nth_error_last. }
  split; [exact Hlast|split].
  - destruct messages; reflexivity.
  - unfold SqsMessages.lastOrThrow. rewrite Hlast.
    destruct (hd_error (rev messages)); reflexivity.
Qed.

Section Receive.

Import SqsClient.

(** X28: when the backend answers a receive, the client returns
    [ok = true] with one message for each message of the answer, in the
    same order, each with the body and the receipt handle of its
    original; a missing list of messages gives an empty array, and a
    message without system attributes gets an empty record of them. *)
Theorem receive_maps_messages :
  forall (c : SqsClientImpl) (options : option SqsReceiveOptions)
         (reply : list (Event ReceiveMessageOutput)) (elapsed : number)
         (response : ReceiveMessageOutput),
    closed c = false ->
    awaited (withOptions reply (option_map receiveCommon options) "receive")
    = Returned response ->
    exists r,
      snd (receive options reply elapsed c) = Returned r
      /\ ok r = true
      /\ List.length (fields r) = List.length (nullish (Messages response) [])
      /\ (forall i msg,
             nth_error (nullish (Messages response) []) i = Some msg ->
             exists received,
               nth_error (fields r) i = Some received
               /\ receivedBody received = sdkBody msg
               /\ receiptHandle received = sdkReceiptHandle msg
               /\ attributes received = nullish (sdkAttributes msg) []
               /\ receivedMessageAttributes received
                  = convertMessageAttributes (sdkMessageAttributes msg)).
Proof.
  intros c options reply elapsed response Hc Hr.
  rewrite receive_open by assumption. cbn [snd]. rewrite Hr.
  eexists; split; [reflexivity|]. cbn [ok fields].
  split; [reflexivity|split; [apply length_map|]].
  intros i msg Hi.
  eexists; split; [apply map_nth_error; exact Hi|].
  repeat split.
Qed.

(** X28, a witness: an answer with one message and no attributes. *)
Lemma receive_maps_messages_witness :
  exists r,
    snd (receive None
           [OpSettles (Resolved (mkReceiveOutput
              (Some [mkSdkMessage (Some "m-1") (Some [104; 105]%N) (Some "rh-1")
                                  None None (Some "md5")])))]
           8 (mkClient "https://sqs.local/queue" false [] 0))
    = Returned r
    /\ ok r = true
    /\ List.length (fields r)
       = List.length (nullish (Messages (mkReceiveOutput
           (Some [mkSdkMessage (Some "m-1") (Some [104; 105]%N) (Some "rh-1")
                               None None (Some "md5")]))) [])
    /\ (forall i msg,
           nth_error (nullish (Messages (mkReceiveOutput
             (Some [mkSdkMessage (Some "m-1") (Some [104; 105]%N) (Some "rh-1")
                                 None None (Some "md5")]))) []) i = Some msg ->
           exists received,
             nth_error (fields r) i = Some received
             /\ receivedBody received = sdkBody msg
             /\ receiptHandle received = sdkReceiptHandle msg
             /\ attributes received = nullish (sdkAttributes msg) []
             /\ receivedMessageAttributes received
                = convertMessageAttributes (sdkMessageAttributes msg)).
Proof.
  apply (receive_maps_messages
           (mkClient "https://sqs.local/queue" false [] 0) None
           [OpSettles (Resolved (mkReceiveOutput
              (Some [mkSdkMessage (Some "m-1") (Some [104; 105]%N) (Some "rh-1")
                                  None None (Some "md5")])))]
           8);
    reflexivity.
Defined.

End Receive.

Section StoredCookies.

Import HttpResponse HttpClient.

Lemma storeCookies_app (a b : list JsString) (jar : list (JsString * JsString)) :
  storeCookies (a ++ b) jar = storeCookies b (storeCookies a jar).
Proof.
  revert jar; induction a as [|s a IH]; intros jar; simpl; [reflexivity|].
  destruct (parseSetCookie (trim s)); apply IH.
Qed.

(** X29: with cookies enabled, the last [Set-Cookie] value of a received
    response is in the jar after the request under the name it parses to,
    whether the request returns the response or throws its error; a value
    that does not parse is skipped. *)
Theorem response_cookie_is_stored :
  forall (Json : Type) (decode : list Byte.byte -> string)
         (inspectJson : string -> option string)
         (options : option HttpOptions) (url : string)
         (rawResponse : Response) (responseBody : option (list Byte.byte))
         (elapsed : number) (c : HttpClientImpl)
         (earlier : list JsString) (setCookie : JsString),
    cookiesEnabled c = true ->
    readBody rawResponse = Returned responseBody ->
    setCookies rawResponse = (earlier ++ [setCookie])%list ->
    match parseSetCookie (trim setCookie) with
    | Some parsed =>
        getEntry unitsEqb (fst parsed)
          (getCookies (fst (request Json decode inspectJson options url
                              (Returned rawResponse) elapsed c)))
        = Some (snd parsed)
    | None =>
        getCookies (fst (request Json decode inspectJson options url
                           (Returned rawResponse) elapsed c))
        = storeCookies earlier (cookieJar c)
    end.
Proof.
  intros Json decode inspectJson options url rawResponse responseBody elapsed
         c earlier setCookie He Hb Hs.
  rewrite (request_fetch_resolved Json decode inspectJson options url
             rawResponse responseBody elapsed c Hb).
  rewrite He. cbn [fst getCookies cookieJar].
  rewrite Hs, storeCookies_app. cbn [storeCookies].
  destruct (parseSetCookie (trim setCookie)) as [[n v]|]; [|reflexivity].
  cbn [fst snd]. apply getEntry_setEntry_same. apply unitsEqb_spec.
Qed.

End StoredCookies.

(** X29, a witness: a 401 answer that sets [sid=42], with
    [throwOnError = true]. *)
Lemma response_cookie_is_stored_witness :
  match HttpClient.parseSetCookie
          (HttpClient.trim [115; 105; 100; 61; 52; 50; 59; 32; 80]%N) with
  | Some parsed =>
      HttpClient.getEntry HttpClient.unitsEqb (fst parsed)
        (HttpClient.getCookies
           (fst (HttpClient.request unit (fun _ => "") (fun _ => None)
                   (Some (HttpClient.mkOptions (mkCommonOptions None None)
                                               None (Some true)))
                   "http://localhost/login"
                   (Returned (HttpResponse.mkResponse 401 "Unauthorized" false
                                "http://localhost/login" (fun _ => None) true
                                (Returned [])
                                [[115; 105; 100; 61; 52; 50; 59; 32; 80]%N]))
                   4
                   (HttpClient.createHttpClient
                      (HttpClient.mkConfig (inl "http://localhost")
                                           None None None)))))
      = Some (snd parsed)
  | None =>
      HttpClient.getCookies
        (fst (HttpClient.request unit (fun _ => "") (fun _ => None)
                (Some (HttpClient.mkOptions (mkCommonOptions None None)
                                            None (Some true)))
                "http://localhost/login"
                (Returned (HttpResponse.mkResponse 401 "Unauthorized" false
                             "http://localhost/login" (fun _ => None) true
                             (Returned [])
                             [[115; 105; 100; 61; 52; 50; 59; 32; 80]%N]))
                4
                (HttpClient.createHttpClient
                   (HttpClient.mkConfig (inl "http://localhost")
                                        None None None))))
      = HttpClient.storeCookies []
          (HttpClient.cookieJar
             (HttpClient.createHttpClient
                (HttpClient.mkConfig (inl "http://localhost") None None None)))
  end.
Proof.
  apply (response_cookie_is_stored unit (fun _ => "") (fun _ => None)
           (Some (HttpClient.mkOptions (mkCommonOptions None None)
                                       None (Some true)))
           "http://localhost/login"
           (HttpResponse.mkResponse 401 "Unauthorized" false
              "http://localhost/login" (fun _ => None) true (Returned [])
              [[115; 105; 100; 61; 52; 50; 59; 32; 80]%N])
           None 4
           (HttpClient.createHttpClient
              (HttpClient.mkConfig (inl "http://localhost") None None None))
           [] [115; 105; 100; 61; 52; 50; 59; 32; 80]%N);
    reflexivity.
Defined.

(* ================================================================= *)
(** ** Further witnesses *)

(** X5, a witness: a purge that the backend rejects with a value that is
    not an [Error]. *)
Lemma thrown_errors_are_client_errors_witness :
  exists e,
    ThrownError (SqsCommandError "throttled" "purge" None) = ThrownError e
    /\ SqsClient.isClientError
         (SqsClient.queueUrl
            (SqsClient.mkClient "https://sqs.local/queue" false [] 0)) e
       = true.
Proof.
  apply (proj2 (proj2 (proj2 (proj2 (proj2
           (thrown_errors_are_client_errors
              (SqsClient.mkClient "https://sqs.local/queue" false [] 0)
              (ThrownError (SqsCommandError "throttled" "purge" None)))))))
           None [OpSettles (Rejected (ThrownValue "throttled"))] 3).
  reflexivity.
Defined.

(** X7, a witness: the second of two receipt handles. *)
Lemma delete_batch_entry_ids_witness :
  nth_error (SqsClient.deleteEntries 0 ["handle-a"; "handle-b"]) 1
  = Some (SqsClient.mkDeleteEntry (numberToString (Z.of_nat 1)) "handle-b").
Proof.
  apply (proj1 (proj2 (delete_batch_entry_ids ["handle-a"; "handle-b"]))
           1%nat "handle-b").
  reflexivity.
Defined.

(* ================================================================= *)
(** ** The deprecated response constructor *)

Section DeprecatedConstructor.

Import HttpResponse HttpClient.

(** X30: for a response that is [ok], the deprecated [createHttpResponse]
    completes exactly as a request does (the same success response, or the
    same failure of the body read). For a response that is not [ok] it
    returns an error response that satisfies the tri-state invariant and
    holds a plain [Error] with the message [HTTP status: statusText], where
    a request holds an [HttpError]. *)
Theorem deprecated_constructor_agrees :
  forall (Json : Type) (decode : list Byte.byte -> string)
         (inspectJson : string -> option string)
         (options : option HttpOptions) (url : string)
         (rawResponse : Response) (elapsed : number) (c : HttpClientImpl),
    (rawOk rawResponse = true ->
     snd (request Json decode inspectJson options url (Returned rawResponse)
            elapsed c)
     = createHttpResponse rawResponse elapsed)
    /\ (rawOk rawResponse = false ->
        forall r : HttpResponse Json,
          createHttpResponse rawResponse elapsed = Returned r ->
          TriState r
          /\ processed r = true /\ ok r = false
          /\ errorValue r
             = Some (NativeError CtorError "Error"
                       ("HTTP " ++ numberToString (rawStatus rawResponse)
                          ++ ": " ++ rawStatusText rawResponse)
                       None None None)
          /\ Errors.kind (NativeError CtorError "Error"
                            ("HTTP " ++ numberToString (rawStatus rawResponse)
                               ++ ": " ++ rawStatusText rawResponse)
                            None None None) = None).
Proof.
  intros Json decode inspectJson options url rawResponse elapsed c; split.
  - intros Hok. unfold createHttpResponse.
    destruct (readBody rawResponse) as [b|y|] eqn:Hb.
    + rewrite (request_fetch_resolved Json decode inspectJson options url
                 rawResponse b elapsed c Hb).
      cbn [snd]. rewrite Hok; reflexivity.
    + unfold request, Method.bind, Method.get, Method.lift.
      rewrite Hb; reflexivity.
    + unfold request, Method.bind, Method.get, Method.lift.
      rewrite Hb; reflexivity.
  - intros Hok r. unfold createHttpResponse.
    destruct (readBody rawResponse) as [b|y|]; try discriminate.
    rewrite Hok. intros H; inversion H; subst r.
    repeat split.
Qed.

End DeprecatedConstructor.

(** X30, a witness: a 200 answer with a body of two bytes. *)
Lemma deprecated_constructor_agrees_witness :
  snd (HttpClient.request unit (fun _ => "ok") (fun _ => None) None
         "http://localhost/ping"
         (Returned (HttpResponse.mkResponse 200 "OK" true
                      "http://localhost/ping" (fun _ => None) false
                      (Returned [Byte.x6f; Byte.x6b]) []))
         1
         (HttpClient.createHttpClient
            (HttpClient.mkConfig (inl "http://localhost") None None None)))
  = HttpResponse.createHttpResponse
      (HttpResponse.mkResponse 200 "OK" true "http://localhost/ping"
         (fun _ => None) false (Returned [Byte.x6f; Byte.x6b]) [])
      1.
Proof.
  apply (proj1 (deprecated_constructor_agrees unit (fun _ => "ok")
                  (fun _ => None) None "http://localhost/ping"
                  (HttpResponse.mkResponse 200 "OK" true
                     "http://localhost/ping" (fun _ => None) false
                     (Returned [Byte.x6f; Byte.x6b]) [])
                  1
                  (HttpClient.createHttpClient
                     (HttpClient.mkConfig (inl "http://localhost")
                                          None None None)))).
  reflexivity.
Defined.
